(** * StatusLine_Win: spend ledger, period-cost tracker, context scanner
      and month report

    A shallow embedding of the persistence and aggregation code of the
    status line ([saveSession], [updatePeriodCost], [getCurrentPeriodCost],
    [getContextTokens]) and of the month report command
    (spend-month-win.ts), followed by the properties proved about them.

    Conventions of the embedding:
    - a JavaScript [number] that holds money, a duration or a token count
      is a binary64 float ([PrimFloat.float]); truthiness, [+] and [>]
      are the IEEE operations;
    - a time value (milliseconds since the epoch) is an integer [Z]; a
      [Date] object is [option Z], [None] being the Invalid Date (time
      value NaN);
    - a number field of a record read from a file is a number or [null]
      (what [JSON.stringify] writes for [Infinity] and [NaN]); no JSON text
      parses to NaN, so in a stored record NaN stands for [null];
    - a string is a [string], compared code unit by code unit;
    - the files under data/ are an explicit [Disk] record threaded through
      the functions; [try { ... } catch {}] is a handler of a small
      state-and-exception monad. *)

From Stdlib Require Import ZArith Bool List String Ascii Lia Floats.
From Stdlib Require Import DecimalString DecimalZ DecimalPos.
From Stdlib Require Uint63.
From Stdlib Require Import Sorted Permutation.
Import ListNotations.

Local Open Scope string_scope.
Local Open Scope Z_scope.

(* ================================================================== *)
(** * The host: numbers, strings and dates as the runtime defines them *)
(* ================================================================== *)

Module JS.

(** ** Truthiness *)

(** [!x] on a number is true for [0], [-0] and [NaN]. *)
Definition falsy_num (x : float) : bool :=
  (PrimFloat.eqb x PrimFloat.zero || PrimFloat.is_nan x)%bool.

(** [!s] on a string is true for the empty string only. *)
Definition falsy_str (s : string) : bool :=
  match s with
  | EmptyString => true
  | String _ _ => false
  end.

(** [!v] on a [string | null]. *)
Definition falsy_opt_str (v : option string) : bool :=
  match v with
  | None => true
  | Some s => falsy_str s
  end.

(** [x || 0] on an optional numeric field ([undefined], [0] and [NaN] give
    [0]). *)
Definition num_or_zero (v : option float) : float :=
  match v with
  | None => PrimFloat.zero
  | Some x => if falsy_num x then PrimFloat.zero else x
  end.

(** ** Numbers across JSON *)

(** [JSON.parse(JSON.stringify(x))] on a number field: a finite number
    comes back as it is ([-0] as [0], since it is written "0");
    [Infinity], [-Infinity] and [NaN] are written [null], which is kept
    here as NaN, the one float that no JSON text parses to. *)
Definition json_number (x : float) : float :=
  if PrimFloat.is_finite x
  then if PrimFloat.eqb x PrimFloat.zero then PrimFloat.zero else x
  else PrimFloat.nan.

(** [ToNumber] of a number field read from a file, as [+] and [+=] apply
    it: a number is itself and [null] is [0]. *)
Definition to_number (x : float) : float :=
  if PrimFloat.is_nan x then PrimFloat.zero else x.

(** [x.toFixed(2)] on a number field read from a file throws a TypeError
    on [null]: whether it throws. *)
Definition is_null (x : float) : bool := PrimFloat.is_nan x.

(** ** Time values (ECMAScript, Date objects) *)

Definition msPerSecond : Z := 1000.
Definition msPerMinute : Z := 60000.
Definition msPerHour : Z := 3600000.
Definition msPerDay : Z := 86400000.

(** A Date: [Some t] with [t] its time value, [None] for the Invalid Date. *)
Definition Date : Type := option Z.

Definition TimeClip (t : Z) : Date :=
  if Z.abs t <=? 8640000000000000 then Some t else None.

Definition Day (t : Z) : Z := t / msPerDay.
Definition TimeWithinDay (t : Z) : Z := t mod msPerDay.
Definition HourFromTime (t : Z) : Z := (t / msPerHour) mod 24.
Definition MinFromTime (t : Z) : Z := (t / msPerMinute) mod 60.
Definition SecFromTime (t : Z) : Z := (t / msPerSecond) mod 60.
Definition msFromTime (t : Z) : Z := t mod msPerSecond.

Definition MakeTime (hour min sec ms : Z) : Z :=
  hour * msPerHour + min * msPerMinute + sec * msPerSecond + ms.

Definition MakeDate (day time : Z) : Z := day * msPerDay + time.

(** The proleptic Gregorian calendar: the civil date of a day number
    (days since 1970-01-01) and back.  Months are 1..12 here. *)
Definition civil_from_days (days : Z) : Z * Z * Z :=
  let z := days + 719468 in
  let era := z / 146097 in
  let doe := z - era * 146097 in
  let yoe := (doe - doe / 1460 + doe / 36524 - doe / 146096) / 365 in
  let doy := doe - (365 * yoe + yoe / 4 - yoe / 100) in
  let mp := (5 * doy + 2) / 153 in
  let d := doy - (153 * mp + 2) / 5 + 1 in
  let m := if mp <? 10 then mp + 3 else mp - 9 in
  let y := yoe + era * 400 in
  (if m <=? 2 then y + 1 else y, m, d).

Definition days_from_civil (y m d : Z) : Z :=
  let y' := if m <=? 2 then y - 1 else y in
  let era := y' / 400 in
  let yoe := y' - era * 400 in
  let doy := (153 * (if 2 <? m then m - 3 else m + 9) + 2) / 5 + d - 1 in
  let doe := yoe * 365 + yoe / 4 - yoe / 100 + doy in
  era * 146097 + doe - 719468.

Definition YearFromTime (t : Z) : Z := fst (fst (civil_from_days (Day t))).
(** [MonthFromTime] is 0-based, as [getMonth] is. *)
Definition MonthFromTime (t : Z) : Z := snd (fst (civil_from_days (Day t))) - 1.
Definition DateFromTime (t : Z) : Z := snd (civil_from_days (Day t)).

(** [MakeDay year month date] for a month index that may lie outside
    0..11 (it carries into the year). *)
Definition MakeDay (year month date : Z) : Z :=
  let ym := year + month / 12 in
  let mn := month mod 12 in
  days_from_civil ym (mn + 1) 1 + date - 1.

(** ** Decimal output *)

Definition digit_char (d : Z) : ascii :=
  ascii_of_nat (48 + Z.to_nat (d mod 10)).

(** The last [width] decimal digits of [n], most significant first. *)
Fixpoint pad_digits (width : nat) (n : Z) (acc : string) : string :=
  match width with
  | O => acc
  | S w => pad_digits w (n / 10) (String (digit_char n) acc)
  end.

Definition pad (width : nat) (n : Z) : string := pad_digits width n "".

(** The year of an ISO string: four digits from 0 to 9999, otherwise a
    sign and six digits. *)
Definition iso_year (y : Z) : string :=
  if (0 <=? y) && (y <=? 9999) then pad 4 y
  else if y <? 0 then "-" ++ pad 6 (- y)
  else "+" ++ pad 6 y.

Definition iso_string (t : Z) : string :=
  iso_year (YearFromTime t) ++ "-" ++ pad 2 (MonthFromTime t + 1) ++ "-"
    ++ pad 2 (DateFromTime t) ++ "T" ++ pad 2 (HourFromTime t) ++ ":"
    ++ pad 2 (MinFromTime t) ++ ":" ++ pad 2 (SecFromTime t) ++ "."
    ++ pad 3 (msFromTime t) ++ "Z".

(** [d.toISOString()]: [None] stands for the RangeError thrown on the
    Invalid Date. *)
Definition toISOString (d : Date) : option string :=
  match d with
  | Some t => Some (iso_string t)
  | None => None
  end.

(** [s.split(sep)[0]] for a one-character separator: the part of [s]
    before the first [sep] (all of [s] when there is none). *)
Fixpoint split_head (sep : ascii) (s : string) : string :=
  match s with
  | EmptyString => EmptyString
  | String c rest =>
      if Ascii.eqb c sep then EmptyString else String c (split_head sep rest)
  end.

(** [s.split(sep)] for a one-character separator. *)
Fixpoint split_on (sep : ascii) (s : string) : list string :=
  match s with
  | EmptyString => [EmptyString]
  | String c rest =>
      if Ascii.eqb c sep then EmptyString :: split_on sep rest
      else match split_on sep rest with
           | [] => [String c EmptyString]
           | piece :: pieces => String c piece :: pieces
           end
  end.

End JS.

(* ================================================================== *)
(** * Data model (the interfaces of the status line)                   *)
(* ================================================================== *)

(** [HookInput.cost]. *)
Record Cost := mkCost {
  total_cost_usd : float;
  total_duration_ms : float;
  total_lines_added : float;
  total_lines_removed : float
}.

(** [HookInput], without [model] and [workspace], which the functions
    embedded here never read. *)
Record HookInput := mkHookInput {
  session_id : string;
  transcript_path : string;
  i_cwd : string;
  i_cost : Cost
}.

(** [SpendSession]; the fields carry an [s_] prefix ([id], [cost], [date],
    [duration_ms], [cwd] in the source).  In a record read from a file a
    number field that is NaN is [null]. *)
Record SpendSession := mkSpendSession {
  s_id : string;
  s_cost : float;
  s_date : string;
  s_duration_ms : float;
  s_cwd : string
}.

(** [SpendData]. *)
Record SpendData := mkSpendData { sessions : list SpendSession }.

(** [PeriodCostData] ([cost] is [p_cost] here; NaN in a record read from
    a file is [null]). *)
Record PeriodCostData := mkPeriodCostData {
  resets_at : string;
  p_cost : float;
  last_session_id : string
}.

(** What a path of the file system holds, as a loader sees it: nothing
    ([existsSync] is false), something whose read or [JSON.parse] throws, or
    the value [JSON.parse] gives, of the expected interface up to [null]
    in a number field (kept as NaN). *)
Inductive File (A : Type) : Type :=
| Missing
| Unreadable
| Holds (a : A).
Arguments Missing {A}.
Arguments Unreadable {A}.
Arguments Holds {A} a.

(** What [JSON.parse] reads back from [JSON.stringify(session)]: the
    strings as they are, the numbers as JSON keeps them. *)
Definition json_session (s : SpendSession) : SpendSession :=
  mkSpendSession (s_id s) (JS.json_number (s_cost s)) (s_date s)
                 (JS.json_number (s_duration_ms s)) (s_cwd s).

Definition json_spend (data : SpendData) : SpendData :=
  mkSpendData (map json_session (sessions data)).

Definition json_period (data : PeriodCostData) : PeriodCostData :=
  mkPeriodCostData (resets_at data) (JS.json_number (p_cost data))
                   (last_session_id data).

(** One [writeFile] call, with the value its text parses to. *)
Inductive Write : Type :=
| WriteSpend (d : SpendData)
| WritePeriod (d : PeriodCostData).

(** The data directory: whether it exists, its two files, and the log of
    the writes performed so far (newest first). *)
Record Disk := mkDisk {
  data_dir : bool;
  spend_file : File SpendData;
  period_file : File PeriodCostData;
  writes : list Write
}.

(* ================================================================== *)
(** * Effects: state over the disk, with exceptions                    *)
(* ================================================================== *)

(** A computation runs on a disk and either returns ([Some]) or throws
    ([None]); the disk it leaves is kept in both cases. *)
Definition M (A : Type) : Type := Disk -> option A * Disk.

Definition ret {A} (a : A) : M A := fun d => (Some a, d).

Definition throw {A} : M A := fun d => (None, d).

Definition bind {A B} (m : M A) (k : A -> M B) : M B :=
  fun d =>
    match m d with
    | (Some a, d') => k a d'
    | (None, d') => (None, d')
    end.

(** A value that may be an exception ([toISOString] of an Invalid Date). *)
Definition lift {A} (v : option A) : M A :=
  match v with
  | Some a => ret a
  | None => throw
  end.

(** [try { body } catch {}]. *)
Definition try_catch (body : M unit) : M unit :=
  fun d => (Some tt, snd (body d)).

(** [try { return body } catch { return fallback }]. *)
Definition try_or {A} (body : M A) (fallback : A) : M A :=
  fun d =>
    match body d with
    | (Some a, d') => (Some a, d')
    | (None, d') => (Some fallback, d')
    end.

Notation "x <- m ;; k" := (bind m (fun x => k))
  (at level 61, m at next level, right associativity).
Notation "m ;;; k" := (bind m (fun _ => k))
  (at level 61, right associativity).

(** The disk a call leaves. *)
Definition exec {A} (m : M A) (d : Disk) : Disk := snd (m d).

(** The value a call returns ([None] when it throws). *)
Definition eval {A} (m : M A) (d : Disk) : option A := fst (m d).

(** [if (!existsSync(DATA_DIR)) mkdirSync(DATA_DIR, { recursive: true })]. *)
Definition ensure_data_dir : M unit :=
  fun d =>
    (Some tt,
     if data_dir d then d
     else mkDisk true (spend_file d) (period_file d) (writes d)).

(** [writeFile(SPEND_FILE, JSON.stringify(data, null, 2))]: the file
    then holds what the text parses to, every record of the ledger
    included.  Writes succeed: the disk is never full or read-only here. *)
Definition write_spend (data : SpendData) : M unit :=
  fun d =>
    (Some tt,
     mkDisk (data_dir d) (Holds (json_spend data)) (period_file d)
            (WriteSpend (json_spend data) :: writes d)).

(** [writeFile(PERIOD_FILE, JSON.stringify(data, null, 2))]. *)
Definition write_period (data : PeriodCostData) : M unit :=
  fun d =>
    (Some tt,
     mkDisk (data_dir d) (spend_file d) (Holds (json_period data))
            (WritePeriod (json_period data) :: writes d)).

(* ================================================================== *)
(** * The status line (spend tracking and period cost)                 *)
(* ================================================================== *)

Section StatusLine.

(** [new Date(s)] on a string: the time value, or [None] for the Invalid
    Date.  How the host reads date strings is left open. *)
Variable Date_parse : string -> JS.Date.

(** The local time zone, as ECMAScript has it: [LocalTime t] is the local
    (wall-clock) time of the instant [t], [UTC l] the instant the host
    takes the local time [l] to denote.  Both are the host's: across a
    daylight-saving change the offset between them is not the same on each
    side. *)
Variable LocalTime : Z -> Z.
Variable UTC : Z -> Z.

(** [new Date(v)] for a [string | null] ([new Date(null)] is the epoch). *)
Definition new_Date (v : option string) : JS.Date :=
  match v with
  | Some s => Date_parse s
  | None => Some 0
  end.

(** [d.getMinutes()]: the minutes field of local time ([None] is NaN). *)
Definition getMinutes (d : JS.Date) : option Z :=
  match d with
  | Some t => Some (JS.MinFromTime (LocalTime t))
  | None => None
  end.

(** [Math.round(n / k)] for integers [n] and [k > 0]: the quotient rounded
    to the nearest integer, a half going up. *)
Definition Math_round_div (n k : Z) : Z := (2 * n + k) / (2 * k).

(** [d.setMinutes(min, sec, ms)]: the date [d] becomes.  The fields are
    those of local time, and the new local time is turned into an instant
    by the host ([UTC]). *)
Definition setMinutes (d : JS.Date) (min : option Z) (sec ms : Z) : JS.Date :=
  match d, min with
  | Some t, Some m =>
      let t' := LocalTime t in
      JS.TimeClip
        (UTC (JS.MakeDate (JS.Day t')
                          (JS.MakeTime (JS.HourFromTime t') m sec ms)))
  | _, _ => None
  end.

(** Lines 339-342 of [updatePeriodCost]: the reset date with its minutes
    rounded to a multiple of 5 and its seconds and milliseconds cleared. *)
Definition normalizeResetDate (resetDate : JS.Date) : JS.Date :=
  let mins := getMinutes resetDate in
  setMinutes resetDate
             (option_map (fun m => Math_round_div m 5 * 5) mins) 0 0.

(** The key itself ([normalizedReset] in the source); [None] when
    [toISOString] throws. *)
Definition normalizeReset (resetsAt : option string) : option string :=
  JS.toISOString (normalizeResetDate (new_Date resetsAt)).

(** ** Spend tracking *)

(** What [loadSpendData] makes of SPEND_FILE: the empty ledger when the
    file is absent or unreadable. *)
Definition ledger (d : Disk) : SpendData :=
  match spend_file d with
  | Missing => mkSpendData []
  | Unreadable => mkSpendData []
  | Holds data => data
  end.

Definition loadSpendData : M SpendData :=
  fun d => (Some (ledger d), d).

(** [arr.findIndex(p)]: the index of the first element that satisfies [p],
    or [-1]. *)
Fixpoint findIndex {A} (p : A -> bool) (arr : list A) : Z :=
  match arr with
  | [] => -1
  | x :: rest =>
      if p x then 0
      else let i := findIndex p rest in
           if i =? -1 then -1 else i + 1
  end.

(** [arr[idx] = v] for an index inside the array (the only use made of
    it: [idx] comes from [findIndex]); outside, where JavaScript would
    extend the array, the list is returned as it is. *)
Fixpoint assign_index {A} (arr : list A) (idx : nat) (v : A) : list A :=
  match arr, idx with
  | [], _ => []
  | _ :: rest, O => v :: rest
  | x :: rest, S i => x :: assign_index rest i v
  end.

(** [new Date().toISOString().split("T")[0]] at the instant [now]. *)
Definition today_of (now : Z) : option string :=
  option_map (JS.split_head "T"%char) (JS.toISOString (Some now)).

Definition saveSession (now : Z) (input : HookInput) : M unit :=
  if (JS.falsy_str (session_id input)
      || JS.falsy_num (total_cost_usd (i_cost input)))%bool
  then ret tt
  else
    try_catch (
      ensure_data_dir ;;;
      data <- loadSpendData ;;
      today <- lift (today_of now) ;;
      let session :=
        mkSpendSession (session_id input)
                       (total_cost_usd (i_cost input))
                       today
                       (total_duration_ms (i_cost input))
                       (i_cwd input) in
      let idx :=
        findIndex (fun s => String.eqb (s_id s) (session_id input))
                  (sessions data) in
      let data' :=
        if negb (idx =? -1)
        then mkSpendData (assign_index (sessions data) (Z.to_nat idx) session)
        else mkSpendData (sessions data ++ [session]) in
      write_spend data').

(** [getTodayCost]; [sum + s.cost] reads a stored [null] as [0]. *)
Definition getTodayCost (now : Z) : M float :=
  try_or (
    data <- loadSpendData ;;
    today <- lift (today_of now) ;;
    ret (fold_left (fun sum s => PrimFloat.add sum (JS.to_number (s_cost s)))
                   (filter (fun s => String.eqb (s_date s) today)
                           (sessions data))
                   PrimFloat.zero))
    PrimFloat.zero.

(** ** Period cost (5h window) *)

(** What [loadPeriodData] makes of PERIOD_FILE: [null] when the file is
    absent or unreadable. *)
Definition period_record (d : Disk) : option PeriodCostData :=
  match period_file d with
  | Missing => None
  | Unreadable => None
  | Holds data => Some data
  end.

Definition loadPeriodData : M (option PeriodCostData) :=
  fun d => (Some (period_record d), d).

Definition savePeriodData (data : PeriodCostData) : M unit :=
  try_catch (ensure_data_dir ;;; write_period data).

(** [updatePeriodCost]; [data.cost += sessionCost] reads a stored [null]
    as [0]. *)
Definition updatePeriodCost (sessionId : string) (sessionCost : float)
    (resetsAt : option string) : M unit :=
  if (JS.falsy_opt_str resetsAt || JS.falsy_num sessionCost)%bool
  then ret tt
  else
    try_catch (
      data <- loadPeriodData ;;
      normalizedReset <- lift (normalizeReset resetsAt) ;;
      match data with
      | Some data =>
          if String.eqb (resets_at data) normalizedReset
          then
            if negb (String.eqb (last_session_id data) sessionId)
            then savePeriodData
                   (mkPeriodCostData (resets_at data)
                                     (PrimFloat.add
                                        (JS.to_number (p_cost data))
                                        sessionCost)
                                     sessionId)
            else ret tt
          else savePeriodData
                 (mkPeriodCostData normalizedReset sessionCost sessionId)
      | None =>
          savePeriodData
            (mkPeriodCostData normalizedReset sessionCost sessionId)
      end).

(** [a > b] where [b] may be NaN. *)
Definition gt_time (a : Z) (b : option Z) : bool :=
  match b with
  | Some t => t <? a
  | None => false
  end.

(** [getCurrentPeriodCost]; the stored cost is returned as it is read
    ([null], NaN here, when the file holds [null]). *)
Definition getCurrentPeriodCost (now : Z) : M float :=
  try_or (
    data <- loadPeriodData ;;
    match data with
    | None => ret PrimFloat.zero
    | Some data =>
        let resetTime := Date_parse (resets_at data) in
        if gt_time now resetTime then ret PrimFloat.zero
        else ret (p_cost data)
    end)
    PrimFloat.zero.

(** ** Context *)

(** [message.usage] of a transcript record; a field that is absent is
    [None]. *)
Record Usage := mkUsage {
  input_tokens : option float;
  cache_read_input_tokens : option float;
  cache_creation_input_tokens : option float
}.

(** What [getContextTokens] reads of a parsed transcript line:
    [message?.usage], the two marks (by their truthiness) and
    [timestamp]. *)
Record TranscriptEntry := mkTranscriptEntry {
  message_usage : option Usage;
  isSidechain : bool;
  isApiErrorMessage : bool;
  timestamp : option string
}.

(** [JSON.parse(line)] followed by the reads above: [None] when it throws. *)
Variable JSON_parse : string -> option TranscriptEntry.

(** The transcript files: what a path holds ([Holds] is the text). *)
Variable read_text : string -> File string.

(** White space and line terminators, as [trim] removes them, among the
    code units below 256. *)
Definition is_space (c : ascii) : bool :=
  let n := nat_of_ascii c in
  (((9 <=? n)%nat && (n <=? 13)%nat) || (n =? 32)%nat || (n =? 160)%nat)%bool.

Fixpoint trim_start (s : string) : string :=
  match s with
  | EmptyString => EmptyString
  | String c rest => if is_space c then trim_start rest else s
  end.

(** [s] without its trailing white space. *)
Fixpoint trim_end (s : string) : string :=
  match s with
  | EmptyString => EmptyString
  | String c rest =>
      match trim_end rest with
      | EmptyString => if is_space c then EmptyString else String c EmptyString
      | rest' => String c rest'
      end
  end.

Definition trim (s : string) : string := trim_end (trim_start s).

(** [time > latest] on two dates (false when either is invalid). *)
Definition date_gt (time latest : JS.Date) : bool :=
  match time, latest with
  | Some a, Some b => b <? a
  | _, _ => false
  end.

(** The token count of a usage snapshot. *)
Definition usage_tokens (u : Usage) : float :=
  PrimFloat.add
    (PrimFloat.add (JS.num_or_zero (input_tokens u))
                   (JS.num_or_zero (cache_read_input_tokens u)))
    (JS.num_or_zero (cache_creation_input_tokens u)).

(** The test that makes the loop [continue]. *)
Definition skipped (data : TranscriptEntry) : bool :=
  (match message_usage data with None => true | Some _ => false end
   || isSidechain data
   || isApiErrorMessage data
   || JS.falsy_opt_str (timestamp data))%bool.

(** One turn of the loop over the lines, on the pair [(tokens, latest)]. *)
Definition scan_line (acc : float * option JS.Date) (line : string)
    : float * option JS.Date :=
  match JSON_parse line with
  | None => acc
  | Some data =>
      if skipped data then acc
      else
        let time := new_Date (timestamp data) in
        let newer :=
          match snd acc with
          | None => true
          | Some latest => date_gt time latest
          end in
        if newer
        then (match message_usage data with
              | Some u => usage_tokens u
              | None => fst acc
              end, Some time)
        else acc
  end.

Definition newline : ascii := ascii_of_nat 10.

Definition getContextTokens (transcriptPath : string) : float :=
  if JS.falsy_str transcriptPath then PrimFloat.zero
  else
    match read_text transcriptPath with
    | Missing => PrimFloat.zero
    | Unreadable => PrimFloat.zero
    | Holds content =>
        let lines := JS.split_on newline (trim content) in
        fst (fold_left scan_line lines (PrimFloat.zero, None))
    end.

End StatusLine.

(* ================================================================== *)
(** * The month report (commands/spend-month-win.ts)                   *)
(* ================================================================== *)

Section MonthReport.

(** The local time zone of the report: the offset of local time from
    UTC, in milliseconds, the same at [now] and at the local midnight that
    starts the month. *)
Variable LocalTZA : Z.

(** [a.localeCompare(b)]: negative, zero or positive.  The collation is
    the host's. *)
Variable localeCompare : string -> string -> Z.

(** One printed line of the report: the day, its cost and duration, and
    the number of its sessions. *)
Record DayRow := mkDayRow {
  row_date : string;
  dayCost : float;
  dayDuration : float;
  row_sessions : nat
}.

(** What [main] prints. *)
Inductive Report : Type :=
| NoSpendData
| NoSessionsThisMonth
| Month (rows : list DayRow) (grandTotal grandDuration : float)
        (grandSessions : nat).

(** [new Date(year, month, 1)]: local midnight of the first of the month,
    as a time value (a year from 0 to 99 counts from 1900). *)
Definition new_Date_ym1 (year month : Z) : JS.Date :=
  let yr := if (0 <=? year) && (year <=? 99) then 1900 + year else year in
  JS.TimeClip
    (JS.MakeDate (JS.MakeDay yr month 1) (JS.MakeTime 0 0 0 0) - LocalTZA).

(** [now.getFullYear()] and [now.getMonth()]. *)
Definition getFullYear (now : Z) : Z := JS.YearFromTime (now + LocalTZA).
Definition getMonth (now : Z) : Z := JS.MonthFromTime (now + LocalTZA).

(** [monthStart]; [None] when [toISOString] throws. *)
Definition monthStart (now : Z) : option string :=
  option_map (JS.split_head "T"%char)
             (JS.toISOString (new_Date_ym1 (getFullYear now) (getMonth now))).

(** [a >= b] on strings. *)
Definition str_ge (a b : string) : bool := String.leb b a.

(** A [Map<string, SpendSession[]>], in insertion order. *)
Definition DateMap : Type := list (string * list SpendSession).

Fixpoint map_get (key : string) (m : DateMap) : option (list SpendSession) :=
  match m with
  | [] => None
  | (k, v) :: rest => if String.eqb k key then Some v else map_get key rest
  end.

(** [m.set(key, v)]: an existing key keeps its place. *)
Fixpoint map_set (key : string) (v : list SpendSession) (m : DateMap)
    : DateMap :=
  match m with
  | [] => [(key, v)]
  | (k, v') :: rest =>
      if String.eqb k key then (k, v) :: rest
      else (k, v') :: map_set key v rest
  end.

(** The grouping loop. *)
Definition group_by_date (monthSessions : list SpendSession) : DateMap :=
  fold_left
    (fun byDate session =>
       let existing :=
         match map_get (s_date session) byDate with
         | Some l => l
         | None => []
         end in
       map_set (s_date session) (existing ++ [session]) byDate)
    monthSessions [].

(** [keys.sort(cmp)], as a stable insertion sort. *)
Fixpoint sort_insert (cmp : string -> string -> Z) (x : string)
    (l : list string) : list string :=
  match l with
  | [] => [x]
  | y :: rest =>
      if cmp x y <=? 0 then x :: l else y :: sort_insert cmp x rest
  end.

Definition sort_with (cmp : string -> string -> Z) (l : list string)
    : list string :=
  fold_right (sort_insert cmp) [] l.

(** The body of the loop over one day's sessions ([+=] reads a stored
    [null] as [0]). *)
Definition day_row (date : string) (ss : list SpendSession) : DayRow :=
  let '(dayCost, dayDuration) :=
    fold_left
      (fun acc s =>
         (PrimFloat.add (fst acc) (JS.to_number (s_cost s)),
          PrimFloat.add (snd acc) (JS.to_number (s_duration_ms s))))
      ss (PrimFloat.zero, PrimFloat.zero) in
  mkDayRow date dayCost dayDuration (List.length ss).

(** The loop over the sorted dates: the rows in printing order, and the
    three grand totals. *)
Definition report_rows (byDate : DateMap) (sortedDates : list string)
    : list DayRow :=
  map (fun date =>
         day_row date
                 match map_get date byDate with
                 | Some ss => ss
                 | None => []
                 end)
      sortedDates.

Definition grand_totals (rows : list DayRow) : float * float * nat :=
  fold_left
    (fun acc row =>
       let '(grandTotal, grandDuration, grandSessions) := acc in
       (PrimFloat.add grandTotal (dayCost row),
        PrimFloat.add grandDuration (dayDuration row),
        (grandSessions + row_sessions row)%nat))
    rows (PrimFloat.zero, PrimFloat.zero, O).

(** [main] at the instant [now], on what SPEND_FILE holds; [None] is an
    uncaught exception. *)
Definition main (now : Z) (spend : File SpendData) : option Report :=
  match spend with
  | Missing => Some NoSpendData
  | Unreadable => None
  | Holds data =>
      match monthStart now with
      | None => None
      | Some monthStart =>
          let monthSessions :=
            filter (fun s => str_ge (s_date s) monthStart) (sessions data) in
          if (List.length monthSessions =? 0)%nat then Some NoSessionsThisMonth
          else
            let byDate := group_by_date monthSessions in
            let sortedDates :=
              sort_with (fun a b => localeCompare b a) (map fst byDate) in
            let rows := report_rows byDate sortedDates in
            let '(grandTotal, grandDuration, grandSessions) :=
              grand_totals rows in
            Some (Month rows grandTotal grandDuration grandSessions)
      end
  end.

End MonthReport.

(* ================================================================== *)
(** * The status line, continued: formatters, git statistics, totals   *)
(* ================================================================== *)

(** [String(n)] for an integer [n] (below 10^21 in absolute value, where
    JavaScript switches to exponents). *)
Definition dec (n : Z) : string := NilZero.string_of_int (Z.to_int n).

Definition is_digit (c : ascii) : bool :=
  let n := nat_of_ascii c in ((48 <=? n)%nat && (n <=? 57)%nat)%bool.

Section Formatters.

Variable Date_parse : string -> JS.Date.

(** [formatDuration(ms)] for a whole number of milliseconds below 2^53
    in absolute value, where the binary64 quotients of the source, once
    floored, are the integer quotients: [Math.floor] of a quotient is
    [Z.div]; [%] is [Z.rem].  Beyond 2^53 the source's division rounds and
    this definition does not follow it. *)
Definition formatDuration (ms : Z) : string :=
  let mins := ms / 60000 in
  let hrs := mins / 60 in
  let m := Z.rem mins 60 in
  if 0 <? hrs then (dec hrs ++ "h" ++ dec m ++ "m")%string
  else (dec m ++ "m")%string.

(** [formatResetTime(resetsAt)] at the instant [now].  Nothing in the
    [try] block throws; on an Invalid Date every number is NaN, every
    comparison is false and the text is that of [`${NaN}m`]. *)
Definition formatResetTime (now : Z) (resetsAt : string) : string :=
  match Date_parse resetsAt with
  | None => "NaNm"
  | Some t =>
      let diff := t - now in
      if diff <=? 0 then "now"
      else
        let hrs := diff / 3600000 in
        let mins := Z.rem diff 3600000 / 60000 in
        if 0 <? hrs then (dec hrs ++ "h" ++ dec mins ++ "m")%string
        else (dec mins ++ "m")%string
  end.

End Formatters.

(** ** Paths *)

Definition backslash : ascii := ascii_of_nat 92.
Definition slash : ascii := ascii_of_nat 47.

(** [s.replace(/\\/g, "/")]. *)
Fixpoint replace_backslashes (s : string) : string :=
  match s with
  | EmptyString => EmptyString
  | String c rest =>
      String (if Ascii.eqb c backslash then slash else c)
             (replace_backslashes rest)
  end.

(** [arr.slice(-2)]: the last two elements (all of a shorter array). *)
Fixpoint last_two {A} (arr : list A) : list A :=
  match arr with
  | _ :: ((_ :: _ :: _) as rest) => last_two rest
  | _ => arr
  end.

(** [arr.join("/")]. *)
Definition join_slash (arr : list string) : string :=
  String.concat (String slash EmptyString) arr.

(** [s.slice(n)] for [n] within the string. *)
Fixpoint string_drop (n : nat) (s : string) : string :=
  match n, s with
  | O, _ => s
  | S n', String _ rest => string_drop n' rest
  | S _, EmptyString => EmptyString
  end.

(** [segs.filter(s => s)] after [p.split("/")]: the components of a path
    that are not empty. *)
Definition segments (p : string) : list string :=
  filter (fun s => negb (JS.falsy_str s)) (JS.split_on slash p).

(** [formatPath(path)], where [home] is what
    [process.env.USERPROFILE || process.env.HOME || ""] evaluates to. *)
Definition formatPath (home path : string) : string :=
  let p := replace_backslashes path in
  let p :=
    if JS.falsy_str home then p
    else
      let h := replace_backslashes home in
      if String.prefix h p
      then ("~" ++ string_drop (String.length h) p)%string
      else p in
  let segs := segments p in
  if (2 <? List.length segs)%nat
  then ("/" ++ join_slash (last_two segs))%string
  else p.

(** ** The progress bar *)

(** The float of an integer (exact below 2^53 in absolute value). *)
Definition float_of_Z (z : Z) : float :=
  if z <? 0 then PrimFloat.opp (PrimFloat.of_uint63 (Uint63.of_Z (- z)))
  else PrimFloat.of_uint63 (Uint63.of_Z z).

(** A number that is used as a count. *)
Inductive Rounded : Type :=
| Whole (z : Z)
| NotANumber
| Unbounded.

(** [Math.round(x)]: the nearest integer, a half going up. *)
Definition Math_round (x : float) : Rounded :=
  match Prim2SF x with
  | S754_zero _ => Whole 0
  | S754_finite s m e =>
      let v := if s then Z.neg m else Z.pos m in
      Whole (if 0 <=? e then v * 2 ^ e
             else (2 * v + 2 ^ (- e)) / 2 ^ (1 - e))
  | S754_nan => NotANumber
  | S754_infinity _ => Unbounded
  end.

(** The colours of the bar. *)
Inductive Color : Type := Gray | Yellow | Orange | Red.

(** A rendered bar: the colour of its filled part, the glyphs of that
    part as indices into [chars] (6 is the full cell), and the number of
    empty cells that follow in gray. *)
Record Bar := mkBar {
  bar_color : Color;
  filled : list Z;
  emptyPart : nat
}.

(** [progressBar(pct, len)] for a whole [len]; [None] is the RangeError
    of [repeat] on a negative or unbounded count. *)
Definition progressBar (pct : float) (len : Z) : option Bar :=
  let steps := len * (7 - 1) in
  let colorFn :=
    if PrimFloat.ltb pct 50 then Gray
    else if PrimFloat.ltb pct 70 then Yellow
    else if PrimFloat.ltb pct 90 then Orange
    else Red in
  match Math_round (PrimFloat.mul (PrimFloat.div pct 100)
                                  (float_of_Z steps)) with
  | Whole current =>
      let full := current / (7 - 1) in
      let partial := Z.rem current (7 - 1) in
      let empty := len - full - (if 0 <? partial then 1 else 0) in
      if (full <? 0) || (empty <? 0) then None
      else Some (mkBar colorFn
                       (repeat 6 (Z.to_nat full)
                          ++ (if 0 <? partial then [partial] else []))
                       (Z.to_nat empty))
  | NotANumber => Some (mkBar colorFn [] O)
  | Unbounded => None
  end.

(** The number of cells of a bar. *)
Definition cells (b : Bar) : Z :=
  Z.of_nat (List.length (filled b) + emptyPart b).

(** ** Git statistics *)

Definition tab : ascii := ascii_of_nat 9.

(** The value of the longest run of decimal digits at the head of [s],
    continuing from [acc]; [None] when there is no digit. *)
Fixpoint digits_prefix (s : string) (acc : option Z) : option Z :=
  match s with
  | EmptyString => acc
  | String c rest =>
      if is_digit c
      then digits_prefix rest
             (Some (10 * match acc with Some a => a | None => 0 end
                    + (Z.of_nat (nat_of_ascii c) - 48)))
      else acc
  end.

(** [parseInt(s, 10)]: [None] is NaN.  The value is exact, as the
    number is while it stays below 2^53. *)
Definition parseInt10 (s : string) : option Z :=
  match trim_start s with
  | EmptyString => None
  | String c rest =>
      if Ascii.eqb c "-" then option_map Z.opp (digits_prefix rest None)
      else if Ascii.eqb c "+" then digits_prefix rest None
      else digits_prefix (String c rest) None
  end.

(** One turn of the loop of [parseStats] on the pair [(added, deleted)];
    [deleted] is [None] once it is NaN (a line without a second
    field adds [undefined] to it). *)
Definition stats_line (acc : Z * option Z) (line : string) : Z * option Z :=
  if JS.falsy_str (trim line) then acc
  else
    let fields :=
      map (fun n => match parseInt10 n with Some v => v | None => 0 end)
          (JS.split_on tab line) in
    (fst acc + hd 0 fields,
     match snd acc, nth_error fields 1 with
     | Some deleted, Some d => Some (deleted + d)
     | _, _ => None
     end).

(** [parseStats(diff)] of [getGitStatus]. *)
Definition parseStats (diff : string) : Z * option Z :=
  fold_left stats_line (JS.split_on newline diff) (0, Some 0).

(** ** The daily total *)

(** Lines 392 and 459 of the main flow: the daily total shown after "D:",
    the ledger's total for today (read before the session is saved) plus
    the cost of the input. *)
Definition totalToday (now : Z) (input : HookInput) : M float :=
  todayCost <- getTodayCost now ;;
  ret (PrimFloat.add todayCost (total_cost_usd (i_cost input))).

(* ================================================================== *)
(** * The today report (commands/spend-today-win.ts)                   *)
(* ================================================================== *)

Section TodayReport.

(** One printed line of today's report: the session's cost, its duration
    and the last two components of its directory. *)
Record TodayLine := mkTodayLine {
  line_cost : float;
  line_duration_ms : float;
  line_path : string
}.

(** What the command prints. *)
Inductive TodayReport : Type :=
| TodayNoSpendData
| NoSessionsToday
| Today (today : string) (lines : list TodayLine)
        (totalCost totalDuration : float) (count : nat).

(** [main] of spend-today-win.ts at the instant [now], on what SPEND_FILE
    holds; [None] is an uncaught exception: a file that does not parse, a
    date that has no ISO string, or [session.cost.toFixed(2)] on a cost
    that is [null]. *)
Definition today_main (now : Z) (spend : File SpendData)
    : option TodayReport :=
  match spend with
  | Missing => Some TodayNoSpendData
  | Unreadable => None
  | Holds data =>
      match today_of now with
      | None => None
      | Some today =>
          let todaySessions :=
            filter (fun s => String.eqb (s_date s) today) (sessions data) in
          if (List.length todaySessions =? 0)%nat then Some NoSessionsToday
          else if existsb (fun session => JS.is_null (s_cost session))
                          todaySessions
          then None
          else
            let lines :=
              map (fun session =>
                     mkTodayLine
                       (s_cost session) (s_duration_ms session)
                       (join_slash
                          (last_two
                             (JS.split_on slash
                                (replace_backslashes (s_cwd session))))))
                  todaySessions in
            let '(totalCost, totalDuration) :=
              fold_left
                (fun acc session =>
                   (PrimFloat.add (fst acc) (JS.to_number (s_cost session)),
                    PrimFloat.add (snd acc)
                                  (JS.to_number (s_duration_ms session))))
                todaySessions (PrimFloat.zero, PrimFloat.zero) in
            Some (Today today lines totalCost totalDuration
                        (List.length todaySessions))
      end
  end.

End TodayReport.

(* ================================================================== *)
(** * A host instance for concrete runs                                *)
(* ================================================================== *)

Module Host.

Definition digit_of (c : ascii) : option Z :=
  let n := nat_of_ascii c in
  if ((48 <=? n)%nat && (n <=? 57)%nat)%bool then Some (Z.of_nat n - 48)
  else None.

(** The value of a run of decimal digits. *)
Fixpoint number_of (cs : list ascii) (acc : Z) : option Z :=
  match cs with
  | [] => Some acc
  | c :: rest =>
      match digit_of c with
      | Some d => number_of rest (10 * acc + d)
      | None => None
      end
  end.

(** [Date.parse] on the strings [toISOString] produces for the years 0 to
    9999 ([YYYY-MM-DDTHH:mm:ss.sssZ]); any other string is an Invalid
    Date here. *)
Definition parse_iso (s : string) : JS.Date :=
  match list_ascii_of_string s with
  | [y1; y2; y3; y4; c1; m1; m2; c2; d1; d2; c3; h1; h2; c4; n1; n2; c5;
     s1; s2; c6; f1; f2; f3; c7] =>
      if (String.eqb (string_of_list_ascii [c1; c2; c3; c4; c5; c6; c7])
                     "--T::.Z")
      then
        match number_of [y1; y2; y3; y4] 0, number_of [m1; m2] 0,
              number_of [d1; d2] 0, number_of [h1; h2] 0,
              number_of [n1; n2] 0, number_of [s1; s2] 0,
              number_of [f1; f2; f3] 0 with
        | Some y, Some m, Some d, Some h, Some n, Some sec, Some ms =>
            let day := JS.days_from_civil y m d in
            if ((1 <=? m) && (m <=? 12) && (1 <=? d)
                && (snd (JS.civil_from_days day) =? d)
                && (h <? 24) && (n <? 60) && (sec <? 60))%bool
            then JS.TimeClip (JS.MakeDate day (JS.MakeTime h n sec ms))
            else None
        | _, _, _, _, _, _, _ => None
        end
      else None
  | _ => None
  end.

(** The time zone of a host whose offset from UTC is constant
    ([LocalTZA] milliseconds, no daylight-saving change). *)
Definition local_time (LocalTZA : Z) (t : Z) : Z := t + LocalTZA.
Definition utc (LocalTZA : Z) (l : Z) : Z := l - LocalTZA.

(** Europe/Paris around the end of daylight saving in 2025: two hours
    east of UTC before 2025-10-26T01:00:00Z, one hour east from then on.
    The local hour from 02:00 to 03:00 of that day occurs twice and is
    read with the offset before the change, as ECMAScript asks. *)
Definition paris_local_time (t : Z) : Z :=
  if t <? 1761440400000 then t + 7200000 else t + 3600000.
Definition paris_utc (l : Z) : Z :=
  if l <? 1761447600000 then l - 7200000 else l - 3600000.

(** [a.localeCompare(b)] on strings of digits and hyphens of one length
    (dates), where collation order is code-unit order. *)
Definition compare_dates (a b : string) : Z :=
  match String.compare a b with
  | Lt => -1
  | Eq => 0
  | Gt => 1
  end.

(** [JSON.parse] and the reads that follow it, on the lines of a known
    transcript: each line stands for the record listed beside it, any
    other line does not parse. *)
Definition parse_lines (table : list (string * TranscriptEntry))
    (line : string) : option TranscriptEntry :=
  match find (fun entry => String.eqb (fst entry) line) table with
  | Some (_, e) => Some e
  | None => None
  end.

(** A file system with one text file. *)
Definition single_file (path content : string) (p : string) : File string :=
  if String.eqb p path then Holds content else Missing.

End Host.

(* ================================================================== *)
(** * Sample data for concrete runs                                    *)
(* ================================================================== *)

Module Sample.

(** A data directory that does not exist yet. *)
Definition fresh_disk : Disk := mkDisk false Missing Missing [].

(** A period record for the window that resets at 10:00 UTC. *)
Definition record_s1 : PeriodCostData :=
  mkPeriodCostData "2025-03-15T10:00:00.000Z" 1.5 "s1".

Definition disk_s1 : Disk :=
  mkDisk true Missing (Holds record_s1) [WritePeriod record_s1].

(** Two hook inputs of one session, the second later and dearer. *)
Definition input_a : HookInput :=
  mkHookInput "s1" "/t/s1.jsonl" "/w" (mkCost 0.5 60000 0 0).

Definition input_b : HookInput :=
  mkHookInput "s1" "/t/s1.jsonl" "/w" (mkCost 0.75 90000 3 1).

(** An input whose cost is not finite (1e999 in the JSON of standard
    input). *)
Definition input_endless : HookInput :=
  mkHookInput "s1" "/t/s1.jsonl" "/w" (mkCost PrimFloat.infinity 60000 0 0).

(** An input that carries no session id. *)
Definition input_unnamed : HookInput :=
  mkHookInput "" "/t/s1.jsonl" "/w" (mkCost 0.5 60000 0 0).

(** A ledger with a session of the day before. *)
Definition yesterday : SpendSession :=
  mkSpendSession "s0" 1 "2025-03-14" 1000 "C:/work/app".

Definition disk_s0 : Disk :=
  mkDisk true (Holds (mkSpendData [yesterday])) Missing [].

(** Three usage records; the first carries a timestamp that is no date.
    As transcript lines:
    { timestamp: 'soon', message: { usage: { input_tokens: 5 } } },
    { timestamp: '2025-03-15T10:00:00.000Z', message: { usage:
      { input_tokens: 7, cache_read_input_tokens: 100 } } } and
    { timestamp: '2025-03-15T10:05:00.000Z', message: { usage:
      { input_tokens: 9, cache_read_input_tokens: 200,
        cache_creation_input_tokens: 30 } } }. *)
Definition entry_undated : TranscriptEntry :=
  mkTranscriptEntry (Some (mkUsage (Some 5%float) None None)) false false
                    (Some "soon").

Definition entry_early : TranscriptEntry :=
  mkTranscriptEntry (Some (mkUsage (Some 7%float) (Some 100%float) None))
                    false false (Some "2025-03-15T10:00:00.000Z").

Definition entry_late : TranscriptEntry :=
  mkTranscriptEntry
    (Some (mkUsage (Some 9%float) (Some 200%float) (Some 30%float)))
    false false (Some "2025-03-15T10:05:00.000Z").

(** The transcript lines that stand for them. *)
Definition lines : list (string * TranscriptEntry) :=
  [("undated", entry_undated); ("early", entry_early); ("late", entry_late)].

(** A transcript of lines separated by line feeds. *)
Definition transcript (ls : list string) : string :=
  String.concat (String newline EmptyString) ls.

End Sample.

(* ================================================================== *)
(** * Vocabulary of the properties                                     *)
(* ================================================================== *)

Local Open Scope list_scope.

(** The record [saveSession] builds from its input at the instant [now]. *)
Definition session_record (now : Z) (input : HookInput) : SpendSession :=
  mkSpendSession (session_id input)
                 (total_cost_usd (i_cost input))
                 (JS.split_head "T"%char (JS.iso_string now))
                 (total_duration_ms (i_cost input))
                 (i_cwd input).

(** Lines 285-290: replace the first record with the session's id, or
    append. *)
Definition upsert (session : SpendSession) (ss : list SpendSession)
    : list SpendSession :=
  let idx := findIndex (fun s => String.eqb (s_id s) (s_id session)) ss in
  if negb (idx =? -1)
  then assign_index ss (Z.to_nat idx) session
  else ss ++ [session].

(** The records of a ledger that carry a given id. *)
Definition with_id (id : string) (ss : list SpendSession)
    : list SpendSession :=
  filter (fun s => String.eqb (s_id s) id) ss.

(** The lines [getContextTokens] loops over. *)
Definition transcript_lines (content : string) : list string :=
  JS.split_on newline (trim content).

(** The records that reach the comparison of timestamps: the lines that
    parse, less the ones the loop passes over. *)
Definition usage_records (JSON_parse : string -> option TranscriptEntry)
    (lines : list string) : list TranscriptEntry :=
  flat_map
    (fun line =>
       match JSON_parse line with
       | Some data => if skipped data then [] else [data]
       | None => []
       end)
    lines.

(** [e] is the first of the records [recs] that carries their latest
    valid timestamp, [t]. *)
Definition latest_in (Date_parse : string -> JS.Date)
    (recs : list TranscriptEntry) (e : TranscriptEntry) (t : Z) : Prop :=
  exists before after,
    recs = before ++ e :: after
    /\ new_Date Date_parse (timestamp e) = Some t
    /\ (forall e' t',
          In e' before -> new_Date Date_parse (timestamp e') = Some t' ->
          t' < t)
    /\ (forall e' t',
          In e' after -> new_Date Date_parse (timestamp e') = Some t' ->
          t' <= t).

(* ================================================================== *)
(** * Properties of numbers across JSON                                *)
(* ================================================================== *)

Section NumberProperties.

Lemma finite_not_nan (x : float) :
  PrimFloat.is_finite x = true -> PrimFloat.is_nan x = false.
Proof.
  unfold PrimFloat.is_finite. intros H.
  apply negb_true_iff, orb_false_iff in H. exact (proj1 H).
Qed.

(** A finite number read from a file is itself in a sum. *)
Lemma to_number_finite (x : float) :
  PrimFloat.is_finite x = true -> JS.to_number x = x.
Proof.
  intros H. unfold JS.to_number. rewrite (finite_not_nan x H). reflexivity.
Qed.

(** A finite number other than zero is written and read back as it is. *)
Lemma json_number_truthy (x : float) :
  PrimFloat.is_finite x = true -> JS.falsy_num x = false ->
  JS.json_number x = x.
Proof.
  intros Hfin Htruthy. unfold JS.json_number. rewrite Hfin.
  unfold JS.falsy_num in Htruthy. apply orb_false_iff in Htruthy.
  rewrite (proj1 Htruthy). reflexivity.
Qed.

Lemma eqb_zero_sym (x : float) :
  PrimFloat.eqb x PrimFloat.zero = true ->
  PrimFloat.eqb PrimFloat.zero x = true.
Proof.
  rewrite !eqb_spec.
  change (Prim2SF PrimFloat.zero) with (S754_zero false).
  unfold SFeqb, SFcompare.
  destruct (Prim2SF x) as [s|s| |s m e]; try destruct s;
    intros H; try discriminate H; reflexivity.
Qed.

(** Any finite number is read back equal ([===]) to what was written. *)
Lemma json_number_same (x : float) :
  PrimFloat.is_finite x = true ->
  PrimFloat.eqb (JS.json_number x) x = true.
Proof.
  intros Hfin. unfold JS.json_number. rewrite Hfin.
  destruct (PrimFloat.eqb x PrimFloat.zero) eqn:Hz.
  - apply eqb_zero_sym. exact Hz.
  - pose proof (finite_not_nan x Hfin) as Hnan.
    unfold PrimFloat.is_nan in Hnan. apply negb_false_iff. exact Hnan.
Qed.

(** Writing what was read back changes nothing more. *)
Lemma json_number_idempotent (x : float) :
  JS.json_number (JS.json_number x) = JS.json_number x.
Proof.
  assert (Hstep : JS.json_number x = PrimFloat.zero
                  \/ JS.json_number x = x
                  \/ JS.json_number x = PrimFloat.nan).
  { unfold JS.json_number.
    destruct (PrimFloat.is_finite x); [|tauto].
    destruct (PrimFloat.eqb x PrimFloat.zero); tauto. }
  destruct Hstep as [E|[E|E]]; rewrite E; try reflexivity.
  exact E.
Qed.

Lemma to_number_json_number (x : float) :
  PrimFloat.is_finite x = true -> JS.falsy_num x = false ->
  JS.to_number (JS.json_number x) = x.
Proof.
  intros Hfin Ht. rewrite (json_number_truthy x Hfin Ht).
  apply to_number_finite. exact Hfin.
Qed.

(** The finite floats are the zeros and the floats with a mantissa. *)
Lemma is_finite_SF (x : float) :
  PrimFloat.is_finite x = true <->
  match Prim2SF x with
  | S754_zero _ | S754_finite _ _ _ => True
  | _ => False
  end.
Proof.
  unfold PrimFloat.is_finite, PrimFloat.is_nan, PrimFloat.is_infinity.
  rewrite !eqb_spec, abs_spec.
  change (Prim2SF infinity) with (S754_infinity false).
  destruct (Prim2SF x) as [s|s| |s m e]; simpl.
  - destruct s; simpl; tauto.
  - destruct s; simpl; split; try tauto; discriminate.
  - split; try tauto; discriminate.
  - unfold SFeqb, SFcompare. simpl.
    rewrite Z.compare_refl, Pos.compare_cont_refl.
    destruct s; simpl; tauto.
Qed.

(** A sum is finite only if its first term is. *)
Lemma finite_add_left (x y : float) :
  PrimFloat.is_finite (PrimFloat.add x y) = true ->
  PrimFloat.is_finite x = true.
Proof.
  rewrite !is_finite_SF, add_spec.
  unfold SF64add, SFadd.
  destruct (Prim2SF x) as [s|s| |s m e]; try tauto;
  destruct (Prim2SF y) as [s'|s'| |s' m' e']; try tauto.
  simpl. destruct s, s'; tauto.
Qed.

Lemma json_session_idempotent (s : SpendSession) :
  json_session (json_session s) = json_session s.
Proof.
  unfold json_session. simpl. rewrite !json_number_idempotent. reflexivity.
Qed.

Lemma json_sessions_idempotent (ss : list SpendSession) :
  map json_session (map json_session ss) = map json_session ss.
Proof.
  rewrite map_map. apply map_ext. exact json_session_idempotent.
Qed.

End NumberProperties.

(* ================================================================== *)
(** * Properties of the period-cost tracker                            *)
(* ================================================================== *)

Section PeriodCostProperties.

Variable Date_parse : string -> JS.Date.
Variable LocalTime : Z -> Z.
Variable UTC : Z -> Z.

(** ** Running the tracker *)

Lemma savePeriodData_exec (data : PeriodCostData) (d : Disk) :
  exec (savePeriodData data) d =
  mkDisk true (spend_file d) (Holds (json_period data))
         (WritePeriod (json_period data) :: writes d).
Proof.
  unfold exec, savePeriodData, try_catch, bind, ensure_data_dir, write_period.
  destruct d as [dir sf pf ws]; simpl.
  destruct dir; reflexivity.
Qed.

Lemma savePeriodData_period_file (data : PeriodCostData) (d : Disk) :
  period_file (exec (savePeriodData data) d) = Holds (json_period data).
Proof. rewrite savePeriodData_exec. reflexivity. Qed.

(** The guard of line 334 returns before anything is read or written. *)
Lemma updatePeriodCost_guarded sessionId sessionCost resetsAt (d : Disk) :
  (JS.falsy_opt_str resetsAt || JS.falsy_num sessionCost)%bool = true ->
  exec (updatePeriodCost Date_parse LocalTime UTC
                         sessionId sessionCost resetsAt) d
  = d.
Proof.
  intros Hguard. unfold updatePeriodCost.
  rewrite Hguard. reflexivity.
Qed.

(** Past the guard, with a key: the three branches of lines 344-358. *)
Lemma updatePeriodCost_keyed sessionId sessionCost resetsAt key (d : Disk) :
  JS.falsy_opt_str resetsAt = false ->
  JS.falsy_num sessionCost = false ->
  normalizeReset Date_parse LocalTime UTC resetsAt = Some key ->
  exec (updatePeriodCost Date_parse LocalTime UTC
                         sessionId sessionCost resetsAt) d
  = match period_record d with
    | Some data =>
        if String.eqb (resets_at data) key
        then if String.eqb (last_session_id data) sessionId
             then d
             else exec (savePeriodData
                          (mkPeriodCostData
                             (resets_at data)
                             (PrimFloat.add (JS.to_number (p_cost data))
                                            sessionCost)
                             sessionId)) d
        else exec (savePeriodData
                     (mkPeriodCostData key sessionCost sessionId)) d
    | None =>
        exec (savePeriodData (mkPeriodCostData key sessionCost sessionId)) d
    end.
Proof.
  intros Hr Hc Hkey. unfold updatePeriodCost.
  rewrite Hr, Hc. simpl orb. cbv iota.
  unfold exec at 1, try_catch, bind, loadPeriodData.
  rewrite Hkey. unfold lift, ret.
  destruct (period_record d) as [data|]; [|reflexivity].
  destruct (String.eqb (resets_at data) key); [|reflexivity].
  destruct (String.eqb (last_session_id data) sessionId); reflexivity.
Qed.

(** Past the guard, when [toISOString] throws: the handler leaves the disk
    as it is. *)
Lemma updatePeriodCost_invalid sessionId sessionCost resetsAt (d : Disk) :
  normalizeReset Date_parse LocalTime UTC resetsAt = None ->
  exec (updatePeriodCost Date_parse LocalTime UTC
                         sessionId sessionCost resetsAt) d
  = d.
Proof.
  intros Hkey. unfold updatePeriodCost.
  destruct (JS.falsy_opt_str resetsAt || JS.falsy_num sessionCost)%bool;
    [reflexivity|].
  unfold exec, try_catch, bind, loadPeriodData.
  rewrite Hkey. reflexivity.
Qed.

(** ** Same window, another session *)

(** What the same-window branch writes, whatever the numbers: the stored
    key, the new session id, and the sum of the stored cost ([null]
    counting as [0]) and the session's cost, as JSON keeps it. *)
Lemma updatePeriodCost_same_window_written
    sessionId sessionCost resetsAt (data : PeriodCostData) (d : Disk) :
  period_file d = Holds data ->
  JS.falsy_opt_str resetsAt = false ->
  JS.falsy_num sessionCost = false ->
  normalizeReset Date_parse LocalTime UTC resetsAt = Some (resets_at data) ->
  sessionId <> last_session_id data ->
  period_file
    (exec (updatePeriodCost Date_parse LocalTime UTC
                            sessionId sessionCost resetsAt) d)
  = Holds (mkPeriodCostData
             (resets_at data)
             (JS.json_number
                (PrimFloat.add (JS.to_number (p_cost data)) sessionCost))
             sessionId).
Proof.
  intros Hfile Hr Hc Hkey Hsid.
  rewrite (updatePeriodCost_keyed _ _ _ _ _ Hr Hc Hkey).
  unfold period_record. rewrite Hfile.
  rewrite String.eqb_refl.
  destruct (String.eqb_spec (last_session_id data) sessionId) as [E|_].
  - exfalso. apply Hsid. symmetry. exact E.
  - apply savePeriodData_period_file.
Qed.

(** C1 (as amended).  A persisted record, a call that passes the guard
    (a reset timestamp that is neither null nor empty, a session cost
    that is neither zero nor NaN), whose reset timestamp normalizes to the
    stored key and whose session id is not the stored one, and a sum of
    the stored cost and the session's cost that is finite (neither term
    is infinite or [null], and the sum does not overflow): the record
    written has the stored key, the new session id, and a cost equal to
    the stored cost plus the session's cost. *)
Theorem updatePeriodCost_same_window_new_session
    sessionId sessionCost resetsAt (data : PeriodCostData) (d : Disk) :
  period_file d = Holds data ->
  JS.falsy_opt_str resetsAt = false ->
  JS.falsy_num sessionCost = false ->
  normalizeReset Date_parse LocalTime UTC resetsAt = Some (resets_at data) ->
  sessionId <> last_session_id data ->
  PrimFloat.is_finite (PrimFloat.add (p_cost data) sessionCost) = true ->
  exists written,
    period_file
      (exec (updatePeriodCost Date_parse LocalTime UTC
                              sessionId sessionCost resetsAt) d)
    = Holds written
    /\ resets_at written = resets_at data
    /\ last_session_id written = sessionId
    /\ p_cost written
       = JS.json_number (PrimFloat.add (p_cost data) sessionCost)
    /\ PrimFloat.eqb (p_cost written)
                     (PrimFloat.add (p_cost data) sessionCost) = true.
Proof.
  intros Hfile Hr Hc Hkey Hsid Hfin.
  eexists. split.
  - apply updatePeriodCost_same_window_written; eassumption.
  - cbn [resets_at last_session_id p_cost].
    rewrite (to_number_finite _ (finite_add_left _ _ Hfin)).
    repeat split. apply json_number_same. exact Hfin.
Qed.

(** ** New window *)

(** C2 (as amended).  A call that passes the guard with a finite cost and
    whose reset timestamp normalizes to a key, when no record is stored or
    the stored key is another one: the record written holds the key, the
    session's cost alone and the session id. *)
Theorem updatePeriodCost_new_window
    sessionId sessionCost resetsAt key (d : Disk) :
  JS.falsy_opt_str resetsAt = false ->
  JS.falsy_num sessionCost = false ->
  PrimFloat.is_finite sessionCost = true ->
  normalizeReset Date_parse LocalTime UTC resetsAt = Some key ->
  (forall data, period_record d = Some data -> resets_at data <> key) ->
  period_file
    (exec (updatePeriodCost Date_parse LocalTime UTC
                            sessionId sessionCost resetsAt) d)
  = Holds (mkPeriodCostData key sessionCost sessionId).
Proof.
  intros Hr Hc Hfin Hkey Hother.
  rewrite (updatePeriodCost_keyed _ _ _ _ _ Hr Hc Hkey).
  assert (Hsave :
            period_file
              (exec (savePeriodData
                       (mkPeriodCostData key sessionCost sessionId)) d)
            = Holds (mkPeriodCostData key sessionCost sessionId)).
  { rewrite savePeriodData_period_file. unfold json_period.
    cbn [resets_at last_session_id p_cost].
    rewrite (json_number_truthy _ Hfin Hc). reflexivity. }
  destruct (period_record d) as [data|] eqn:Hrec.
  - destruct (String.eqb_spec (resets_at data) key) as [E|_].
    + exfalso. exact (Hother data eq_refl E).
    + exact Hsave.
  - exact Hsave.
Qed.

(** ** Same window, same session *)

(** C3.  A persisted record, a call whose reset timestamp normalizes to
    the stored key and whose session id is the stored one: the disk after
    the call is the disk before it (the record, the directory and the
    log of writes). *)
Theorem updatePeriodCost_same_session_noop
    sessionId sessionCost resetsAt (data : PeriodCostData) (d : Disk) :
  period_file d = Holds data ->
  normalizeReset Date_parse LocalTime UTC resetsAt = Some (resets_at data) ->
  sessionId = last_session_id data ->
  exec (updatePeriodCost Date_parse LocalTime UTC
                         sessionId sessionCost resetsAt) d
  = d.
Proof.
  intros Hfile Hkey Hsid.
  destruct (JS.falsy_opt_str resetsAt) eqn:Hr.
  { apply updatePeriodCost_guarded. rewrite Hr. reflexivity. }
  destruct (JS.falsy_num sessionCost) eqn:Hc.
  { apply updatePeriodCost_guarded. rewrite Hc. apply orb_true_r. }
  rewrite (updatePeriodCost_keyed _ _ _ _ _ Hr Hc Hkey).
  unfold period_record. rewrite Hfile.
  rewrite String.eqb_refl. subst sessionId.
  rewrite String.eqb_refl. reflexivity.
Qed.

(** ** The guard *)

(** C6.  A call with a null (or empty) reset timestamp, or with a session
    cost of zero, leaves the disk as it is: no record is created, none is
    modified, nothing is written. *)
Theorem updatePeriodCost_guard_noop
    sessionId sessionCost resetsAt (d : Disk) :
  resetsAt = None
  \/ resetsAt = Some ""
  \/ PrimFloat.is_zero sessionCost = true ->
  exec (updatePeriodCost Date_parse LocalTime UTC
                         sessionId sessionCost resetsAt) d
  = d.
Proof.
  intros Hcase. apply updatePeriodCost_guarded.
  destruct Hcase as [E|[E|E]].
  - subst resetsAt. reflexivity.
  - subst resetsAt. reflexivity.
  - unfold JS.falsy_num. unfold PrimFloat.is_zero in E.
    rewrite E. apply orb_true_r.
Qed.

(** ** Reading the current cost *)


End PeriodCostProperties.

(* ================================================================== *)
(** * Properties of the reset-timestamp normalization                  *)
(* ================================================================== *)

Section NormalizationProperties.

(** Replacing the minutes of a time value by their rounding to a multiple
    of 5, and clearing seconds and milliseconds, takes the time value
    down to the multiple of five minutes at or below it plus two
    minutes. *)
Lemma rounded_minutes_floor (t : Z) :
  JS.MakeDate (JS.Day t)
              (JS.MakeTime (JS.HourFromTime t)
                           (Math_round_div (JS.MinFromTime t) 5 * 5) 0 0)
  = 300000 * ((t + 120000) / 300000).
Proof.
  unfold JS.MakeDate, JS.MakeTime, JS.Day, JS.HourFromTime, JS.MinFromTime,
    Math_round_div, JS.msPerDay, JS.msPerHour, JS.msPerMinute, JS.msPerSecond.
  Z.div_mod_to_equations. lia.
Qed.

(** The same result, read field by field: the hour kept, the minutes
    rounded, nothing below the minute. *)
Lemma rounded_minutes_fields (t : Z) :
  300000 * ((t + 120000) / 300000)
  = JS.msPerHour * (t / JS.msPerHour)
    + Math_round_div (JS.MinFromTime t) 5 * 5 * JS.msPerMinute.
Proof.
  unfold JS.MinFromTime, Math_round_div, JS.msPerHour, JS.msPerMinute.
  Z.div_mod_to_equations. lia.
Qed.

(** Rounding the minutes field never meets a half: it is the field plus
    two, divided by five. *)
Lemma round_minutes_no_tie (m : Z) : Math_round_div m 5 = (m + 2) / 5.
Proof. unfold Math_round_div. Z.div_mod_to_equations. lia. Qed.

Variable LocalTime : Z -> Z.
Variable UTC : Z -> Z.

(** C4 (as amended).  The normalization rounds the minutes field of local
    (wall-clock) time to a multiple of 5 and clears seconds and
    milliseconds, whatever the host's time zone: the local time it yields
    is the multiple of five minutes at or below local time plus two
    minutes; it lies less than three minutes before and at most two
    minutes after the local time of the input, and the date returned is
    the instant the host takes that local time to denote.  Every time
    value whose local time lies from two minutes before a five-minute
    boundary to less than three minutes after it is taken to that
    boundary, so two time values with local times in one such bucket give
    the same normalized date. *)
Theorem normalizeResetDate_buckets (t : Z) :
  normalizeResetDate LocalTime UTC (Some t)
  = JS.TimeClip (UTC (300000 * ((LocalTime t + 120000) / 300000)))
  /\ 300000 * ((LocalTime t + 120000) / 300000)
     = JS.msPerHour * (LocalTime t / JS.msPerHour)
       + Math_round_div (JS.MinFromTime (LocalTime t)) 5 * 5
         * JS.msPerMinute
  /\ LocalTime t - 180000
     < 300000 * ((LocalTime t + 120000) / 300000)
     <= LocalTime t + 120000
  /\ (forall k,
        300000 * k - 120000 <= LocalTime t < 300000 * k + 180000 ->
        normalizeResetDate LocalTime UTC (Some t)
        = JS.TimeClip (UTC (300000 * k)))
  /\ (forall t',
        (LocalTime t' + 120000) / 300000 = (LocalTime t + 120000) / 300000 ->
        normalizeResetDate LocalTime UTC (Some t')
        = normalizeResetDate LocalTime UTC (Some t)).
Proof.
  assert (Hnorm : forall u,
             normalizeResetDate LocalTime UTC (Some u)
             = JS.TimeClip
                 (UTC (300000 * ((LocalTime u + 120000) / 300000)))).
  { intros u. unfold normalizeResetDate, getMinutes, setMinutes. simpl.
    rewrite rounded_minutes_floor. reflexivity. }
  split; [apply Hnorm|].
  split; [apply rounded_minutes_fields|].
  split; [|split].
  - generalize (LocalTime t). intros u.
    Z.div_mod_to_equations. lia.
  - intros k Hnear. rewrite Hnorm. do 2 f_equal.
    generalize dependent (LocalTime t). intros u Hnear.
    Z.div_mod_to_equations. lia.
  - intros t' Hsame. rewrite !Hnorm, Hsame. reflexivity.
Qed.

End NormalizationProperties.

(** On a host whose offset from UTC is constant, the bounds hold between
    the instants themselves: the normalized instant lies less than three
    minutes before and at most two minutes after the input. *)
Lemma normalizeResetDate_constant_offset (LocalTZA t : Z) :
  Z.abs t <= 8640000000000000 - 180000 ->
  exists n,
    normalizeResetDate (Host.local_time LocalTZA) (Host.utc LocalTZA) (Some t)
    = Some n
    /\ t - 180000 < n <= t + 120000.
Proof.
  intros Hrange.
  unfold normalizeResetDate, getMinutes, setMinutes. simpl.
  rewrite rounded_minutes_floor.
  unfold Host.local_time, Host.utc, JS.TimeClip.
  set (n := 300000 * ((t + LocalTZA + 120000) / 300000) - LocalTZA).
  assert (Hn : t - 180000 < n <= t + 120000).
  { subst n. Z.div_mod_to_equations. lia. }
  exists n. split; [|exact Hn].
  destruct (Z.leb_spec (Z.abs n) 8640000000000000) as [_|Hout];
    [reflexivity|lia].
Qed.

(** Across a daylight-saving change they do not.  In Europe/Paris,
    2025-10-26T00:58:00Z is 02:58 local time (summer time); its minutes
    round to 03:00 local time, which the host reads in winter time:
    02:00:00Z, 62 minutes after the input. *)
Lemma normalizeResetDate_across_dst_end :
  Host.paris_local_time 1761440280000 = 1761447480000
  /\ normalizeResetDate Host.paris_local_time Host.paris_utc
                        (Some 1761440280000)
     = Some 1761444000000
  /\ 1761444000000 - 1761440280000 = 62 * 60000
  /\ normalizeResetDate Host.paris_local_time Host.paris_utc
                        (Some 1761444000000)
     = Some 1761444000000.
Proof. vm_compute. repeat split. Qed.

(* ================================================================== *)
(** * Properties of the spend ledger                                   *)
(* ================================================================== *)

Section LedgerProperties.

(** ** Arrays *)

Lemma findIndex_range {A} (p : A -> bool) (arr : list A) :
  -1 <= findIndex p arr < Z.of_nat (List.length arr).
Proof.
  induction arr as [|x rest IH]; simpl; [lia|].
  destruct (p x); [lia|].
  destruct (Z.eqb_spec (findIndex p rest) (-1)); lia.
Qed.

Lemma findIndex_absent {A} (p : A -> bool) (arr : list A) :
  findIndex p arr = -1 -> forall x, In x arr -> p x = false.
Proof.
  induction arr as [|y rest IH]; simpl; intros Hidx x Hin; [contradiction|].
  destruct (p y) eqn:Hy; [discriminate|].
  destruct (Z.eqb_spec (findIndex p rest) (-1)) as [E|N].
  - destruct Hin as [<-|Hin]; [exact Hy|exact (IH E x Hin)].
  - pose proof (findIndex_range p rest). lia.
Qed.

Lemma findIndex_found {A} (p : A -> bool) (arr : list A) :
  findIndex p arr <> -1 ->
  exists before x after,
    arr = before ++ x :: after
    /\ p x = true
    /\ (forall y, In y before -> p y = false)
    /\ findIndex p arr = Z.of_nat (List.length before).
Proof.
  induction arr as [|y rest IH]; simpl; intros Hidx; [contradiction|].
  destruct (p y) eqn:Hy.
  - exists [], y, rest. repeat split; auto. intros z [].
  - destruct (Z.eqb_spec (findIndex p rest) (-1)) as [E|N]; [contradiction|].
    destruct (IH N) as (before & x & after & -> & Hx & Hbefore & Hlen).
    exists (y :: before), x, after. repeat split; auto.
    + intros z [<-|Hz]; auto.
    + rewrite Hlen. simpl List.length. lia.
Qed.

Lemma assign_index_middle {A} (before after : list A) (x v : A) :
  assign_index (before ++ x :: after) (List.length before) v
  = before ++ v :: after.
Proof.
  induction before as [|y before IH]; simpl; [reflexivity|].
  rewrite IH. reflexivity.
Qed.

(** ** Numbers *)

(** A cost above zero is neither zero nor NaN. *)
Lemma positive_not_falsy (c : float) :
  PrimFloat.ltb PrimFloat.zero c = true -> JS.falsy_num c = false.
Proof.
  intros Hpos. unfold JS.falsy_num, PrimFloat.is_nan.
  rewrite ltb_spec in Hpos. rewrite !eqb_spec.
  change (Prim2SF PrimFloat.zero) with (S754_zero false) in *.
  unfold SFltb, SFeqb in *.
  destruct (Prim2SF c) as [s|s| |s m e]; simpl in *;
    try discriminate; try reflexivity.
  - destruct s; simpl in *; [discriminate|reflexivity].
  - destruct s; simpl in *; [discriminate|].
    rewrite Z.compare_refl, Pos.compare_cont_refl. reflexivity.
Qed.

(** ** Upsert *)

Lemma saveSession_guarded (now : Z) (input : HookInput) (d : Disk) :
  (JS.falsy_str (session_id input)
   || JS.falsy_num (total_cost_usd (i_cost input)))%bool = true ->
  exec (saveSession now input) d = d.
Proof.
  intros Hguard. unfold saveSession. rewrite Hguard. reflexivity.
Qed.

(** Past the guard, [saveSession] writes the ledger it loaded with the
    session upserted; the file then holds it as JSON keeps it. *)
Lemma saveSession_upserts (now : Z) (input : HookInput) (d : Disk) :
  JS.falsy_str (session_id input) = false ->
  JS.falsy_num (total_cost_usd (i_cost input)) = false ->
  ledger (exec (saveSession now input) d)
  = mkSpendData
      (map json_session
           (upsert (session_record now input) (sessions (ledger d)))).
Proof.
  intros Hid Hcost. unfold saveSession. rewrite Hid, Hcost. simpl orb.
  cbv iota.
  unfold exec, try_catch, bind, ensure_data_dir, loadSpendData, today_of.
  simpl.
  replace (ledger (if data_dir d then d
                   else mkDisk true (spend_file d) (period_file d) (writes d)))
    with (ledger d) by (destruct (data_dir d); reflexivity).
  unfold upsert, session_record. simpl s_id.
  destruct (negb _); reflexivity.
Qed.

Lemma with_id_app id (a b : list SpendSession) :
  with_id id (a ++ b) = with_id id a ++ with_id id b.
Proof. apply filter_app. Qed.

Lemma with_id_absent id (ss : list SpendSession) :
  (forall s, In s ss -> String.eqb (s_id s) id = false) ->
  with_id id ss = [].
Proof.
  induction ss as [|s ss IH]; simpl; intros Habs; [reflexivity|].
  rewrite (Habs s (or_introl eq_refl)).
  apply IH. intros s' Hin. apply Habs. right. exact Hin.
Qed.

(** An upsert either appends (no record had the id) or replaces the first
    record that has it. *)
Lemma upsert_cases (session : SpendSession) (ss : list SpendSession) :
  (with_id (s_id session) ss = [] /\ upsert session ss = ss ++ [session])
  \/ (exists before old after,
        ss = before ++ old :: after
        /\ s_id old = s_id session
        /\ with_id (s_id session) before = []
        /\ upsert session ss = before ++ session :: after).
Proof.
  unfold upsert.
  destruct (Z.eqb_spec
              (findIndex (fun s => String.eqb (s_id s) (s_id session)) ss)
              (-1)) as [E|N]; simpl negb; cbv iota.
  - left. split; [|reflexivity].
    apply with_id_absent. exact (findIndex_absent _ _ E).
  - right.
    destruct (findIndex_found _ _ N)
      as (before & old & after & -> & Hold & Hbefore & Hidx).
    exists before, old, after. repeat split.
    + apply String.eqb_eq. exact Hold.
    + apply with_id_absent. exact Hbefore.
    + rewrite Hidx, Nat2Z.id. apply assign_index_middle.
Qed.


Lemma with_id_no_id id (ss : list SpendSession) :
  ~ In id (map s_id ss) -> with_id id ss = [].
Proof.
  intros Hnot. apply with_id_absent. intros s Hin.
  apply String.eqb_neq. intros E. apply Hnot. rewrite <- E.
  apply in_map. exact Hin.
Qed.

Lemma no_id_with_id id (ss : list SpendSession) :
  with_id id ss = [] -> ~ In id (map s_id ss).
Proof.
  induction ss as [|s ss IH]; simpl; intros Hnone; [tauto|].
  destruct (String.eqb_spec (s_id s) id) as [E|N]; [discriminate|].
  intros [E|Hin]; [exact (N E)|exact (IH Hnone Hin)].
Qed.

Lemma NoDup_snoc {A} (l : list A) (x : A) :
  NoDup l -> ~ In x l -> NoDup (l ++ [x]).
Proof.
  induction l as [|y l IH]; simpl; intros Hnd Hnot.
  - constructor; [tauto|constructor].
  - inversion Hnd as [|? ? Hy Hl]; subst. constructor.
    + rewrite in_app_iff. simpl. intros [H|[H|[]]]; [exact (Hy H)|].
      apply Hnot. left. symmetry. exact H.
    + apply IH; [exact Hl|]. intros H. apply Hnot. right. exact H.
Qed.

(** On a ledger with at most one record per id, an upsert leaves exactly
    the upserted record under its id, and at most one record per id. *)
Lemma upsert_keeps_ids_unique (session : SpendSession)
    (ss : list SpendSession) :
  NoDup (map s_id ss) ->
  NoDup (map s_id (upsert session ss))
  /\ with_id (s_id session) (upsert session ss) = [session].
Proof.
  intros Hnd.
  destruct (upsert_cases session ss)
    as [[Hnone ->]|(before & old & after & -> & Hold & Hbefore & ->)].
  - split.
    + rewrite map_app. simpl. apply NoDup_snoc; [exact Hnd|].
      apply no_id_with_id. exact Hnone.
    + rewrite with_id_app, Hnone. simpl.
      rewrite String.eqb_refl. reflexivity.
  - rewrite map_app in Hnd. simpl in Hnd.
    split.
    + rewrite map_app. simpl. rewrite <- Hold. exact Hnd.
    + rewrite with_id_app, Hbefore. simpl.
      rewrite String.eqb_refl. f_equal.
      apply with_id_no_id. rewrite <- Hold.
      intros Hin. apply (NoDup_remove_2 _ _ _ Hnd).
      apply in_or_app. right. exact Hin.
Qed.

(** An upsert onto a ledger that has a record with the id replaces: the
    ledger keeps its length. *)
Lemma upsert_replaces (session : SpendSession) (ss : list SpendSession) :
  with_id (s_id session) ss <> [] ->
  List.length (upsert session ss) = List.length ss.
Proof.
  intros Hsome.
  destruct (upsert_cases session ss)
    as [[Hnone _]|(before & old & after & -> & _ & _ & ->)].
  - contradiction.
  - rewrite !length_app. reflexivity.
Qed.

Lemma findIndex_first {A} (p : A -> bool) (before after : list A) (x : A) :
  (forall y, In y before -> p y = false) ->
  p x = true ->
  findIndex p (before ++ x :: after) = Z.of_nat (List.length before).
Proof.
  intros Hbefore Hx. induction before as [|y before IH]; simpl.
  - rewrite Hx. reflexivity.
  - rewrite (Hbefore y (or_introl eq_refl)).
    rewrite IH by (intros z Hz; apply Hbefore; right; exact Hz).
    destruct (Z.eqb_spec (Z.of_nat (List.length before)) (-1)); lia.
Qed.

Lemma with_id_none_absent id (ss : list SpendSession) :
  with_id id ss = [] ->
  forall s, In s ss -> String.eqb (s_id s) id = false.
Proof.
  induction ss as [|s ss IH]; simpl; intros Hnone s' Hin; [contradiction|].
  destruct (String.eqb (s_id s) id) eqn:E; [discriminate|].
  destruct Hin as [<-|Hin]; [exact E|exact (IH Hnone s' Hin)].
Qed.

(** An upsert onto a ledger whose first record with the id is [old]
    puts the session in its place. *)
Lemma upsert_at (session old : SpendSession)
    (before after : list SpendSession) :
  with_id (s_id session) before = [] ->
  s_id old = s_id session ->
  upsert session (before ++ old :: after) = before ++ session :: after.
Proof.
  intros Hbefore Hold. unfold upsert.
  rewrite (findIndex_first _ before after old).
  - destruct (Z.eqb_spec (Z.of_nat (List.length before)) (-1)); [lia|].
    simpl negb. cbv iota. rewrite Nat2Z.id. apply assign_index_middle.
  - apply with_id_none_absent. exact Hbefore.
  - rewrite Hold. apply String.eqb_refl.
Qed.

(** An upsert leaves the records of the other ids as they are. *)
Lemma upsert_other_ids (session : SpendSession) (ss : list SpendSession)
    (id : string) :
  id <> s_id session ->
  with_id id (upsert session ss) = with_id id ss.
Proof.
  intros Hother.
  assert (Hneq : String.eqb (s_id session) id = false).
  { apply String.eqb_neq. intros E. apply Hother. symmetry. exact E. }
  destruct (upsert_cases session ss)
    as [[_ ->]|(before & old & after & -> & Hold & _ & ->)].
  - rewrite with_id_app. simpl. rewrite Hneq. apply app_nil_r.
  - rewrite !with_id_app. simpl. rewrite Hold, Hneq. reflexivity.
Qed.

(** An upsert never shortens the ledger and lengthens it by at most one
    record. *)
Lemma upsert_length (session : SpendSession) (ss : list SpendSession) :
  (List.length ss <= List.length (upsert session ss)
   <= S (List.length ss))%nat.
Proof.
  destruct (upsert_cases session ss)
    as [[_ ->]|(before & old & after & -> & _ & _ & ->)].
  - rewrite length_app. simpl. lia.
  - rewrite !length_app. simpl. lia.
Qed.

(** A second upsert under the same id replaces the record the first one
    left, where the first one left it. *)
Lemma upsert_twice_in_place (first second : SpendSession)
    (ss : list SpendSession) :
  s_id second = s_id first ->
  exists before after,
    upsert first ss = before ++ first :: after
    /\ upsert second (upsert first ss) = before ++ second :: after.
Proof.
  intros Hsame.
  destruct (upsert_cases first ss)
    as [[Hnone ->]|(before & old & after & -> & Hold & Hbefore & ->)].
  - exists ss, []. split; [reflexivity|].
    replace (ss ++ [first]) with (ss ++ first :: []) by reflexivity.
    apply upsert_at; [rewrite Hsame; exact Hnone|symmetry; exact Hsame].
  - exists before, after. split; [reflexivity|].
    apply upsert_at; [rewrite Hsame; exact Hbefore|symmetry; exact Hsame].
Qed.

(** ** Records as JSON keeps them *)

Lemma findIndex_map {A} (p : A -> bool) (f : A -> A) (arr : list A) :
  (forall x, p (f x) = p x) ->
  findIndex p (map f arr) = findIndex p arr.
Proof.
  intros Hp. induction arr as [|x rest IH]; simpl; [reflexivity|].
  rewrite Hp, IH. reflexivity.
Qed.

Lemma assign_index_map {A} (f : A -> A) (arr : list A) (idx : nat) (v : A) :
  map f (assign_index arr idx v) = assign_index (map f arr) idx (f v).
Proof.
  revert idx. induction arr as [|x rest IH]; intros [|i]; simpl;
    try reflexivity.
  rewrite IH. reflexivity.
Qed.

Lemma filter_json (p : SpendSession -> bool) (ss : list SpendSession) :
  (forall s, p (json_session s) = p s) ->
  filter p (map json_session ss) = map json_session (filter p ss).
Proof.
  intros Hp. induction ss as [|s ss IH]; simpl; [reflexivity|].
  rewrite Hp. destruct (p s); simpl; rewrite IH; reflexivity.
Qed.

Lemma with_id_json id (ss : list SpendSession) :
  with_id id (map json_session ss) = map json_session (with_id id ss).
Proof. apply filter_json. reflexivity. Qed.

Lemma ids_json (ss : list SpendSession) :
  map s_id (map json_session ss) = map s_id ss.
Proof. rewrite map_map. reflexivity. Qed.

(** Upserting and then writing is writing and then upserting what is
    written. *)
Lemma upsert_json (session : SpendSession) (ss : list SpendSession) :
  map json_session (upsert session ss)
  = upsert (json_session session) (map json_session ss).
Proof.
  unfold upsert. cbn [json_session s_id].
  rewrite (findIndex_map _ json_session) by reflexivity.
  destruct (negb _).
  - apply assign_index_map.
  - rewrite map_app. reflexivity.
Qed.

(** ** The ledger holds one record per session *)

(** C7 (as amended).  Two [saveSession] calls for one session id that is
    not empty, each with a cost above zero, on a ledger with at most one
    record per id: afterwards exactly one record carries the id, the
    record of the second call as JSON keeps it; the second call replaced
    the record of the first where it stood, so the ledger kept its
    length; the records of every other id are those the ledger held at
    the start, as JSON keeps them; and the ledger still has at most one
    record per id. *)
Theorem saveSession_twice_one_record
    (now1 now2 : Z) (input1 input2 : HookInput) (d : Disk) :
  session_id input1 <> "" ->
  session_id input2 = session_id input1 ->
  PrimFloat.ltb PrimFloat.zero (total_cost_usd (i_cost input1)) = true ->
  PrimFloat.ltb PrimFloat.zero (total_cost_usd (i_cost input2)) = true ->
  NoDup (map s_id (sessions (ledger d))) ->
  let d1 := exec (saveSession now1 input1) d in
  let d2 := exec (saveSession now2 input2) d1 in
  with_id (session_id input1) (sessions (ledger d2))
  = [json_session (session_record now2 input2)]
  /\ (exists before after,
        sessions (ledger d1)
        = before ++ json_session (session_record now1 input1) :: after
        /\ sessions (ledger d2)
           = before ++ json_session (session_record now2 input2) :: after)
  /\ List.length (sessions (ledger d2)) = List.length (sessions (ledger d1))
  /\ (forall id,
        id <> session_id input1 ->
        with_id id (sessions (ledger d2))
        = map json_session (with_id id (sessions (ledger d))))
  /\ NoDup (map s_id (sessions (ledger d2))).
Proof.
  intros Hid Hsame Hcost1 Hcost2 Hnd d1 d2.
  assert (Hid1 : JS.falsy_str (session_id input1) = false).
  { destruct (session_id input1); [contradiction Hid|]; reflexivity. }
  assert (Hid2 : JS.falsy_str (session_id input2) = false).
  { rewrite Hsame. exact Hid1. }
  pose proof (saveSession_upserts now1 input1 d Hid1
                (positive_not_falsy _ Hcost1)) as Hd1.
  pose proof (saveSession_upserts now2 input2 d1 Hid2
                (positive_not_falsy _ Hcost2)) as Hd2.
  fold d1 in Hd1. fold d2 in Hd2. rewrite Hd2, Hd1. simpl sessions.
  set (first := json_session (session_record now1 input1)).
  set (second := json_session (session_record now2 input2)).
  set (ss := map json_session (sessions (ledger d))).
  assert (Hone : map json_session
                     (upsert (session_record now1 input1)
                             (sessions (ledger d)))
                 = upsert first ss).
  { apply upsert_json. }
  assert (Htwo : map json_session
                     (upsert (session_record now2 input2) (upsert first ss))
                 = upsert second (upsert first ss)).
  { rewrite upsert_json. fold second. f_equal.
    rewrite <- Hone. apply json_sessions_idempotent. }
  rewrite Hone, Htwo.
  assert (Hids : s_id second = s_id first).
  { exact Hsame. }
  assert (Hnd0 : NoDup (map s_id ss)).
  { unfold ss. rewrite ids_json. exact Hnd. }
  destruct (upsert_keeps_ids_unique first ss Hnd0) as [Hnd1 _].
  destruct (upsert_keeps_ids_unique second _ Hnd1) as [Hnd2 Honly].
  destruct (upsert_twice_in_place first second ss Hids)
    as (before & after & Hfirst & Hsecond).
  split; [|split; [|split; [|split]]].
  - rewrite <- Hsame. exact Honly.
  - exists before, after. split; assumption.
  - rewrite Hsecond, Hfirst, !length_app. reflexivity.
  - intros id Hother.
    rewrite upsert_other_ids by (rewrite Hids; exact Hother).
    rewrite upsert_other_ids by exact Hother.
    apply with_id_json.
  - exact Hnd2.
Qed.

(** ** The guard of [saveSession] *)

(** C10.  An input whose session id is empty, or whose cost is zero,
    leaves the disk as it is: the ledger, the directory and the log of
    writes. *)
Theorem saveSession_guard_noop (now : Z) (input : HookInput) (d : Disk) :
  session_id input = ""
  \/ PrimFloat.is_zero (total_cost_usd (i_cost input)) = true ->
  exec (saveSession now input) d = d.
Proof.
  intros Hcase. apply saveSession_guarded.
  destruct Hcase as [E|E].
  - rewrite E. reflexivity.
  - unfold JS.falsy_num. unfold PrimFloat.is_zero in E.
    rewrite E. apply orb_true_r.
Qed.

End LedgerProperties.

(* ================================================================== *)
(** * Properties of the context scanner                                *)
(* ================================================================== *)

Section ContextProperties.

Variable Date_parse : string -> JS.Date.
Variable JSON_parse : string -> option TranscriptEntry.
Variable read_text : string -> File string.

(** The token count of a record that was not passed over. *)
Definition record_tokens (e : TranscriptEntry) : float :=
  match message_usage e with
  | Some u => usage_tokens u
  | None => PrimFloat.zero
  end.

(** One turn of the loop, on a record that reached the comparison. *)
Definition scan_record (acc : float * option JS.Date) (e : TranscriptEntry)
    : float * option JS.Date :=
  let time := new_Date Date_parse (timestamp e) in
  let newer :=
    match snd acc with
    | None => true
    | Some latest => date_gt time latest
    end in
  if newer then (record_tokens e, Some time) else acc.

Lemma usage_records_app (l1 l2 : list string) :
  usage_records JSON_parse (l1 ++ l2)
  = usage_records JSON_parse l1 ++ usage_records JSON_parse l2.
Proof. apply flat_map_app. Qed.

Lemma usage_records_kept (lines : list string) (e : TranscriptEntry) :
  In e (usage_records JSON_parse lines) -> skipped e = false.
Proof.
  unfold usage_records. rewrite in_flat_map.
  intros (line & _ & Hin).
  destruct (JSON_parse line) as [data|]; [|contradiction].
  destruct (skipped data) eqn:Hs; [contradiction|].
  destruct Hin as [<-|[]]. exact Hs.
Qed.

Lemma kept_has_usage (e : TranscriptEntry) :
  skipped e = false -> exists u, message_usage e = Some u.
Proof.
  unfold skipped. destruct (message_usage e) as [u|]; [eauto|discriminate].
Qed.

(** The loop over the lines is the loop over the records they hold. *)
Lemma scan_lines_records (lines : list string) (acc : float * option JS.Date) :
  fold_left (scan_line Date_parse JSON_parse) lines acc
  = fold_left scan_record (usage_records JSON_parse lines) acc.
Proof.
  revert acc. induction lines as [|line lines IH]; intros acc; simpl;
    [reflexivity|].
  rewrite fold_left_app, <- IH. f_equal.
  unfold scan_line. destruct (JSON_parse line) as [data|]; [|reflexivity].
  destruct (skipped data) eqn:Hs; [reflexivity|]. simpl.
  unfold scan_record, record_tokens.
  destruct (kept_has_usage data Hs) as [u ->]. reflexivity.
Qed.

(** Once a valid date is held, the loop keeps the first record with the
    latest valid timestamp among those seen. *)
Lemma scan_records_latest (rest seen : list TranscriptEntry)
    (e : TranscriptEntry) (t : Z) :
  latest_in Date_parse seen e t ->
  exists e' t',
    latest_in Date_parse (seen ++ rest) e' t'
    /\ fold_left scan_record rest (record_tokens e, Some (Some t))
       = (record_tokens e', Some (Some t')).
Proof.
  revert seen e t. induction rest as [|x rest IH]; intros seen e t Hlatest.
  - exists e, t. rewrite app_nil_r. split; [exact Hlatest|reflexivity].
  - simpl fold_left. unfold scan_record at 2. simpl snd.
    replace (seen ++ x :: rest) with ((seen ++ [x]) ++ rest)
      by (rewrite <- app_assoc; reflexivity).
    destruct Hlatest as (before & after & Hseen & Ht & Hbefore & Hafter).
    destruct (new_Date Date_parse (timestamp x)) as [tx|] eqn:Hx.
    + unfold date_gt. destruct (Z.ltb_spec t tx) as [Hlt|Hge].
      * apply IH. exists seen, []. repeat split.
        -- exact Hx.
        -- intros e' t' Hin Ht'. subst seen.
           apply in_app_or in Hin. destruct Hin as [Hin|[<-|Hin]].
           ++ pose proof (Hbefore e' t' Hin Ht'). lia.
           ++ rewrite Ht in Ht'. injection Ht' as <-. exact Hlt.
           ++ pose proof (Hafter e' t' Hin Ht'). lia.
        -- intros e' t' [].
      * apply IH. exists before, (after ++ [x]). repeat split.
        -- rewrite Hseen, <- app_assoc. reflexivity.
        -- exact Ht.
        -- exact Hbefore.
        -- intros e' t' Hin Ht'. apply in_app_or in Hin.
           destruct Hin as [Hin|[<-|[]]].
           ++ exact (Hafter e' t' Hin Ht').
           ++ rewrite Hx in Ht'. injection Ht' as <-. exact Hge.
    + simpl date_gt. cbv iota.
      apply IH. exists before, (after ++ [x]). repeat split.
      * rewrite Hseen, <- app_assoc. reflexivity.
      * exact Ht.
      * exact Hbefore.
      * intros e' t' Hin Ht'. apply in_app_or in Hin.
        destruct Hin as [Hin|[<-|[]]].
        -- exact (Hafter e' t' Hin Ht').
        -- rewrite Hx in Ht'. discriminate.
Qed.

(** C8 (as amended).  The scanner returns [0] for an empty path, an
    absent file or one that cannot be read, and for a file without a
    usage record; lines that do not parse and records that are passed
    over play no part.  When the first usage record carries a timestamp
    that is a valid date, the scanner returns the input, cache-read and
    cache-creation sum of the first usage record with the latest valid
    timestamp. *)
Theorem getContextTokens_latest_usage (transcriptPath : string) :
  (transcriptPath = ""
   \/ read_text transcriptPath = Missing
   \/ read_text transcriptPath = Unreadable ->
   getContextTokens Date_parse JSON_parse read_text transcriptPath
   = PrimFloat.zero)
  /\ (forall content,
        transcriptPath <> "" ->
        read_text transcriptPath = Holds content ->
        (usage_records JSON_parse (transcript_lines content) = [] ->
         getContextTokens Date_parse JSON_parse read_text transcriptPath
         = PrimFloat.zero)
        /\ (forall first rest t0,
              usage_records JSON_parse (transcript_lines content)
              = first :: rest ->
              new_Date Date_parse (timestamp first) = Some t0 ->
              exists e u t,
                latest_in Date_parse
                          (usage_records JSON_parse (transcript_lines content))
                          e t
                /\ message_usage e = Some u
                /\ getContextTokens Date_parse JSON_parse read_text
                                    transcriptPath
                   = usage_tokens u)).
Proof.
  split.
  - intros Hcase. unfold getContextTokens.
    destruct transcriptPath as [|c path]; [reflexivity|]. simpl JS.falsy_str.
    cbv iota.
    destruct Hcase as [E|[E|E]]; [discriminate| |]; rewrite E; reflexivity.
  - intros content Hpath Hfile.
    assert (Hrun :
              getContextTokens Date_parse JSON_parse read_text transcriptPath
              = fst (fold_left scan_record
                               (usage_records JSON_parse
                                              (transcript_lines content))
                               (PrimFloat.zero, None))).
    { unfold getContextTokens.
      destruct transcriptPath as [|c path]; [contradiction Hpath; reflexivity|].
      simpl JS.falsy_str. cbv iota. rewrite Hfile.
      rewrite scan_lines_records. reflexivity. }
    split.
    + intros Hnone. rewrite Hrun, Hnone. reflexivity.
    + intros first rest t0 Hrecs Hfirst. rewrite Hrun.
      assert (Hkept : skipped first = false).
      { apply (usage_records_kept (transcript_lines content)).
        rewrite Hrecs. left. reflexivity. }
      rewrite Hrecs. simpl fold_left. unfold scan_record at 2. simpl snd.
      cbv iota. rewrite Hfirst.
      destruct (scan_records_latest rest [first] first t0)
        as (e & t & Hlatest & Hfold).
      { exists [], []. repeat split; [exact Hfirst| |]; intros ? ? []. }
      simpl app in Hlatest.
      assert (Hin : In e (first :: rest)).
      { destruct Hlatest as (before & after & -> & _).
        apply in_or_app. right. left. reflexivity. }
      rewrite <- Hrecs in Hin.
      destruct (kept_has_usage e (usage_records_kept _ _ Hin)) as [u Hu].
      exists e, u, t. split; [exact Hlatest|]. split; [exact Hu|].
      transitivity (fst (record_tokens e, Some (Some t)));
        [exact (f_equal fst Hfold)|].
      unfold record_tokens. rewrite Hu. reflexivity.
Qed.

End ContextProperties.

(* ================================================================== *)
(** * Properties of the month report                                   *)
(* ================================================================== *)

Section MonthReportProperties.

Variable LocalTZA : Z.
Variable localeCompare : string -> string -> Z.

Lemma grand_totals_from (rows : list DayRow) (total duration : float)
    (count : nat) :
  fst (fst (fold_left
              (fun acc row =>
                 let '(grandTotal, grandDuration, grandSessions) := acc in
                 (PrimFloat.add grandTotal (dayCost row),
                  PrimFloat.add grandDuration (dayDuration row),
                  (grandSessions + row_sessions row)%nat))
              rows (total, duration, count)))
  = fold_left PrimFloat.add (map dayCost rows) total.
Proof.
  revert total duration count.
  induction rows as [|row rows IH]; intros total duration count; simpl;
    [reflexivity|].
  apply IH.
Qed.

(** X18.  The grand total printed is the per-day subtotals added up, in
    printing order, from zero. *)
Lemma main_grand_total (now : Z) (spend : File SpendData)
    (rows : list DayRow) (grandTotal grandDuration : float)
    (grandSessions : nat) :
  main LocalTZA localeCompare now spend
  = Some (Month rows grandTotal grandDuration grandSessions) ->
  grandTotal = fold_left PrimFloat.add (map dayCost rows) PrimFloat.zero.
Proof.
  unfold main. destruct spend as [| |data]; try discriminate.
  destruct (monthStart LocalTZA now) as [start|]; [|discriminate].
  destruct (List.length _ =? 0)%nat; [discriminate|].
  set (rows' := report_rows _ _).
  pose proof (grand_totals_from rows' PrimFloat.zero PrimFloat.zero O) as Hsum.
  fold (grand_totals rows') in Hsum.
  destruct (grand_totals rows') as [[total duration] count].
  simpl in Hsum. intros Hmain. injection Hmain as <- <- _ _. exact Hsum.
Qed.

(** What the report keeps is what the comparison with [monthStart]
    keeps, whatever month the date is in. *)
Lemma main_none_kept (now : Z) (data : SpendData) (start : string) :
  monthStart LocalTZA now = Some start ->
  (forall s, In s (sessions data) -> str_ge (s_date s) start = false) ->
  main LocalTZA localeCompare now (Holds data) = Some NoSessionsThisMonth.
Proof.
  intros Hstart Hnone. unfold main. rewrite Hstart.
  replace (filter _ (sessions data)) with (@nil SpendSession);
    [reflexivity|].
  symmetry. induction (sessions data) as [|s ss IH]; simpl; [reflexivity|].
  rewrite (Hnone s (or_introl eq_refl)).
  apply IH. intros s' Hin. apply Hnone. right. exact Hin.
Qed.

Lemma map_set_keys (key : string) (v : list SpendSession) (m : DateMap)
    (k : string) :
  In k (map fst (map_set key v m)) -> k = key \/ In k (map fst m).
Proof.
  induction m as [|[k' v'] m IH]; simpl.
  - intros [<-|[]]. left. reflexivity.
  - destruct (String.eqb k' key); simpl.
    + intros [<-|Hin]; [right; left; reflexivity|right; right; exact Hin].
    + intros [<-|Hin]; [right; left; reflexivity|].
      destruct (IH Hin) as [->|Hin']; [left; reflexivity|].
      right. right. exact Hin'.
Qed.

(** Every key of the grouping is the date of a grouped session. *)
Lemma group_by_date_keys (monthSessions : list SpendSession) (k : string) :
  In k (map fst (group_by_date monthSessions)) ->
  exists s, In s monthSessions /\ s_date s = k.
Proof.
  unfold group_by_date.
  assert (Hgen : forall (l : list SpendSession) (m : DateMap),
             In k (map fst
                     (fold_left
                        (fun byDate session =>
                           map_set (s_date session)
                                   (match map_get (s_date session) byDate with
                                    | Some l' => l'
                                    | None => []
                                    end ++ [session]) byDate)
                        l m)) ->
             In k (map fst m) \/ exists s, In s l /\ s_date s = k).
  { induction l as [|s l IH]; intros m Hin; simpl in Hin; [left; exact Hin|].
    destruct (IH _ Hin) as [Hm|(s' & Hs' & Hk)].
    - destruct (map_set_keys _ _ _ _ Hm) as [->|Hm'].
      + right. exists s. split; [left; reflexivity|reflexivity].
      + left. exact Hm'.
    - right. exists s'. split; [right; exact Hs'|exact Hk]. }
  intros Hin. destruct (Hgen _ _ Hin) as [[]|Hex]. exact Hex.
Qed.

Lemma sort_insert_in (cmp : string -> string -> Z) (x y : string)
    (l : list string) :
  In y (sort_insert cmp x l) -> y = x \/ In y l.
Proof.
  induction l as [|z l IH]; simpl.
  - intros [<-|[]]. left. reflexivity.
  - destruct (cmp x z <=? 0); simpl.
    + intros [<-|Hin]; [left; reflexivity|right; exact Hin].
    + intros [<-|Hin]; [right; left; reflexivity|].
      destruct (IH Hin) as [->|Hin']; [left; reflexivity|].
      right. right. exact Hin'.
Qed.

Lemma sort_with_in (cmp : string -> string -> Z) (y : string)
    (l : list string) :
  In y (sort_with cmp l) -> In y l.
Proof.
  induction l as [|x l IH]; simpl; [tauto|].
  intros Hin. destruct (sort_insert_in _ _ _ _ Hin) as [->|Hin'].
  - left. reflexivity.
  - right. exact (IH Hin').
Qed.

(** X19.  Every printed day is the date of a session of the ledger that the
    comparison with [monthStart] keeps. *)
Lemma main_rows_dates (now : Z) (data : SpendData)
    (rows : list DayRow) (grandTotal grandDuration : float)
    (grandSessions : nat) (start : string) :
  monthStart LocalTZA now = Some start ->
  main LocalTZA localeCompare now (Holds data)
  = Some (Month rows grandTotal grandDuration grandSessions) ->
  forall row, In row rows ->
    exists s, In s (sessions data)
              /\ s_date s = row_date row
              /\ str_ge (s_date s) start = true.
Proof.
  intros Hstart. unfold main. rewrite Hstart.
  destruct (List.length _ =? 0)%nat; [discriminate|].
  set (kept := filter _ (sessions data)).
  set (rows' := report_rows _ _).
  destruct (grand_totals rows') as [[total duration] count].
  intros Hmain. injection Hmain as <- _ _ _.
  intros row Hrow. unfold rows', report_rows in Hrow.
  apply in_map_iff in Hrow. destruct Hrow as (date & <- & Hdate).
  apply sort_with_in in Hdate.
  destruct (group_by_date_keys _ _ Hdate) as (s & Hs & Hk).
  unfold kept in Hs. apply filter_In in Hs. destruct Hs as [Hs Hge].
  exists s. split; [exact Hs|]. split; [|exact Hge].
  rewrite Hk. unfold day_row.
  destruct (fold_left _ _ _). reflexivity.
Qed.

End MonthReportProperties.

(** C9, at an input where the code departs from it.  In a zone one hour
    east of UTC, on 2025-03-15T12:00:00Z, [monthStart] is the last day of
    February, so a ledger with a session dated 2025-02-28 and one dated
    2025-03-10 is reported with both days, and a grand total of 3.5
    where March alone comes to 2.  (In a zone at UTC, the same ledger
    gives the March row only.) *)
Theorem main_reports_last_day_of_previous_month :
  monthStart 3600000 1742040000000 = Some "2025-02-28"
  /\ main 3600000 Host.compare_dates 1742040000000
          (Holds (mkSpendData
                    [mkSpendSession "a" 1.5 "2025-02-28" 60000 "/x";
                     mkSpendSession "b" 2 "2025-03-10" 120000 "/y"]))
     = Some (Month [mkDayRow "2025-03-10" 2 120000 1;
                    mkDayRow "2025-02-28" 1.5 60000 1]
                   3.5 180000 2)
  /\ main 0 Host.compare_dates 1742040000000
          (Holds (mkSpendData
                    [mkSpendSession "a" 1.5 "2025-02-28" 60000 "/x";
                     mkSpendSession "b" 2 "2025-03-10" 120000 "/y"]))
     = Some (Month [mkDayRow "2025-03-10" 2 120000 1] 2 120000 1).
Proof.
  split; [|split].
  - vm_compute. reflexivity.
  - vm_compute. reflexivity.
  - vm_compute. reflexivity.
Qed.

(* ================================================================== *)
(** * Concrete runs                                                    *)
(* ================================================================== *)

(** ** Where the statements of the specification fail *)

(** C1, as stated, at a call with a session cost of zero: the reset
    timestamp normalizes to the stored key and the session id is new, yet
    the guard returns first; the record keeps its last session id and
    nothing is written. *)
Lemma updatePeriodCost_zero_cost_keeps_last_session :
  normalizeReset Host.parse_iso (Host.local_time 0) (Host.utc 0)
                 (Some "2025-03-15T10:01:00.000Z")
  = Some (resets_at Sample.record_s1)
  /\ "s2" <> last_session_id Sample.record_s1
  /\ exec (updatePeriodCost Host.parse_iso (Host.local_time 0) (Host.utc 0)
                            "s2" 0 (Some "2025-03-15T10:01:00.000Z"))
          Sample.disk_s1
     = Sample.disk_s1
  /\ period_file
       (exec (updatePeriodCost Host.parse_iso (Host.local_time 0) (Host.utc 0)
                               "s2" 0 (Some "2025-03-15T10:01:00.000Z"))
             Sample.disk_s1)
     <> Holds (mkPeriodCostData (resets_at Sample.record_s1)
                                (PrimFloat.add (p_cost Sample.record_s1) 0)
                                "s2").
Proof.
  split; [vm_compute; reflexivity|].
  split; [discriminate|].
  split; [vm_compute; reflexivity|].
  vm_compute. discriminate.
Qed.

(** C2, as stated, at a reset timestamp that is not null but is no date,
    and at a session cost that is not zero but NaN: with no record
    stored, none is created. *)
Lemma updatePeriodCost_unusable_call_creates_nothing :
  period_file
    (exec (updatePeriodCost Host.parse_iso (Host.local_time 0) (Host.utc 0)
                            "s1" 1.5 (Some "soon"))
          Sample.fresh_disk)
  = Missing
  /\ PrimFloat.is_zero PrimFloat.nan = false
  /\ period_file
       (exec (updatePeriodCost Host.parse_iso (Host.local_time 0) (Host.utc 0)
                               "s1" PrimFloat.nan
                               (Some "2025-03-15T10:01:00.000Z"))
             Sample.fresh_disk)
     = Missing.
Proof.
  split; [vm_compute; reflexivity|].
  split; vm_compute; reflexivity.
Qed.

(** C4, as stated, at two reset timestamps one millisecond apart,
    10:02:59.999 and 10:03:00.000: the first goes to 10:00, which is not
    the five-minute boundary nearest to it (10:05 is), the second to
    10:05; the keys differ. *)
Lemma normalizeReset_splits_one_millisecond :
  Host.parse_iso "2025-03-15T10:02:59.999Z" = Some 1742032979999
  /\ Host.parse_iso "2025-03-15T10:03:00.000Z" = Some (1742032979999 + 1)
  /\ normalizeResetDate (Host.local_time 0) (Host.utc 0) (Some 1742032979999)
     = Some (1742032979999 - 179999)
  /\ (1742032979999 + 120001) mod 300000 = 0
  /\ normalizeReset Host.parse_iso (Host.local_time 0) (Host.utc 0)
                    (Some "2025-03-15T10:02:59.999Z")
     = Some "2025-03-15T10:00:00.000Z"
  /\ normalizeReset Host.parse_iso (Host.local_time 0) (Host.utc 0)
                    (Some "2025-03-15T10:03:00.000Z")
     = Some "2025-03-15T10:05:00.000Z".
Proof.
  repeat split; vm_compute; reflexivity.
Qed.

(** C7, as stated, at a session without an id: its cost is above zero
    and it is saved twice, yet the guard of line 270 returns both times;
    no record carries the id and the disk is as it was. *)
Lemma saveSession_twice_without_id_no_record :
  PrimFloat.ltb PrimFloat.zero
                (total_cost_usd (i_cost Sample.input_unnamed)) = true
  /\ with_id (session_id Sample.input_unnamed)
       (sessions
          (ledger (exec (saveSession 1742126400000 Sample.input_unnamed)
                        (exec (saveSession 1742040000000 Sample.input_unnamed)
                              Sample.fresh_disk))))
     = []
  /\ exec (saveSession 1742126400000 Sample.input_unnamed)
          (exec (saveSession 1742040000000 Sample.input_unnamed)
                Sample.fresh_disk)
     = Sample.fresh_disk.
Proof.
  repeat split; vm_compute; reflexivity.
Qed.

(** C8, as stated, at a transcript whose first usage record carries a
    timestamp that is no date: that record's count is reported (5), not
    the count of the record with the latest timestamp (239); with the
    same records in another order the latter is reported. *)
Lemma getContextTokens_undated_first_record :
  getContextTokens Host.parse_iso (Host.parse_lines Sample.lines)
    (Host.single_file "/t/s1.jsonl"
       (Sample.transcript ["undated"; "early"; "late"]))
    "/t/s1.jsonl"
  = 5%float
  /\ getContextTokens Host.parse_iso (Host.parse_lines Sample.lines)
       (Host.single_file "/t/s1.jsonl"
          (Sample.transcript ["early"; "late"; "undated"]))
       "/t/s1.jsonl"
     = 239%float
  /\ usage_tokens (mkUsage (Some 9%float) (Some 200%float) (Some 30%float))
     = 239%float.
Proof.
  repeat split; vm_compute; reflexivity.
Qed.

(** ** Where the theorems apply *)

(** C1: a second session, "s2", costing 0.25 in the window of the stored
    record ("s1", 1.5). *)
Lemma updatePeriodCost_same_window_new_session_run :
  exists written,
    period_file
      (exec (updatePeriodCost Host.parse_iso (Host.local_time 0) (Host.utc 0)
                              "s2" 0.25 (Some "2025-03-15T10:01:00.000Z"))
            Sample.disk_s1)
    = Holds written
    /\ resets_at written = "2025-03-15T10:00:00.000Z"
    /\ last_session_id written = "s2"
    /\ p_cost written = JS.json_number (PrimFloat.add 1.5 0.25)
    /\ PrimFloat.eqb (p_cost written) (PrimFloat.add 1.5 0.25) = true.
Proof.
  apply (updatePeriodCost_same_window_new_session
           Host.parse_iso (Host.local_time 0) (Host.utc 0)
           "s2" 0.25 (Some "2025-03-15T10:01:00.000Z")
           Sample.record_s1 Sample.disk_s1).
  - reflexivity.
  - reflexivity.
  - vm_compute. reflexivity.
  - vm_compute. reflexivity.
  - discriminate.
  - vm_compute. reflexivity.
Defined.

(** C2: the same call when the stored window is an earlier one, and when
    nothing is stored. *)
Lemma updatePeriodCost_new_window_run :
  period_file
    (exec (updatePeriodCost Host.parse_iso (Host.local_time 0) (Host.utc 0)
                            "s2" 0.25 (Some "2025-03-15T15:01:00.000Z"))
          Sample.disk_s1)
  = Holds (mkPeriodCostData "2025-03-15T15:00:00.000Z" 0.25 "s2")
  /\ period_file
       (exec (updatePeriodCost Host.parse_iso (Host.local_time 0) (Host.utc 0)
                               "s2" 0.25 (Some "2025-03-15T15:01:00.000Z"))
             Sample.fresh_disk)
     = Holds (mkPeriodCostData "2025-03-15T15:00:00.000Z" 0.25 "s2").
Proof.
  split.
  - apply (updatePeriodCost_new_window
             Host.parse_iso (Host.local_time 0) (Host.utc 0)
             "s2" 0.25 (Some "2025-03-15T15:01:00.000Z")
             "2025-03-15T15:00:00.000Z" Sample.disk_s1).
    + reflexivity.
    + vm_compute. reflexivity.
    + vm_compute. reflexivity.
    + vm_compute. reflexivity.
    + intros data Hrec. injection Hrec as <-. discriminate.
  - apply (updatePeriodCost_new_window
             Host.parse_iso (Host.local_time 0) (Host.utc 0)
             "s2" 0.25 (Some "2025-03-15T15:01:00.000Z")
             "2025-03-15T15:00:00.000Z" Sample.fresh_disk).
    + reflexivity.
    + vm_compute. reflexivity.
    + vm_compute. reflexivity.
    + vm_compute. reflexivity.
    + intros data Hrec. discriminate.
Defined.

(** C3: the stored session again, its cost grown to 2. *)
Lemma updatePeriodCost_same_session_noop_run :
  exec (updatePeriodCost Host.parse_iso (Host.local_time 0) (Host.utc 0)
                         "s1" 2 (Some "2025-03-15T09:58:30.000Z"))
       Sample.disk_s1
  = Sample.disk_s1.
Proof.
  apply (updatePeriodCost_same_session_noop
           Host.parse_iso (Host.local_time 0) (Host.utc 0)
           "s1" 2 (Some "2025-03-15T09:58:30.000Z")
           Sample.record_s1 Sample.disk_s1).
  - reflexivity.
  - vm_compute. reflexivity.
  - reflexivity.
Defined.

(** C4: 09:58:00.000 and 10:02:59.999 local time, in a zone one hour east
    of UTC, fall in one bucket and give one date, 10:00 local time; and
    in Europe/Paris, across the end of daylight saving, 02:59 and 02:58
    local time (summer time) both go to 03:00 local time. *)
Lemma normalizeResetDate_buckets_run :
  normalizeResetDate (Host.local_time 3600000) (Host.utc 3600000)
                     (Some 1742029379999)
  = normalizeResetDate (Host.local_time 3600000) (Host.utc 3600000)
                       (Some 1742029080000)
  /\ normalizeResetDate (Host.local_time 3600000) (Host.utc 3600000)
                        (Some 1742029080000)
     = Some 1742029200000
  /\ normalizeResetDate Host.paris_local_time Host.paris_utc
                        (Some 1761440340000)
     = normalizeResetDate Host.paris_local_time Host.paris_utc
                          (Some 1761440280000).
Proof.
  split; [|split].
  - apply (proj2 (proj2 (proj2 (proj2
             (normalizeResetDate_buckets
                (Host.local_time 3600000) (Host.utc 3600000)
                1742029080000))))).
    vm_compute. reflexivity.
  - rewrite (proj1 (normalizeResetDate_buckets
                      (Host.local_time 3600000) (Host.utc 3600000)
                      1742029080000)).
    vm_compute. reflexivity.
  - apply (proj2 (proj2 (proj2 (proj2
             (normalizeResetDate_buckets
                Host.paris_local_time Host.paris_utc 1761440280000))))).
    vm_compute. reflexivity.
Defined.


(** C6: no reset timestamp, and a cost of zero. *)
Lemma updatePeriodCost_guard_noop_run :
  exec (updatePeriodCost Host.parse_iso (Host.local_time 0) (Host.utc 0)
                         "s2" 0.25 None)
       Sample.disk_s1
  = Sample.disk_s1
  /\ exec (updatePeriodCost Host.parse_iso (Host.local_time 0) (Host.utc 0)
                            "s2" 0 (Some "2025-03-15T15:01:00.000Z"))
          Sample.fresh_disk
     = Sample.fresh_disk.
Proof.
  split.
  - apply (updatePeriodCost_guard_noop
             Host.parse_iso (Host.local_time 0) (Host.utc 0)).
    left. reflexivity.
  - apply (updatePeriodCost_guard_noop
             Host.parse_iso (Host.local_time 0) (Host.utc 0)).
    right. right. reflexivity.
Defined.

(** C7: one session saved at 12:00 and again the next day, on a ledger
    that holds another session. *)
Lemma saveSession_twice_one_record_run :
  let d1 := exec (saveSession 1742040000000 Sample.input_a) Sample.disk_s0 in
  let d2 := exec (saveSession 1742126400000 Sample.input_b) d1 in
  with_id "s1" (sessions (ledger d2))
  = [json_session (session_record 1742126400000 Sample.input_b)]
  /\ (exists before after,
        sessions (ledger d1)
        = before
            ++ json_session (session_record 1742040000000 Sample.input_a)
            :: after
        /\ sessions (ledger d2)
           = before
               ++ json_session (session_record 1742126400000 Sample.input_b)
               :: after)
  /\ List.length (sessions (ledger d2)) = List.length (sessions (ledger d1))
  /\ (forall id,
        id <> "s1" ->
        with_id id (sessions (ledger d2))
        = map json_session (with_id id (sessions (ledger Sample.disk_s0))))
  /\ NoDup (map s_id (sessions (ledger d2))).
Proof.
  apply (saveSession_twice_one_record
           1742040000000 1742126400000 Sample.input_a Sample.input_b
           Sample.disk_s0).
  - discriminate.
  - reflexivity.
  - vm_compute. reflexivity.
  - vm_compute. reflexivity.
  - simpl. constructor; [intros []|constructor].
Defined.

(** The ledger of that run, record by record: the other session is kept
    and the session's one record is the second call's. *)
Lemma saveSession_twice_ledger :
  sessions
    (ledger (exec (saveSession 1742126400000 Sample.input_b)
                  (exec (saveSession 1742040000000 Sample.input_a)
                        Sample.disk_s0)))
  = [Sample.yesterday;
     mkSpendSession "s1" 0.75 "2025-03-16" 90000 "/w"].
Proof. vm_compute. reflexivity. Qed.

(** C8: a transcript of three usage records with increasing timestamps
    and a line that does not parse. *)
Lemma getContextTokens_latest_usage_run :
  exists e u t,
    latest_in Host.parse_iso
      (usage_records (Host.parse_lines Sample.lines)
         (transcript_lines
            (Sample.transcript ["early"; "not json"; "late"])))
      e t
    /\ message_usage e = Some u
    /\ getContextTokens Host.parse_iso (Host.parse_lines Sample.lines)
         (Host.single_file "/t/s1.jsonl"
            (Sample.transcript ["early"; "not json"; "late"]))
         "/t/s1.jsonl"
       = usage_tokens u.
Proof.
  apply (proj2 (proj2 (getContextTokens_latest_usage
                         Host.parse_iso (Host.parse_lines Sample.lines)
                         (Host.single_file "/t/s1.jsonl"
                            (Sample.transcript ["early"; "not json"; "late"]))
                         "/t/s1.jsonl")
                      (Sample.transcript ["early"; "not json"; "late"])
                      ltac:(discriminate) eq_refl)
           Sample.entry_early [Sample.entry_late] 1742032800000).
  - vm_compute. reflexivity.
  - vm_compute. reflexivity.
Defined.

(** C10: an input without a session id, and one without a cost. *)
Lemma saveSession_guard_noop_run :
  exec (saveSession 1742040000000
                    (mkHookInput "" "/t/s1.jsonl" "/w"
                                 (mkCost 0.5 60000 0 0)))
       Sample.fresh_disk
  = Sample.fresh_disk
  /\ exec (saveSession 1742040000000
                       (mkHookInput "s1" "/t/s1.jsonl" "/w"
                                    (mkCost 0 60000 0 0)))
          Sample.disk_s1
     = Sample.disk_s1.
Proof.
  split.
  - apply saveSession_guard_noop. left. reflexivity.
  - apply saveSession_guard_noop. right. reflexivity.
Defined.

(* ================================================================== *)
(** * Vocabulary of the further properties                             *)
(* ================================================================== *)

(** The total a report of today shows (zero when it shows none). *)
Definition today_total (r : TodayReport) : float :=
  match r with
  | Today _ _ totalCost _ _ => totalCost
  | _ => PrimFloat.zero
  end.

(** The number of sessions a map holds, all days together. *)
Definition held (m : DateMap) : nat :=
  list_sum (map (fun entry => List.length (snd entry)) m).

Fixpoint all_digits (s : string) : bool :=
  match s with
  | EmptyString => true
  | String c rest => (is_digit c && all_digits rest)%bool
  end.

Fixpoint has_char (c : ascii) (s : string) : bool :=
  match s with
  | EmptyString => false
  | String x rest => (Ascii.eqb x c || has_char c rest)%bool
  end.

(** The check behind the two theorems, on one percentage and one
    length. *)
Definition bar_fits (pct len : Z) : bool :=
  match progressBar (float_of_Z pct) len with
  | Some bar =>
      (cells bar =? len)
      && forallb (fun g => (1 <=? g) && (g <=? 6)) (filled bar)
      && (if pct =? 0 then (List.length (filled bar) =? 0)%nat else true)
      && (if pct =? 100 then (emptyPart bar =? 0)%nat else true)
  | None => false
  end.

Definition bar_throws (pct len : Z) : bool :=
  match progressBar (float_of_Z pct) len with
  | Some _ => false
  | None => true
  end.

(** A line of [git diff --numstat]: the counts of a text file, or the
    hyphens of a binary one, and the path. *)
Inductive NumstatRow : Type :=
| TextRow (added deleted : Z) (path : string)
| BinaryRow (path : string).

Definition numstat_line (r : NumstatRow) : string :=
  match r with
  | TextRow a d p =>
      (dec a ++ String tab (dec d ++ String tab p))%string
  | BinaryRow p => String "-" (String tab (String "-" (String tab p)))
  end.

(** The output of the command: every line ends with a line feed. *)
Fixpoint numstat (rows : list NumstatRow) : string :=
  match rows with
  | [] => EmptyString
  | r :: rest => (numstat_line r ++ String newline (numstat rest))%string
  end.

Definition row_added (r : NumstatRow) : Z :=
  match r with TextRow a _ _ => a | BinaryRow _ => 0 end.

Definition row_deleted (r : NumstatRow) : Z :=
  match r with TextRow _ d _ => d | BinaryRow _ => 0 end.

Definition row_path (r : NumstatRow) : string :=
  match r with TextRow _ _ p => p | BinaryRow p => p end.

Definition sum_Z (l : list Z) : Z := fold_right Z.add 0 l.

(** What a row is required to be: counts that are not negative and a
    path without a line feed. *)
Definition row_ok (r : NumstatRow) : Prop :=
  0 <= row_added r /\ 0 <= row_deleted r
  /\ has_char newline (row_path r) = false.

(* ================================================================== *)
(** * Further properties of the spend ledger and the period tracker    *)
(* ================================================================== *)

Section MoreLedgerProperties.

Lemma upsert_twice (session : SpendSession) (ss : list SpendSession) :
  upsert session (upsert session ss) = upsert session ss.
Proof.
  destruct (upsert_cases session ss)
    as [[Hnone ->]|(before & old & after & -> & Hold & Hbefore & ->)].
  - replace (ss ++ [session]) with (ss ++ session :: []) by reflexivity.
    apply upsert_at; [exact Hnone|reflexivity].
  - apply upsert_at; [exact Hbefore|reflexivity].
Qed.

(** The disk [saveSession] leaves past its guard. *)
Lemma saveSession_exec (now : Z) (input : HookInput) (d : Disk) :
  JS.falsy_str (session_id input) = false ->
  JS.falsy_num (total_cost_usd (i_cost input)) = false ->
  exec (saveSession now input) d
  = mkDisk true
           (Holds (json_spend
                     (mkSpendData (upsert (session_record now input)
                                          (sessions (ledger d))))))
           (period_file d)
           (WriteSpend
              (json_spend
                 (mkSpendData (upsert (session_record now input)
                                      (sessions (ledger d)))))
              :: writes d).
Proof.
  intros Hid Hcost. unfold saveSession. rewrite Hid, Hcost. simpl orb.
  cbv iota. destruct d as [dir sf pf ws].
  unfold exec, try_catch, bind, ensure_data_dir, loadSpendData, today_of,
    write_spend, upsert, session_record.
  destruct dir; simpl; destruct (negb _); reflexivity.
Qed.

Lemma saveSession_passes_or_not (now : Z) (input : HookInput) (d : Disk) :
  exec (saveSession now input) d = d
  \/ (JS.falsy_str (session_id input) = false
      /\ JS.falsy_num (total_cost_usd (i_cost input)) = false).
Proof.
  destruct (JS.falsy_str (session_id input)) eqn:Hid.
  { left. apply saveSession_guarded. rewrite Hid. reflexivity. }
  destruct (JS.falsy_num (total_cost_usd (i_cost input))) eqn:Hcost.
  { left. apply saveSession_guarded. rewrite Hcost. apply orb_true_r. }
  right. split; reflexivity.
Qed.

(** X1.  Saving the same input again at the same instant leaves the ledger
    file as the first save left it. *)
Theorem saveSession_idempotent (now : Z) (input : HookInput) (d : Disk) :
  spend_file (exec (saveSession now input) (exec (saveSession now input) d))
  = spend_file (exec (saveSession now input) d).
Proof.
  destruct (saveSession_passes_or_not now input d) as [Hsame|[Hid Hcost]].
  - rewrite Hsame, Hsame. reflexivity.
  - rewrite !(saveSession_exec now input _ Hid Hcost).
    cbn [spend_file ledger]. unfold json_spend. cbn [sessions].
    do 2 f_equal.
    rewrite (upsert_json _ (map json_session _)).
    rewrite json_sessions_idempotent, upsert_json.
    apply upsert_twice.
Qed.

(** X2.  [saveSession] touches the records of its own session only: the
    records under any other id are the same, in the same order, up to
    what rewriting the file does to a number that is not finite (JSON
    writes it [null]); they are unchanged when their numbers are finite
    or [null] already, as in any ledger this program wrote.  The ledger
    never gets shorter nor longer by more than one record. *)
Theorem saveSession_keeps_other_sessions
    (now : Z) (input : HookInput) (d : Disk) (id : string) :
  id <> session_id input ->
  map json_session
      (with_id id (sessions (ledger (exec (saveSession now input) d))))
  = map json_session (with_id id (sessions (ledger d)))
  /\ ((forall s, In s (with_id id (sessions (ledger d))) ->
                 json_session s = s) ->
      with_id id (sessions (ledger (exec (saveSession now input) d)))
      = with_id id (sessions (ledger d)))
  /\ (List.length (sessions (ledger d))
      <= List.length (sessions (ledger (exec (saveSession now input) d)))
      <= S (List.length (sessions (ledger d))))%nat.
Proof.
  intros Hother.
  destruct (saveSession_passes_or_not now input d) as [Hsame|[Hid Hcost]].
  { rewrite Hsame. repeat split; try reflexivity; lia. }
  rewrite (saveSession_upserts now input d Hid Hcost). simpl sessions.
  assert (Hkept :
            with_id id
                    (map json_session
                         (upsert (session_record now input)
                                 (sessions (ledger d))))
            = map json_session (with_id id (sessions (ledger d)))).
  { rewrite with_id_json. f_equal. apply upsert_other_ids. exact Hother. }
  split; [|split].
  - rewrite Hkept. apply json_sessions_idempotent.
  - intros Hstable. rewrite Hkept.
    rewrite (map_ext_in _ (fun s => s) _ Hstable). apply map_id.
  - rewrite length_map. apply upsert_length.
Qed.

End MoreLedgerProperties.

Section TwoWriters.

Variable Date_parse : string -> JS.Date.
Variable LocalTime : Z -> Z.
Variable UTC : Z -> Z.

(** What [updatePeriodCost] does to a disk: nothing, or one
    [savePeriodData] of a record that depends on the period file only. *)
Lemma updatePeriodCost_effect sessionId sessionCost resetsAt :
  exists step : File PeriodCostData -> option PeriodCostData,
    forall d,
      exec (updatePeriodCost Date_parse LocalTime UTC
                             sessionId sessionCost resetsAt) d
      = match step (period_file d) with
        | Some data => exec (savePeriodData data) d
        | None => d
        end.
Proof.
  destruct (JS.falsy_opt_str resetsAt) eqn:Hr.
  { exists (fun _ => None). intros d. apply updatePeriodCost_guarded.
    rewrite Hr. reflexivity. }
  destruct (JS.falsy_num sessionCost) eqn:Hc.
  { exists (fun _ => None). intros d. apply updatePeriodCost_guarded.
    rewrite Hc. apply orb_true_r. }
  destruct (normalizeReset Date_parse LocalTime UTC resetsAt)
    as [key|] eqn:Hkey.
  - exists (fun f =>
              match f with
              | Holds data =>
                  if String.eqb (resets_at data) key
                  then if String.eqb (last_session_id data) sessionId
                       then None
                       else Some (mkPeriodCostData
                                    (resets_at data)
                                    (PrimFloat.add
                                       (JS.to_number (p_cost data))
                                       sessionCost)
                                    sessionId)
                  else Some (mkPeriodCostData key sessionCost sessionId)
              | _ => Some (mkPeriodCostData key sessionCost sessionId)
              end).
    intros d.
    rewrite (updatePeriodCost_keyed Date_parse LocalTime UTC
                                    _ _ _ _ d Hr Hc Hkey).
    unfold period_record.
    destruct (period_file d) as [| |data]; try reflexivity.
    destruct (String.eqb (resets_at data) key); [|reflexivity].
    destruct (String.eqb (last_session_id data) sessionId); reflexivity.
  - exists (fun _ => None). intros d.
    apply updatePeriodCost_invalid. exact Hkey.
Qed.

(** X3.  The two background writers of the main flow do not interfere:
    [saveSession] leaves the period file alone, [updatePeriodCost]
    leaves the ledger alone, and the two files end up the same whichever
    runs first. *)
Theorem writers_independent
    (now : Z) (input : HookInput) sessionId sessionCost resetsAt (d : Disk) :
  period_file (exec (saveSession now input) d) = period_file d
  /\ spend_file
       (exec (updatePeriodCost Date_parse LocalTime UTC
                               sessionId sessionCost resetsAt) d)
     = spend_file d
  /\ spend_file
       (exec (saveSession now input)
             (exec (updatePeriodCost Date_parse LocalTime UTC
                                     sessionId sessionCost resetsAt) d))
     = spend_file
         (exec (updatePeriodCost Date_parse LocalTime UTC
                                 sessionId sessionCost resetsAt)
               (exec (saveSession now input) d))
  /\ period_file
       (exec (saveSession now input)
             (exec (updatePeriodCost Date_parse LocalTime UTC
                                     sessionId sessionCost resetsAt) d))
     = period_file
         (exec (updatePeriodCost Date_parse LocalTime UTC
                                 sessionId sessionCost resetsAt)
               (exec (saveSession now input) d)).
Proof.
  destruct (updatePeriodCost_effect sessionId sessionCost resetsAt)
    as [step Hstep].
  assert (Hsave_period :
            forall d', period_file (exec (saveSession now input) d')
                       = period_file d').
  { intros d'.
    destruct (saveSession_passes_or_not now input d') as [->|[Hid Hcost]];
      [reflexivity|].
    rewrite (saveSession_exec now input d' Hid Hcost). reflexivity. }
  assert (Hupd_spend : forall d',
             spend_file (exec (updatePeriodCost Date_parse LocalTime UTC
                                                sessionId sessionCost
                                                resetsAt) d')
             = spend_file d').
  { intros d'. rewrite Hstep.
    destruct (step (period_file d')); [|reflexivity].
    rewrite savePeriodData_exec. reflexivity. }
  assert (Hupd_period : forall d1 d2,
             period_file d1 = period_file d2 ->
             period_file (exec (updatePeriodCost Date_parse LocalTime UTC
                                                 sessionId sessionCost
                                                 resetsAt) d1)
             = period_file (exec (updatePeriodCost Date_parse LocalTime UTC
                                                   sessionId sessionCost
                                                   resetsAt) d2)).
  { intros d1 d2 Hsame. rewrite !Hstep, Hsame.
    destruct (step (period_file d2)); [|exact Hsame].
    rewrite !savePeriodData_exec. reflexivity. }
  assert (Hsave_spend : forall d1 d2,
             spend_file d1 = spend_file d2 ->
             spend_file (exec (saveSession now input) d1)
             = spend_file (exec (saveSession now input) d2)).
  { intros d1 d2 Hsame.
    destruct (JS.falsy_str (session_id input)) eqn:Hid.
    { rewrite !saveSession_guarded by (rewrite Hid; reflexivity).
      exact Hsame. }
    destruct (JS.falsy_num (total_cost_usd (i_cost input))) eqn:Hcost.
    { rewrite !saveSession_guarded by (rewrite Hcost; apply orb_true_r).
      exact Hsame. }
    rewrite !(saveSession_exec now input _ Hid Hcost). simpl.
    unfold ledger. rewrite Hsame. reflexivity. }
  split; [apply Hsave_period|].
  split; [apply Hupd_spend|].
  split.
  - rewrite Hupd_spend. apply Hsave_spend. apply Hupd_spend.
  - rewrite Hsave_period. apply Hupd_period. symmetry. apply Hsave_period.
Qed.

End TwoWriters.

Section ReadAfterWrite.

Variable Date_parse : string -> JS.Date.
Variable LocalTime : Z -> Z.
Variable UTC : Z -> Z.

(** Adding a cost that is neither zero nor NaN to zero gives the cost. *)
Lemma add_zero_truthy (c : float) :
  JS.falsy_num c = false -> PrimFloat.add PrimFloat.zero c = c.
Proof.
  intros Hc. apply Prim2SF_inj. rewrite add_spec.
  unfold JS.falsy_num in Hc. rewrite eqb_spec in Hc.
  change (Prim2SF PrimFloat.zero) with (S754_zero false) in *.
  unfold SF64add, SFadd.
  destruct (Prim2SF c) as [s|s| |s m e]; try reflexivity.
  destruct s; discriminate.
Qed.

Lemma getTodayCost_eval (now : Z) (d : Disk) :
  eval (getTodayCost now) d
  = Some (fold_left (fun sum s => PrimFloat.add sum (JS.to_number (s_cost s)))
                    (filter (fun s =>
                               String.eqb (s_date s)
                                          (JS.split_head "T"%char
                                                         (JS.iso_string now)))
                            (sessions (ledger d)))
                    PrimFloat.zero).
Proof. reflexivity. Qed.

Lemma filter_none {A} (p : A -> bool) (l : list A) :
  (forall x, In x l -> p x = false) -> filter p l = [].
Proof.
  induction l as [|x l IH]; simpl; intros Hnone; [reflexivity|].
  rewrite (Hnone x (or_introl eq_refl)).
  apply IH. intros y Hy. apply Hnone. right. exact Hy.
Qed.

(** X5.  Once a session with a finite cost has been saved on a day for
    which the ledger held nothing, the daily total shown at any later
    refresh of that day is the saved cost plus the cost of the input: the
    cost of a session that is refreshed again is counted in both. *)
Theorem totalToday_after_saveSession
    (now1 now2 : Z) (input1 input2 : HookInput) (d : Disk) :
  session_id input1 <> "" ->
  JS.falsy_num (total_cost_usd (i_cost input1)) = false ->
  PrimFloat.is_finite (total_cost_usd (i_cost input1)) = true ->
  today_of now2 = today_of now1 ->
  (forall s today,
     In s (sessions (ledger d)) -> today_of now1 = Some today ->
     s_date s <> today) ->
  eval (totalToday now2 input2) (exec (saveSession now1 input1) d)
  = Some (PrimFloat.add (total_cost_usd (i_cost input1))
                        (total_cost_usd (i_cost input2))).
Proof.
  intros Hid Hcost Hfin Hday Hnone.
  assert (Hid' : JS.falsy_str (session_id input1) = false).
  { destruct (session_id input1); [contradiction Hid|]; reflexivity. }
  unfold totalToday, eval, bind.
  pose proof (getTodayCost_eval now2 (exec (saveSession now1 input1) d))
    as Hread.
  unfold eval in Hread.
  destruct (getTodayCost now2 (exec (saveSession now1 input1) d))
    as [v d'] eqn:Hrun.
  simpl in Hread. subst v. unfold ret. simpl. do 2 f_equal.
  rewrite (saveSession_upserts now1 input1 d Hid' Hcost). simpl sessions.
  assert (Hsame : JS.split_head "T"%char (JS.iso_string now2)
                  = JS.split_head "T"%char (JS.iso_string now1)).
  { unfold today_of in Hday. simpl in Hday. injection Hday as E. exact E. }
  rewrite Hsame.
  set (today := JS.split_head "T"%char (JS.iso_string now1)).
  rewrite filter_json by reflexivity.
  assert (Hold : forall s, In s (sessions (ledger d)) ->
                           String.eqb (s_date s) today = false).
  { intros s Hs. apply String.eqb_neq. apply (Hnone s today Hs). reflexivity. }
  assert (Hsum :
            fold_left
              (fun sum s => PrimFloat.add sum (JS.to_number (s_cost s)))
              (map json_session [session_record now1 input1])
              PrimFloat.zero
            = total_cost_usd (i_cost input1)).
  { cbn [map fold_left json_session session_record s_cost].
    rewrite (to_number_json_number _ Hfin Hcost).
    apply add_zero_truthy. exact Hcost. }
  destruct (upsert_cases (session_record now1 input1) (sessions (ledger d)))
    as [[_ ->]|(before & old & after & Hss & _ & _ & ->)].
  - rewrite filter_app, (filter_none _ _ Hold). simpl filter.
    fold today. rewrite String.eqb_refl. exact Hsum.
  - rewrite Hss in Hold. rewrite filter_app. simpl filter.
    fold today. rewrite String.eqb_refl.
    rewrite (filter_none _ before), (filter_none _ after).
    + exact Hsum.
    + intros s Hs. apply Hold. apply in_or_app. right. right. exact Hs.
    + intros s Hs. apply Hold. apply in_or_app. left. exact Hs.
Qed.

(** X6.  Reading the period cost back after a call that opened a new
    window with a finite cost: the session's cost until the window
    resets, zero afterwards. *)
Theorem getCurrentPeriodCost_after_new_window
    sessionId sessionCost resetsAt key (resetTime now : Z) (d : Disk) :
  JS.falsy_opt_str resetsAt = false ->
  JS.falsy_num sessionCost = false ->
  PrimFloat.is_finite sessionCost = true ->
  normalizeReset Date_parse LocalTime UTC resetsAt = Some key ->
  (forall data, period_record d = Some data -> resets_at data <> key) ->
  Date_parse key = Some resetTime ->
  eval (getCurrentPeriodCost Date_parse now)
       (exec (updatePeriodCost Date_parse LocalTime UTC
                               sessionId sessionCost resetsAt) d)
  = Some (if resetTime <? now then PrimFloat.zero else sessionCost).
Proof.
  intros Hr Hc Hfin Hkey Hother Hparse.
  rewrite (updatePeriodCost_keyed Date_parse LocalTime UTC
                                  _ _ _ _ d Hr Hc Hkey).
  assert (Hnew : forall d',
             eval (getCurrentPeriodCost Date_parse now)
                  (exec (savePeriodData
                           (mkPeriodCostData key sessionCost sessionId)) d')
             = Some (if resetTime <? now then PrimFloat.zero
                     else sessionCost)).
  { intros d'. rewrite savePeriodData_exec.
    unfold eval, getCurrentPeriodCost, try_or, bind, loadPeriodData,
      period_record, json_period.
    cbn [period_file resets_at p_cost last_session_id].
    rewrite (json_number_truthy _ Hfin Hc).
    rewrite Hparse. unfold gt_time.
    destruct (resetTime <? now); reflexivity. }
  destruct (period_record d) as [data|] eqn:Hrec; [|apply Hnew].
  destruct (String.eqb_spec (resets_at data) key) as [E|_]; [|apply Hnew].
  exfalso. exact (Hother data eq_refl E).
Qed.

End ReadAfterWrite.

Section ConstantOffset.

(** The offset of local time from UTC, in milliseconds, on a host where
    it is constant. *)
Variable LocalTZA : Z.

(** X7.  Normalizing a normalized reset date changes nothing. *)
Theorem normalizeResetDate_idempotent (resetDate : JS.Date) :
  normalizeResetDate (Host.local_time LocalTZA) (Host.utc LocalTZA)
    (normalizeResetDate (Host.local_time LocalTZA) (Host.utc LocalTZA)
                        resetDate)
  = normalizeResetDate (Host.local_time LocalTZA) (Host.utc LocalTZA)
                       resetDate.
Proof.
  destruct resetDate as [t|]; [|reflexivity].
  assert (Hnorm : forall u,
             normalizeResetDate (Host.local_time LocalTZA)
                                (Host.utc LocalTZA) (Some u)
             = JS.TimeClip
                 (Host.utc LocalTZA
                    (300000
                     * ((Host.local_time LocalTZA u + 120000) / 300000)))).
  { intros u. unfold normalizeResetDate, getMinutes, setMinutes. simpl.
    rewrite rounded_minutes_floor. reflexivity. }
  rewrite (Hnorm t).
  set (x := Host.utc LocalTZA
              (300000 * ((Host.local_time LocalTZA t + 120000) / 300000))).
  unfold JS.TimeClip.
  destruct (Z.abs x <=? 8640000000000000) eqn:Hclip; [|reflexivity].
  rewrite Hnorm.
  replace (Host.utc LocalTZA
             (300000 * ((Host.local_time LocalTZA x + 120000) / 300000)))
    with x.
  - unfold JS.TimeClip. rewrite Hclip. reflexivity.
  - subst x. unfold Host.utc, Host.local_time. Z.div_mod_to_equations. lia.
Qed.

End ConstantOffset.

(* ================================================================== *)
(** * Properties of the formatters                                     *)
(* ================================================================== *)

Section FormatterProperties.

Variable Date_parse : string -> JS.Date.

(** ** Decimal numerals *)

Lemma all_digits_uint (d : Decimal.uint) :
  all_digits (NilEmpty.string_of_uint d) = true.
Proof. induction d; simpl; auto. Qed.

Lemma all_digits_dec (n : Z) : 0 <= n -> all_digits (dec n) = true.
Proof.
  intros Hn. unfold dec. destruct n as [|p|p]; [reflexivity| |lia].
  simpl. destruct (Pos.to_uint p); try reflexivity; apply all_digits_uint.
Qed.

Lemma dec_inj (n n' : Z) : dec n = dec n' -> n = n'.
Proof.
  unfold dec. intros Hsame. apply DecimalZ.to_int_inj.
  assert (Hnn : forall z, Z.to_int z <> Decimal.Pos Decimal.Nil
                          /\ Z.to_int z <> Decimal.Neg Decimal.Nil).
  { intros [|p|p]; simpl; split; try discriminate;
      intros E; injection E as E; exact (Unsigned.to_uint_nonnil p E). }
  destruct (Hnn n) as [Hp Hm]. destruct (Hnn n') as [Hp' Hm'].
  pose proof (NilZero.isi _ Hp Hm) as H1.
  pose proof (NilZero.isi _ Hp' Hm') as H2.
  rewrite Hsame in H1. rewrite H1 in H2. injection H2 as E. exact E.
Qed.

(** Two texts that start with digits and go on with a character that is
    no digit agree part by part. *)
Lemma digits_then_mark (a a' r r' : string) (c c' : ascii) :
  all_digits a = true -> all_digits a' = true ->
  is_digit c = false -> is_digit c' = false ->
  (a ++ String c r)%string = (a' ++ String c' r')%string ->
  a = a' /\ c = c' /\ r = r'.
Proof.
  revert a'. induction a as [|x a IH]; intros [|x' a'] Ha Ha' Hc Hc' Heq;
    simpl in *.
  - injection Heq as -> ->. auto.
  - injection Heq as -> _. apply andb_prop in Ha'. destruct Ha' as [Hx _].
    rewrite Hx in Hc. discriminate.
  - injection Heq as -> _. apply andb_prop in Ha. destruct Ha as [Hx _].
    rewrite Hx in Hc'. discriminate.
  - injection Heq as -> Heq.
    apply andb_prop in Ha. apply andb_prop in Ha'.
    destruct (IH a' (proj2 Ha) (proj2 Ha') Hc Hc' Heq) as (-> & -> & ->).
    auto.
Qed.

(** ** Durations *)

(** The hours and minutes [formatDuration] shows for a duration that is
    not negative: the minutes are below 60, hours and minutes together
    are the whole minutes of the duration, and the hours are left out
    exactly when there are none. *)
Lemma formatDuration_parts (ms : Z) :
  0 <= ms ->
  exists hrs m,
    0 <= hrs /\ 0 <= m < 60 /\ ms / 60000 = 60 * hrs + m
    /\ formatDuration ms
       = (if Z.eqb hrs 0 then dec m ++ "m"
          else dec hrs ++ "h" ++ dec m ++ "m")%string.
Proof.
  intros Hms. exists (ms / 60000 / 60), (Z.rem (ms / 60000) 60).
  assert (Hmins : 0 <= ms / 60000) by (apply Z.div_pos; lia).
  rewrite Z.rem_mod_nonneg by lia.
  split; [apply Z.div_pos; lia|].
  split; [apply Z.mod_pos_bound; lia|].
  split; [apply Z.div_mod; lia|].
  unfold formatDuration. rewrite Z.rem_mod_nonneg by lia.
  assert (Hh : 0 <= ms / 60000 / 60) by (apply Z.div_pos; lia).
  destruct (Z.ltb_spec 0 (ms / 60000 / 60)) as [Hpos|Hzero];
    destruct (Z.eqb_spec (ms / 60000 / 60) 0) as [E|N];
    try reflexivity; lia.
Qed.

(** X8.  The text of a duration determines its whole minutes: two durations
    that are not negative and lie below 2^53 milliseconds show the same
    text exactly when they have the same number of whole minutes. *)
Theorem formatDuration_same_text (ms1 ms2 : Z) :
  0 <= ms1 < 2 ^ 53 -> 0 <= ms2 < 2 ^ 53 ->
  (formatDuration ms1 = formatDuration ms2 <-> ms1 / 60000 = ms2 / 60000).
Proof.
  intros [H1 _] [H2 _]. split.
  - destruct (formatDuration_parts ms1 H1)
      as (h1 & m1 & Hh1 & Hm1 & -> & ->).
    destruct (formatDuration_parts ms2 H2)
      as (h2 & m2 & Hh2 & Hm2 & -> & ->).
    assert (Hmark_h : is_digit "h"%char = false) by reflexivity.
    assert (Hmark_m : is_digit "m"%char = false) by reflexivity.
    destruct (Z.eqb_spec h1 0) as [E1|N1];
      destruct (Z.eqb_spec h2 0) as [E2|N2]; intros Htext.
    + destruct (digits_then_mark _ _ _ _ _ _
                  (all_digits_dec m1 (proj1 Hm1))
                  (all_digits_dec m2 (proj1 Hm2)) Hmark_m Hmark_m Htext)
        as (Em & _ & _).
      apply dec_inj in Em. lia.
    + destruct (digits_then_mark _ _ _ _ _ _
                  (all_digits_dec m1 (proj1 Hm1))
                  (all_digits_dec h2 Hh2) Hmark_m Hmark_h Htext)
        as (_ & Ec & _).
      discriminate.
    + destruct (digits_then_mark _ _ _ _ _ _
                  (all_digits_dec h1 Hh1)
                  (all_digits_dec m2 (proj1 Hm2)) Hmark_h Hmark_m Htext)
        as (_ & Ec & _).
      discriminate.
    + destruct (digits_then_mark _ _ _ _ _ _
                  (all_digits_dec h1 Hh1)
                  (all_digits_dec h2 Hh2) Hmark_h Hmark_h Htext)
        as (Eh & _ & Erest).
      destruct (digits_then_mark _ _ _ _ _ _
                  (all_digits_dec m1 (proj1 Hm1))
                  (all_digits_dec m2 (proj1 Hm2)) Hmark_m Hmark_m Erest)
        as (Em & _ & _).
      apply dec_inj in Eh. apply dec_inj in Em. lia.
  - intros Hsame. unfold formatDuration. rewrite Hsame. reflexivity.
Qed.

(** ** Time left until a reset *)

(** X9.  [formatResetTime]: "NaNm" for a reset timestamp that is no date,
    "now" for one that is not after [now], and otherwise the text
    [formatDuration] gives for the time that is left. *)
Theorem formatResetTime_cases (now : Z) (resetsAt : string) :
  (Date_parse resetsAt = None ->
   formatResetTime Date_parse now resetsAt = "NaNm")
  /\ (forall t, Date_parse resetsAt = Some t -> t <= now ->
                formatResetTime Date_parse now resetsAt = "now")
  /\ (forall t, Date_parse resetsAt = Some t -> now < t ->
                formatResetTime Date_parse now resetsAt
                = formatDuration (t - now)).
Proof.
  unfold formatResetTime. split; [|split].
  - intros ->. reflexivity.
  - intros t -> Hpast.
    destruct (Z.leb_spec (t - now) 0); [reflexivity|lia].
  - intros t -> Hleft.
    destruct (Z.leb_spec (t - now) 0) as [|Hpos]; [lia|].
    unfold formatDuration.
    rewrite !Z.rem_mod_nonneg by (try apply Z.div_pos; lia).
    replace ((t - now) / 60000 / 60) with ((t - now) / 3600000)
      by (rewrite Z.div_div by lia; reflexivity).
    replace (((t - now) / 60000) mod 60)
      with ((t - now) mod 3600000 / 60000)
      by (Z.div_mod_to_equations; lia).
    reflexivity.
Qed.

End FormatterProperties.

Section PathProperties.

Lemma has_char_app (c : ascii) (a b : string) :
  has_char c (a ++ b)%string = (has_char c a || has_char c b)%bool.
Proof.
  induction a as [|x a IH]; simpl; [reflexivity|].
  rewrite IH. apply orb_assoc.
Qed.

Lemma replace_backslashes_clean (s : string) :
  has_char backslash (replace_backslashes s) = false.
Proof.
  induction s as [|c s IH]; simpl; [reflexivity|].
  rewrite IH. destruct (Ascii.eqb_spec c backslash) as [E|N].
  - reflexivity.
  - apply orb_false_iff. split; [|reflexivity].
    apply Ascii.eqb_neq. exact N.
Qed.

Lemma string_drop_clean (c : ascii) (n : nat) (s : string) :
  has_char c s = false -> has_char c (string_drop n s) = false.
Proof.
  revert s. induction n as [|n IH]; intros s Hs; [exact Hs|].
  destruct s as [|x s]; [reflexivity|]. simpl in *.
  apply orb_false_iff in Hs. apply IH. apply Hs.
Qed.

(** Every piece of a split is free of any character the string is free
    of, and free of the separator. *)
Lemma split_on_pieces (sep c : ascii) (s piece : string) :
  In piece (JS.split_on sep s) ->
  has_char sep piece = false
  /\ (has_char c s = false -> has_char c piece = false).
Proof.
  revert piece. induction s as [|x s IH]; simpl; intros piece Hin.
  - destruct Hin as [<-|[]]. split; auto.
  - destruct (Ascii.eqb_spec x sep) as [E|N].
    + destruct Hin as [<-|Hin]; [split; auto|].
      destruct (IH piece Hin) as [Hsep Hc]. split; [exact Hsep|].
      intros H. apply orb_false_iff in H. apply Hc. apply H.
    + destruct (JS.split_on sep s) as [|first rest] eqn:Hsplit.
      * destruct Hin as [<-|[]]. simpl. split.
        -- apply orb_false_iff.
           split; [apply Ascii.eqb_neq; exact N|reflexivity].
        -- intros H. apply orb_false_iff in H. apply orb_false_iff.
           split; [apply H|reflexivity].
      * destruct Hin as [<-|Hin].
        -- destruct (IH first (or_introl eq_refl)) as [Hsep Hc]. simpl. split.
           ++ apply orb_false_iff.
              split; [apply Ascii.eqb_neq; exact N|exact Hsep].
           ++ intros H. apply orb_false_iff in H. apply orb_false_iff.
              split; [apply H|apply Hc; apply H].
        -- destruct (IH piece (or_intror Hin)) as [Hsep Hc].
           split; [exact Hsep|].
           intros H. apply orb_false_iff in H. apply Hc. apply H.
Qed.

Lemma split_on_whole (sep : ascii) (s : string) :
  has_char sep s = false -> JS.split_on sep s = [s].
Proof.
  induction s as [|x s IH]; simpl; intros Hs; [reflexivity|].
  apply orb_false_iff in Hs. destruct Hs as [Hx Hs].
  rewrite Hx, (IH Hs). reflexivity.
Qed.

Lemma split_on_app (sep : ascii) (a b : string) :
  has_char sep a = false ->
  JS.split_on sep (a ++ String sep b)%string = a :: JS.split_on sep b.
Proof.
  induction a as [|x a IH]; simpl; intros Ha.
  - rewrite Ascii.eqb_refl. reflexivity.
  - apply orb_false_iff in Ha. destruct Ha as [Hx Ha].
    rewrite Hx, (IH Ha). reflexivity.
Qed.

Lemma last_two_in {A} (arr : list A) (x : A) :
  In x (last_two arr) -> In x arr.
Proof.
  induction arr as [|a [|b [|c arr]] IH]; simpl; auto.
  intros Hin. right. apply IH. exact Hin.
Qed.

Lemma last_two_pair {A} (arr : list A) :
  (2 <= List.length arr)%nat -> exists a b, last_two arr = [a; b].
Proof.
  induction arr as [|a [|b [|c arr]] IH]; simpl; intros Hlen; try lia.
  - exists a, b. reflexivity.
  - apply IH. simpl. lia.
Qed.

Lemma segments_in (p s : string) :
  In s (segments p) ->
  s <> EmptyString /\ has_char slash s = false
  /\ (has_char backslash p = false -> has_char backslash s = false).
Proof.
  unfold segments. rewrite filter_In. intros [Hin Hne].
  destruct (split_on_pieces slash backslash p s Hin) as [Hsep Hc].
  split; [|split; assumption].
  intros ->. discriminate.
Qed.

(** X10.  The path shown never has a backslash and never has more than two
    components. *)
Theorem formatPath_short (home path : string) :
  has_char backslash (formatPath home path) = false
  /\ (List.length (segments (formatPath home path)) <= 2)%nat.
Proof.
  unfold formatPath.
  set (p := if JS.falsy_str home then replace_backslashes path
            else if String.prefix (replace_backslashes home)
                                  (replace_backslashes path)
                 then ("~" ++ string_drop
                                (String.length (replace_backslashes home))
                                (replace_backslashes path))%string
                 else replace_backslashes path).
  assert (Hp : has_char backslash p = false).
  { unfold p. destruct (JS.falsy_str home);
      [apply replace_backslashes_clean|].
    destruct (String.prefix _ _); [|apply replace_backslashes_clean].
    simpl. apply string_drop_clean. apply replace_backslashes_clean. }
  destruct (Nat.ltb_spec 2 (List.length (segments p))) as [Hlong|Hshort].
  - destruct (last_two_pair (segments p)) as (a & b & Hlast); [lia|].
    rewrite Hlast.
    assert (Ha : In a (segments p))
      by (apply last_two_in; rewrite Hlast; left; reflexivity).
    assert (Hb : In b (segments p))
      by (apply last_two_in; rewrite Hlast; right; left; reflexivity).
    destruct (segments_in p a Ha) as (Hane & Haslash & Haback).
    destruct (segments_in p b Hb) as (Hbne & Hbslash & Hbback).
    unfold join_slash. simpl String.concat.
    split.
    + simpl. rewrite has_char_app. simpl.
      rewrite (Haback Hp), (Hbback Hp). reflexivity.
    + unfold segments.
      assert (Hlead : forall rest,
                 JS.split_on slash (String slash rest)
                 = EmptyString :: JS.split_on slash rest) by reflexivity.
      replace ("/" ++ a ++ String slash b)%string
        with (String slash (a ++ String slash b)%string) by reflexivity.
      rewrite Hlead.
      rewrite split_on_app by exact Haslash.
      rewrite split_on_whole by exact Hbslash.
      simpl. destruct a; [contradiction Hane; reflexivity|].
      destruct b; [contradiction Hbne; reflexivity|].
      simpl. lia.
  - split; [exact Hp|exact Hshort].
Qed.

End PathProperties.

Section BarProperties.

(** A check that holds on every number of a range holds on each. *)
Lemma checked_range (check : Z -> bool) (lo : Z) (n : nat) :
  forallb (fun k => check (lo + Z.of_nat k)) (seq 0 n) = true ->
  forall z, lo <= z < lo + Z.of_nat n -> check z = true.
Proof.
  intros Hall z Hz. rewrite forallb_forall in Hall.
  replace z with (lo + Z.of_nat (Z.to_nat (z - lo))) by lia.
  apply Hall. apply in_seq. lia.
Qed.

(** X11.  For a whole percentage from 0 to 100 and a length from 1 to 40 the
    bar is drawn and has exactly [len] cells, each filled cell a glyph
    of [chars] other than the empty one; at 0 no cell is filled and at
    100 none is empty. *)
Theorem progressBar_fills_its_length (pct len : Z) :
  0 <= pct <= 100 -> 1 <= len <= 40 ->
  exists bar,
    progressBar (float_of_Z pct) len = Some bar
    /\ cells bar = len
    /\ (forall g, In g (filled bar) -> 1 <= g <= 6)
    /\ (pct = 0 -> filled bar = [])
    /\ (pct = 100 -> emptyPart bar = O).
Proof.
  intros Hpct Hlen.
  assert (Hfits : bar_fits pct len = true).
  { apply (checked_range (fun l => bar_fits pct l) 1 40); [|lia].
    apply (checked_range
             (fun p => forallb (fun k => bar_fits p (1 + Z.of_nat k))
                               (seq 0 40)) 0 101); [|lia].
    vm_compute. reflexivity. }
  unfold bar_fits in Hfits.
  destruct (progressBar (float_of_Z pct) len) as [bar|]; [|discriminate].
  apply andb_prop in Hfits. destruct Hfits as [Hfits Hfull].
  apply andb_prop in Hfits. destruct Hfits as [Hfits Hnone].
  apply andb_prop in Hfits. destruct Hfits as [Hcells Hglyphs].
  exists bar. split; [reflexivity|].
  split; [apply Z.eqb_eq; exact Hcells|].
  split; [|split].
  - intros g Hg. rewrite forallb_forall in Hglyphs.
    specialize (Hglyphs g Hg). apply andb_prop in Hglyphs. lia.
  - intros ->. simpl in Hnone. apply Nat.eqb_eq in Hnone.
    destruct (filled bar); [reflexivity|discriminate].
  - intros ->. simpl in Hfull. apply Nat.eqb_eq. exact Hfull.
Qed.

(** X12.  On the five-cell bar of the usage limits, a whole percentage from
    102 to 1000, or from -1000 to -2, raises the RangeError of [repeat]
    instead of drawing. *)
Theorem progressBar_out_of_range_throws (pct : Z) :
  102 <= pct <= 1000 \/ -1000 <= pct <= -2 ->
  progressBar (float_of_Z pct) 5 = None.
Proof.
  intros Hpct.
  assert (Hthrows : bar_throws pct 5 = true).
  { destruct Hpct as [Hhigh|Hlow].
    - apply (checked_range (fun p => bar_throws p 5) 102 899); [|lia].
      vm_compute. reflexivity.
    - apply (checked_range (fun p => bar_throws p 5) (-1000) 999); [|lia].
      vm_compute. reflexivity. }
  unfold bar_throws in Hthrows.
  destruct (progressBar (float_of_Z pct) 5); [discriminate|reflexivity].
Qed.

End BarProperties.

(* ================================================================== *)
(** * Properties of the git statistics                                 *)
(* ================================================================== *)

Section GitProperties.

Lemma all_digits_free (c : ascii) (s : string) :
  is_digit c = false -> all_digits s = true -> has_char c s = false.
Proof.
  intros Hc. induction s as [|x s IH]; simpl; intros Hs; [reflexivity|].
  apply andb_prop in Hs. destruct Hs as [Hx Hs].
  rewrite (IH Hs). destruct (Ascii.eqb_spec x c) as [->|_]; [|reflexivity].
  rewrite Hx in Hc. discriminate.
Qed.

Lemma digits_prefix_step (c : ascii) (rest : string) (acc : Z) :
  is_digit c = true ->
  digits_prefix (String c rest) (Some acc)
  = digits_prefix rest (Some (10 * acc + (Z.of_nat (nat_of_ascii c) - 48))).
Proof. intros Hc. simpl. rewrite Hc. reflexivity. Qed.

Ltac digit_value :=
  match goal with
  | |- context [Z.of_nat (nat_of_ascii ?c) - 48] =>
      let v := eval vm_compute in (Z.of_nat (nat_of_ascii c) - 48) in
      change (Z.of_nat (nat_of_ascii c) - 48) with v
  end.

Lemma digits_prefix_pos (d : Decimal.uint) (acc : positive) :
  digits_prefix (NilEmpty.string_of_uint d) (Some (Z.pos acc))
  = Some (Z.pos (Pos.of_uint_acc d acc)).
Proof.
  revert acc.
  induction d; intros acc; cbn [NilEmpty.string_of_uint Pos.of_uint_acc];
    [reflexivity|..];
    rewrite digits_prefix_step by reflexivity; digit_value;
    rewrite <- IHd; do 2 f_equal; lia.
Qed.

Lemma digits_prefix_zero (d : Decimal.uint) :
  digits_prefix (NilEmpty.string_of_uint d) (Some 0)
  = Some (Z.of_N (Pos.of_uint d)).
Proof.
  induction d; cbn [NilEmpty.string_of_uint Pos.of_uint];
    [reflexivity|..];
    rewrite digits_prefix_step by reflexivity; digit_value;
    [exact IHd|..]; apply (digits_prefix_pos d).
Qed.

Lemma digits_prefix_uint (d : Decimal.uint) :
  d <> Decimal.Nil ->
  digits_prefix (NilEmpty.string_of_uint d) None
  = Some (Z.of_N (Pos.of_uint d)).
Proof.
  intros Hd. rewrite <- digits_prefix_zero.
  destruct d; [contradiction|..]; reflexivity.
Qed.

Lemma dec_head (n : Z) :
  0 <= n -> exists c rest, dec n = String c rest /\ is_digit c = true.
Proof.
  intros Hn. pose proof (all_digits_dec n Hn) as Hall.
  destruct (dec n) as [|c rest] eqn:Hdec.
  - exfalso. unfold dec in Hdec. destruct n as [|p|p]; [discriminate| |lia].
    simpl in Hdec. destruct (Pos.to_uint p); discriminate.
  - simpl in Hall. apply andb_prop in Hall. exists c, rest. tauto.
Qed.

Lemma digit_not_space (c : ascii) : is_digit c = true -> is_space c = false.
Proof.
  unfold is_digit, is_space. intros H. apply andb_prop in H.
  destruct H as [H1 H2]. apply Nat.leb_le in H1. apply Nat.leb_le in H2.
  repeat (apply orb_false_iff; split).
  - apply andb_false_iff. right. apply Nat.leb_gt. lia.
  - apply Nat.eqb_neq. lia.
  - apply Nat.eqb_neq. lia.
Qed.

(** [parseInt] reads back the decimal text of a number that is not
    negative. *)
Lemma parseInt10_dec (n : Z) : 0 <= n -> parseInt10 (dec n) = Some n.
Proof.
  intros Hn. destruct (dec_head n Hn) as (c & rest & Hdec & Hc).
  unfold parseInt10. rewrite Hdec. simpl trim_start.
  rewrite (digit_not_space c Hc).
  assert (Hminus : Ascii.eqb c "-" = false).
  { apply Ascii.eqb_neq. intros ->. discriminate. }
  assert (Hplus : Ascii.eqb c "+" = false).
  { apply Ascii.eqb_neq. intros ->. discriminate. }
  rewrite Hminus, Hplus, <- Hdec. unfold dec.
  destruct n as [|p|p]; [reflexivity| |lia].
  simpl. pose proof (Unsigned.to_uint_nonnil p) as Hnn.
  replace (NilZero.string_of_uint (Pos.to_uint p))
    with (NilEmpty.string_of_uint (Pos.to_uint p))
    by (destruct (Pos.to_uint p); try reflexivity; contradiction).
  rewrite digits_prefix_uint by exact Hnn.
  rewrite DecimalPos.Unsigned.of_to. reflexivity.
Qed.

Lemma trim_keeps_head (c : ascii) (rest : string) :
  is_space c = false -> JS.falsy_str (trim (String c rest)) = false.
Proof.
  intros Hc. unfold trim. simpl trim_start. rewrite Hc. simpl trim_end.
  destruct (trim_end rest); [rewrite Hc|]; reflexivity.
Qed.

Lemma stats_line_row (r : NumstatRow) (added deleted : Z) :
  row_ok r ->
  stats_line (added, Some deleted) (numstat_line r)
  = (added + row_added r, Some (deleted + row_deleted r)).
Proof.
  intros (Ha & Hd & _). unfold stats_line.
  destruct r as [a d p|p];
    cbn [numstat_line row_added row_deleted fst snd] in *.
  - destruct (dec_head a Ha) as (c & rest & Hdec & Hc).
    rewrite Hdec. simpl append.
    rewrite (trim_keeps_head c _ (digit_not_space c Hc)).
    change (String c (rest ++ String tab (dec d ++ String tab p)))%string
      with ((String c rest) ++ String tab (dec d ++ String tab p))%string.
    rewrite <- Hdec.
    rewrite split_on_app
      by (apply all_digits_free; [reflexivity|apply all_digits_dec; exact Ha]).
    rewrite split_on_app
      by (apply all_digits_free; [reflexivity|apply all_digits_dec; exact Hd]).
    simpl map. rewrite (parseInt10_dec a Ha), (parseInt10_dec d Hd).
    reflexivity.
  - rewrite (trim_keeps_head "-" _ eq_refl).
    replace (String "-" (String tab (String "-" (String tab p))))
      with ("-" ++ String tab ("-" ++ String tab p))%string by reflexivity.
    rewrite split_on_app by reflexivity.
    rewrite split_on_app by reflexivity.
    reflexivity.
Qed.

Lemma numstat_line_one_line (r : NumstatRow) :
  row_ok r -> has_char newline (numstat_line r) = false.
Proof.
  intros (Ha & Hd & Hp). destruct r as [a d p|p]; simpl in *.
  - rewrite has_char_app. simpl. rewrite has_char_app. simpl.
    rewrite (all_digits_free newline _ eq_refl (all_digits_dec a Ha)).
    rewrite (all_digits_free newline _ eq_refl (all_digits_dec d Hd)).
    rewrite Hp. reflexivity.
  - rewrite Hp. reflexivity.
Qed.

(** X13.  On the output of [git diff --numstat], [parseStats] returns the sums
    of the two columns, a binary file counting for nothing (the counts
    and their sums being below 2^53, where numbers are exact). *)
Theorem parseStats_numstat (rows : list NumstatRow) :
  Forall row_ok rows ->
  sum_Z (map row_added rows) < 2 ^ 53 ->
  sum_Z (map row_deleted rows) < 2 ^ 53 ->
  parseStats (numstat rows)
  = (sum_Z (map row_added rows), Some (sum_Z (map row_deleted rows))).
Proof.
  intros Hrows _ _. unfold parseStats.
  assert (Hgen : forall added deleted,
             fold_left stats_line (JS.split_on newline (numstat rows))
                       (added, Some deleted)
             = (added + sum_Z (map row_added rows),
                Some (deleted + sum_Z (map row_deleted rows)))).
  { induction Hrows as [|r rows Hr Hrows IH]; intros added deleted; simpl.
    - rewrite !Z.add_0_r. reflexivity.
    - rewrite split_on_app by (apply numstat_line_one_line; exact Hr).
      simpl fold_left. rewrite (stats_line_row r added deleted Hr).
      rewrite IH. f_equal; [|f_equal]; lia. }
  rewrite Hgen. reflexivity.
Qed.

Lemma stats_line_nan_stays (lines : list string) (added : Z) :
  snd (fold_left stats_line lines (added, None)) = None.
Proof.
  revert added. induction lines as [|l lines IH]; intros added; simpl;
    [reflexivity|].
  assert (Hstay : snd (stats_line (added, None) l) = None).
  { unfold stats_line. destruct (JS.falsy_str (trim l)); reflexivity. }
  destruct (stats_line (added, None) l) as [added' deleted'].
  simpl in Hstay. subst deleted'. apply IH.
Qed.

(** X14.  A line of the output that is not blank and has no tab makes the
    count of deleted lines NaN, whatever the other lines are. *)
Theorem parseStats_line_without_tab (diff line : string) :
  In line (JS.split_on newline diff) ->
  JS.falsy_str (trim line) = false ->
  has_char tab line = false ->
  snd (parseStats diff) = None.
Proof.
  intros Hin Hline Htab. unfold parseStats.
  destruct (in_split _ _ Hin) as (before & after & ->).
  rewrite fold_left_app. simpl fold_left.
  destruct (fold_left stats_line before (0, Some 0)) as [a d].
  assert (Hnan : snd (stats_line (a, d) line) = None).
  { unfold stats_line. rewrite Hline.
    rewrite (split_on_whole tab line Htab). simpl.
    destruct d; reflexivity. }
  destruct (stats_line (a, d) line) as [a' d']. simpl in Hnan. subst d'.
  apply stats_line_nan_stays.
Qed.

End GitProperties.

(* ================================================================== *)
(** * Properties of the two reports                                    *)
(* ================================================================== *)

Section ReportProperties.

Variable LocalTZA : Z.
Variable localeCompare : string -> string -> Z.

Lemma fold_pair_fst (ss : list SpendSession) (a b : float) :
  fst (fold_left
         (fun acc session =>
            (PrimFloat.add (fst acc) (JS.to_number (s_cost session)),
             PrimFloat.add (snd acc)
                           (JS.to_number (s_duration_ms session))))
         ss (a, b))
  = fold_left (fun sum s => PrimFloat.add sum (JS.to_number (s_cost s))) ss a.
Proof.
  revert a b. induction ss as [|s ss IH]; intros a b; simpl; [reflexivity|].
  apply IH.
Qed.

(** X15.  Whenever the today command prints, its total is the daily figure the
    status line reads from the same ledger at the same instant. *)
Theorem today_main_total_is_getTodayCost
    (now : Z) (d : Disk) (r : TodayReport) :
  today_main now (spend_file d) = Some r ->
  eval (getTodayCost now) d = Some (today_total r).
Proof.
  unfold today_main, eval, getTodayCost, try_or, bind, loadSpendData, ledger,
    today_of.
  destruct (spend_file d) as [| |data]; simpl.
  - intros E. injection E as <-. reflexivity.
  - discriminate.
  - set (kept := filter _ (sessions data)).
    destruct (List.length kept =? 0)%nat eqn:Hlen.
    + intros E. injection E as <-.
      destruct kept; [reflexivity|discriminate Hlen].
    + destruct (existsb _ kept); [discriminate|].
      pose proof (fold_pair_fst kept PrimFloat.zero PrimFloat.zero) as Hfst.
      destruct (fold_left _ kept (PrimFloat.zero, PrimFloat.zero))
        as [total duration].
      intros E. injection E as <-. simpl in *. rewrite Hfst. reflexivity.
Qed.

(** ** Grouping by day *)

Lemma map_set_keys_in (key : string) (v : list SpendSession) (m : DateMap) :
  In key (map fst m) -> map fst (map_set key v m) = map fst m.
Proof.
  induction m as [|[k' v'] m IH]; simpl; [tauto|].
  destruct (String.eqb_spec k' key) as [E|N]; [reflexivity|].
  intros [E|Hin]; [contradiction|]. simpl. rewrite (IH Hin). reflexivity.
Qed.

Lemma map_set_keys_new (key : string) (v : list SpendSession) (m : DateMap) :
  ~ In key (map fst m) -> map fst (map_set key v m) = map fst m ++ [key].
Proof.
  induction m as [|[k' v'] m IH]; simpl; [reflexivity|].
  intros Hnot. destruct (String.eqb_spec k' key) as [E|N]; [tauto|].
  simpl. rewrite IH by tauto. reflexivity.
Qed.

Lemma map_set_keys_nodup (key : string) (v : list SpendSession)
    (m : DateMap) :
  NoDup (map fst m) -> NoDup (map fst (map_set key v m)).
Proof.
  intros Hnd. destruct (in_dec string_dec key (map fst m)) as [Hin|Hnot].
  - rewrite map_set_keys_in by exact Hin. exact Hnd.
  - rewrite map_set_keys_new by exact Hnot. apply NoDup_snoc; assumption.
Qed.

Lemma map_get_absent (key : string) (m : DateMap) :
  ~ In key (map fst m) -> map_get key m = None.
Proof.
  induction m as [|[k v] m IH]; simpl; [reflexivity|].
  intros Hnot. destruct (String.eqb_spec k key) as [E|N]; [tauto|].
  apply IH. tauto.
Qed.

(** Adding a session to its day adds one to what the map holds. *)
Lemma held_add (s : SpendSession) (m : DateMap) :
  held (map_set (s_date s)
                (match map_get (s_date s) m with
                 | Some l => l
                 | None => []
                 end ++ [s]) m)
  = S (held m).
Proof.
  unfold held. induction m as [|[k v] m IH]; simpl; [reflexivity|].
  destruct (String.eqb_spec k (s_date s)) as [E|N]; simpl.
  - rewrite length_app. simpl. lia.
  - rewrite IH. lia.
Qed.

Lemma group_by_date_invariant (l : list SpendSession) (m : DateMap) :
  NoDup (map fst m) ->
  let m' :=
    fold_left
      (fun byDate session =>
         map_set (s_date session)
                 (match map_get (s_date session) byDate with
                  | Some l' => l'
                  | None => []
                  end ++ [session]) byDate)
      l m in
  NoDup (map fst m') /\ held m' = (held m + List.length l)%nat.
Proof.
  revert m. induction l as [|s l IH]; intros m Hnd; simpl.
  - split; [exact Hnd|lia].
  - destruct (IH _ (map_set_keys_nodup (s_date s)
                      (match map_get (s_date s) m with
                       | Some l' => l'
                       | None => []
                       end ++ [s]) m Hnd)) as [Hnd' Hheld].
    split; [exact Hnd'|]. rewrite Hheld, held_add. lia.
Qed.

(** ** Sorting *)

Lemma sort_insert_perm (cmp : string -> string -> Z) (x : string)
    (l : list string) :
  Permutation (sort_insert cmp x l) (x :: l).
Proof.
  induction l as [|y l IH]; simpl; [reflexivity|].
  destruct (cmp x y <=? 0); [reflexivity|].
  rewrite IH. apply perm_swap.
Qed.

Lemma sort_with_perm (cmp : string -> string -> Z) (l : list string) :
  Permutation (sort_with cmp l) l.
Proof.
  induction l as [|x l IH]; simpl; [reflexivity|].
  rewrite sort_insert_perm. constructor. exact IH.
Qed.

Lemma sort_insert_sorted (cmp : string -> string -> Z) (x : string)
    (l : list string) :
  (forall a b, cmp a b <= 0 \/ cmp b a <= 0) ->
  Sorted (fun a b => cmp a b <= 0) l ->
  Sorted (fun a b => cmp a b <= 0) (sort_insert cmp x l).
Proof.
  intros Htotal. induction l as [|y l IH]; intros Hsorted; simpl.
  - repeat constructor.
  - destruct (Z.leb_spec (cmp x y) 0) as [Hle|Hgt].
    + constructor; [exact Hsorted|]. constructor. exact Hle.
    + inversion Hsorted as [|? ? Hl Hhd]; subst.
      constructor; [apply IH; exact Hl|].
      destruct l as [|z l]; simpl.
      * constructor. destruct (Htotal x y); lia.
      * destruct (cmp x z <=? 0).
        -- constructor. destruct (Htotal x y); lia.
        -- inversion Hhd; subst. constructor. assumption.
Qed.

Lemma sort_with_sorted (cmp : string -> string -> Z) (l : list string) :
  (forall a b, cmp a b <= 0 \/ cmp b a <= 0) ->
  Sorted (fun a b => cmp a b <= 0) (sort_with cmp l).
Proof.
  intros Htotal. induction l as [|x l IH]; simpl; [constructor|].
  apply sort_insert_sorted; assumption.
Qed.

(** ** The month report *)

Lemma row_of_day (date : string) (ss : list SpendSession) :
  row_date (day_row date ss) = date
  /\ row_sessions (day_row date ss) = List.length ss.
Proof. unfold day_row. destruct (fold_left _ _ _). split; reflexivity. Qed.

Lemma grand_totals_count (rows : list DayRow) (total duration : float)
    (count : nat) :
  snd (fold_left
         (fun acc row =>
            let '(grandTotal, grandDuration, grandSessions) := acc in
            (PrimFloat.add grandTotal (dayCost row),
             PrimFloat.add grandDuration (dayDuration row),
             (grandSessions + row_sessions row)%nat))
         rows (total, duration, count))
  = (count + list_sum (map row_sessions rows))%nat.
Proof.
  revert total duration count.
  induction rows as [|row rows IH]; intros total duration count; simpl;
    [lia|].
  rewrite IH. lia.
Qed.

Lemma held_by_keys (m : DateMap) :
  NoDup (map fst m) ->
  map (fun key => List.length match map_get key m with
                              | Some ss => ss
                              | None => []
                              end)
      (map fst m)
  = map (fun entry => List.length (snd entry)) m.
Proof.
  induction m as [|[k v] m IH]; simpl; intros Hnd; [reflexivity|].
  inversion Hnd as [|? ? Hk Hm]; subst.
  rewrite String.eqb_refl. f_equal.
  rewrite <- (IH Hm). apply map_ext_in. intros key Hkey.
  destruct (String.eqb_spec k key) as [E|N]; [|reflexivity].
  subst key. contradiction.
Qed.

(** X16.  Grouping by day neither loses nor repeats a session: the session
    count of the grand total is the number of sessions the comparison
    with [monthStart] keeps, and no day is printed twice. *)
Theorem main_counts_every_kept_session
    (now : Z) (data : SpendData) (start : string)
    (rows : list DayRow) (grandTotal grandDuration : float)
    (grandSessions : nat) :
  monthStart LocalTZA now = Some start ->
  main LocalTZA localeCompare now (Holds data)
  = Some (Month rows grandTotal grandDuration grandSessions) ->
  grandSessions
  = List.length (filter (fun s => str_ge (s_date s) start) (sessions data))
  /\ list_sum (map row_sessions rows) = grandSessions
  /\ NoDup (map row_date rows).
Proof.
  intros Hstart. unfold main. rewrite Hstart.
  set (kept := filter _ (sessions data)).
  destruct (List.length kept =? 0)%nat; [discriminate|].
  set (byDate := group_by_date kept).
  set (sortedDates := sort_with _ (map fst byDate)).
  set (rows' := report_rows byDate sortedDates).
  pose proof (grand_totals_count rows' PrimFloat.zero PrimFloat.zero O)
    as Hcount.
  fold (grand_totals rows') in Hcount.
  destruct (grand_totals rows') as [[total duration] count].
  simpl in Hcount. intros Hmain. injection Hmain as <- _ _ <-.
  destruct (group_by_date_invariant kept [] (NoDup_nil _)) as [Hnd Hheld].
  fold (group_by_date kept) in Hnd, Hheld. fold byDate in Hnd, Hheld.
  assert (Hperm : Permutation sortedDates (map fst byDate))
    by apply sort_with_perm.
  assert (Hdates : map row_date rows' = sortedDates).
  { unfold rows', report_rows. rewrite map_map.
    rewrite <- (map_id sortedDates) at 2. apply map_ext.
    intros date. apply row_of_day. }
  assert (Hsessions :
            map row_sessions rows'
            = map (fun key => List.length match map_get key byDate with
                                          | Some ss => ss
                                          | None => []
                                          end) sortedDates).
  { unfold rows', report_rows. rewrite map_map. apply map_ext.
    intros date. apply row_of_day. }
  assert (Hsum : list_sum (map row_sessions rows') = List.length kept).
  { rewrite Hsessions.
    rewrite (Permutation_list_sum
               (Permutation_map _ Hperm)).
    rewrite held_by_keys by exact Hnd.
    exact Hheld. }
  split; [rewrite Hcount, Hsum; reflexivity|].
  split; [rewrite Hcount; reflexivity|].
  rewrite Hdates. apply (Permutation_NoDup (Permutation_sym Hperm)).
  exact Hnd.
Qed.

(** X17.  The days are printed newest first: under a comparison that orders
    any two strings one way or the other, no printed day comes before a
    day printed above it. *)
Theorem main_rows_newest_first
    (now : Z) (spend : File SpendData)
    (rows : list DayRow) (grandTotal grandDuration : float)
    (grandSessions : nat) :
  (forall a b, localeCompare a b <= 0 \/ localeCompare b a <= 0) ->
  main LocalTZA localeCompare now spend
  = Some (Month rows grandTotal grandDuration grandSessions) ->
  Sorted (fun above below => localeCompare below above <= 0)
         (map row_date rows).
Proof.
  intros Htotal. unfold main. destruct spend as [| |data]; try discriminate.
  destruct (monthStart LocalTZA now) as [start|]; [|discriminate].
  destruct (List.length _ =? 0)%nat; [discriminate|].
  set (byDate := group_by_date _).
  set (sortedDates := sort_with _ (map fst byDate)).
  set (rows' := report_rows byDate sortedDates).
  destruct (grand_totals rows') as [[total duration] count].
  intros Hmain. injection Hmain as <- _ _ _.
  assert (Hdates : map row_date rows' = sortedDates).
  { unfold rows', report_rows. rewrite map_map.
    rewrite <- (map_id sortedDates) at 2. apply map_ext.
    intros date. apply row_of_day. }
  rewrite Hdates. unfold sortedDates.
  apply (sort_with_sorted (fun a b => localeCompare b a)).
  intros a b. destruct (Htotal a b); auto.
Qed.

End ReportProperties.

(* ================================================================== *)
(** * Writes                                                           *)
(* ================================================================== *)

Section Writes.

Variable Date_parse : string -> JS.Date.
Variable LocalTime : Z -> Z.
Variable UTC : Z -> Z.

(** X4.  Each of the two background writers writes its own file at most once
    per call, and leaves the whole disk as it is when it does not
    write. *)
Theorem one_write_per_call
    (now : Z) (input : HookInput) sessionId sessionCost resetsAt (d : Disk) :
  (exec (saveSession now input) d = d
   \/ exists data,
        writes (exec (saveSession now input) d) = WriteSpend data :: writes d
        /\ spend_file (exec (saveSession now input) d) = Holds data)
  /\ (exec (updatePeriodCost Date_parse LocalTime UTC
                             sessionId sessionCost resetsAt) d = d
      \/ exists data,
           writes (exec (updatePeriodCost Date_parse LocalTime UTC
                                          sessionId sessionCost resetsAt) d)
           = WritePeriod data :: writes d
           /\ period_file (exec (updatePeriodCost Date_parse LocalTime UTC
                                                  sessionId sessionCost
                                                  resetsAt) d)
              = Holds data).
Proof.
  split.
  - destruct (saveSession_passes_or_not now input d) as [Hsame|[Hid Hcost]];
      [left; exact Hsame|].
    right. rewrite (saveSession_exec now input d Hid Hcost).
    eexists. split; reflexivity.
  - destruct (updatePeriodCost_effect Date_parse LocalTime UTC sessionId
                                      sessionCost resetsAt) as [step Hstep].
    rewrite Hstep. destruct (step (period_file d)) as [data|];
      [|left; reflexivity].
    right. exists (json_period data). rewrite savePeriodData_exec.
    split; reflexivity.
Qed.

End Writes.

(* ================================================================== *)
(** * A further property of the context scanner                        *)
(* ================================================================== *)

Section ContextFrame.

Variable Date_parse : string -> JS.Date.
Variable JSON_parse : string -> option TranscriptEntry.
Variable read_text : string -> File string.

(** X20.  The count depends on the usage records only: two transcripts
    that hold the same usage records, in the same order, give the same
    count, whatever lines that do not parse, side-channel records,
    error records or records without a timestamp lie between them. *)
Theorem getContextTokens_only_usage_records
    (path1 path2 content1 content2 : string) :
  path1 <> "" -> path2 <> "" ->
  read_text path1 = Holds content1 ->
  read_text path2 = Holds content2 ->
  usage_records JSON_parse (transcript_lines content1)
  = usage_records JSON_parse (transcript_lines content2) ->
  getContextTokens Date_parse JSON_parse read_text path1
  = getContextTokens Date_parse JSON_parse read_text path2.
Proof.
  intros Hp1 Hp2 Hf1 Hf2 Hsame. unfold getContextTokens.
  destruct path1 as [|c1 p1]; [contradiction Hp1; reflexivity|].
  destruct path2 as [|c2 p2]; [contradiction Hp2; reflexivity|].
  simpl JS.falsy_str. cbv iota. rewrite Hf1, Hf2.
  rewrite !scan_lines_records.
  unfold transcript_lines in Hsame. rewrite Hsame. reflexivity.
Qed.

End ContextFrame.

(* ================================================================== *)
(** * The start of the month, zone by zone                             *)
(* ================================================================== *)

(** The date part of an ISO string, for a day number. *)
Definition date_text (day : Z) : string :=
  let '(y, m, d) := JS.civil_from_days day in
  (JS.iso_year y ++ "-" ++ JS.pad 2 m ++ "-" ++ JS.pad 2 d)%string.

Section CalendarProperties.

Variable LocalTZA : Z.

(** ** The calendar *)

Lemma civil_from_days_cycle (n k : Z) :
  JS.civil_from_days (n + 146097 * k)
  = (fst (fst (JS.civil_from_days n)) + 400 * k,
     snd (fst (JS.civil_from_days n)),
     snd (JS.civil_from_days n)).
Proof.
  unfold JS.civil_from_days.
  replace ((n + 146097 * k + 719468) / 146097)
    with ((n + 719468) / 146097 + k)
    by (Z.div_mod_to_equations; lia).
  replace (n + 146097 * k + 719468 - ((n + 719468) / 146097 + k) * 146097)
    with (n + 719468 - (n + 719468) / 146097 * 146097) by lia.
  cbv zeta. cbn [fst snd].
  set (doe := n + 719468 - (n + 719468) / 146097 * 146097).
  set (yoe := (doe - doe / 1460 + doe / 36524 - doe / 146096) / 365).
  set (mp := (5 * (doe - (365 * yoe + yoe / 4 - yoe / 100)) + 2) / 153).
  destruct ((if mp <? 10 then mp + 3 else mp - 9) <=? 2);
    f_equal; f_equal; lia.
Qed.

Lemma days_from_civil_cycle (y m d k : Z) :
  JS.days_from_civil (y + 400 * k) m d
  = JS.days_from_civil y m d + 146097 * k.
Proof.
  unfold JS.days_from_civil. destruct (m <=? 2).
  - replace ((y + 400 * k - 1) / 400) with ((y - 1) / 400 + k)
      by (Z.div_mod_to_equations; lia).
    cbv zeta.
    replace (y + 400 * k - 1 - ((y - 1) / 400 + k) * 400)
      with (y - 1 - (y - 1) / 400 * 400) by lia.
    lia.
  - replace ((y + 400 * k) / 400) with (y / 400 + k)
      by (Z.div_mod_to_equations; lia).
    cbv zeta.
    replace (y + 400 * k - (y / 400 + k) * 400)
      with (y - y / 400 * 400) by lia.
    lia.
Qed.

Definition first_of_month_check (y m : Z) : bool :=
  let '(y', m', d') := JS.civil_from_days (JS.days_from_civil y m 1) in
  (y' =? y) && (m' =? m) && (d' =? 1).

(** The first of a month is read back from its day number. *)
Lemma civil_first_of_month (y m : Z) :
  1 <= m <= 12 ->
  JS.civil_from_days (JS.days_from_civil y m 1) = (y, m, 1).
Proof.
  intros Hm.
  assert (Hcheck : first_of_month_check (y mod 400) m = true).
  { apply (checked_range (fun m' => first_of_month_check (y mod 400) m') 1 12);
      [|lia].
    apply (checked_range
             (fun y' => forallb (fun k => first_of_month_check
                                            y' (1 + Z.of_nat k))
                                (seq 0 12)) 0 400).
    - vm_compute. reflexivity.
    - pose proof (Z.mod_pos_bound y 400). lia. }
  unfold first_of_month_check in Hcheck.
  replace y with (y mod 400 + 400 * (y / 400)) at 1
    by (Z.div_mod_to_equations; lia).
  rewrite days_from_civil_cycle, civil_from_days_cycle.
  destruct (JS.civil_from_days (JS.days_from_civil (y mod 400) m 1))
    as [[y' m'] d'].
  cbn [fst snd]. apply andb_prop in Hcheck. destruct Hcheck as [Hcheck Hd].
  apply andb_prop in Hcheck. destruct Hcheck as [Hy Hm'].
  apply Z.eqb_eq in Hy, Hm', Hd. subst.
  f_equal. f_equal. Z.div_mod_to_equations. lia.
Qed.

(** Every day falls in a month from 1 to 12. *)
Lemma civil_month_range (day : Z) :
  1 <= snd (fst (JS.civil_from_days day)) <= 12.
Proof.
  unfold JS.civil_from_days. cbv zeta. cbn [fst snd].
  set (doe := day + 719468 - (day + 719468) / 146097 * 146097).
  assert (Hdoe : 0 <= doe < 146097)
    by (subst doe; Z.div_mod_to_equations; lia).
  set (yoe := (doe - doe / 1460 + doe / 36524 - doe / 146096) / 365).
  assert (Hdoy : 0 <= doe - (365 * yoe + yoe / 4 - yoe / 100) <= 365)
    by (subst yoe; Z.div_mod_to_equations; lia).
  set (doy := doe - (365 * yoe + yoe / 4 - yoe / 100)) in *.
  assert (Hmp : 0 <= (5 * doy + 2) / 153 <= 11)
    by (Z.div_mod_to_equations; lia).
  destruct (Z.ltb_spec ((5 * doy + 2) / 153) 10); lia.
Qed.

(** ** ISO strings *)

Lemma digit_char_is_digit (d : Z) : is_digit (JS.digit_char d) = true.
Proof.
  unfold is_digit, JS.digit_char.
  assert (Hd : (Z.to_nat (d mod 10) < 10)%nat)
    by (pose proof (Z.mod_pos_bound d 10); lia).
  rewrite nat_ascii_embedding by lia.
  apply andb_true_intro. split; apply Nat.leb_le; lia.
Qed.

Lemma pad_digits_free (c : ascii) (width : nat) (n : Z) (acc : string) :
  is_digit c = false -> has_char c acc = false ->
  has_char c (JS.pad_digits width n acc) = false.
Proof.
  intros Hc. revert n acc. induction width as [|w IH]; intros n acc Hacc;
    cbn [JS.pad_digits]; [exact Hacc|].
  apply IH. cbn [has_char]. rewrite Hacc.
  destruct (Ascii.eqb_spec (JS.digit_char n) c) as [E|_]; [|reflexivity].
  rewrite <- E, digit_char_is_digit in Hc. discriminate.
Qed.

Lemma iso_year_free (y : Z) : has_char "T" (JS.iso_year y) = false.
Proof.
  unfold JS.iso_year, JS.pad.
  destruct ((0 <=? y) && (y <=? 9999))%bool;
    [apply pad_digits_free; reflexivity|].
  destruct (y <? 0); rewrite has_char_app;
    rewrite pad_digits_free by reflexivity; reflexivity.
Qed.

Lemma split_head_app (sep : ascii) (a b : string) :
  has_char sep a = false ->
  JS.split_head sep (a ++ String sep b)%string = a.
Proof.
  induction a as [|x a IH]; simpl; intros Ha.
  - rewrite Ascii.eqb_refl. reflexivity.
  - apply orb_false_iff in Ha. destruct Ha as [Hx Ha].
    rewrite Hx, (IH Ha). reflexivity.
Qed.

Lemma string_app_assoc (a b c : string) :
  ((a ++ b) ++ c)%string = (a ++ (b ++ c))%string.
Proof.
  induction a as [|x a IH]; simpl; [reflexivity|].
  rewrite IH. reflexivity.
Qed.

(** The part of an ISO string before its "T" is the date of its day. *)
Lemma iso_string_date (t : Z) :
  JS.split_head "T" (JS.iso_string t) = date_text (JS.Day t).
Proof.
  unfold JS.iso_string, date_text, JS.YearFromTime, JS.MonthFromTime,
    JS.DateFromTime.
  destruct (JS.civil_from_days (JS.Day t)) as [[y m] d]. cbn [fst snd].
  replace (m - 1 + 1) with m by lia.
  set (rest := (JS.pad 2 (JS.HourFromTime t) ++ _)%string).
  replace (JS.iso_year y ++ "-" ++ JS.pad 2 m ++ "-" ++ JS.pad 2 d
             ++ "T" ++ rest)%string
    with ((JS.iso_year y ++ "-" ++ JS.pad 2 m ++ "-" ++ JS.pad 2 d)
            ++ String "T" rest)%string
    by (rewrite !string_app_assoc; reflexivity).
  apply split_head_app.
  rewrite !has_char_app, iso_year_free.
  unfold JS.pad. rewrite !pad_digits_free by reflexivity. reflexivity.
Qed.

(** ** The start of the month *)

Lemma monthStart_day (now : Z) (start : string) :
  monthStart LocalTZA now = Some start ->
  start = date_text
            (JS.Day (JS.MakeDay
                       (if (0 <=? getFullYear LocalTZA now)
                           && (getFullYear LocalTZA now <=? 99)
                        then 1900 + getFullYear LocalTZA now
                        else getFullYear LocalTZA now)
                       (getMonth LocalTZA now) 1 * JS.msPerDay - LocalTZA)).
Proof.
  unfold monthStart, new_Date_ym1, JS.TimeClip, JS.MakeDate, JS.MakeTime.
  destruct (Z.abs _ <=? 8640000000000000); [|discriminate].
  cbn [JS.toISOString option_map]. intros E.
  assert (Hsome : forall a b : string, Some a = Some b -> b = a)
    by (intros a b H; congruence).
  apply Hsome in E. rewrite E.
  rewrite iso_string_date. f_equal. f_equal.
  unfold JS.msPerHour, JS.msPerMinute, JS.msPerSecond. lia.
Qed.

Lemma first_of_local_month (now : Z) :
  getFullYear LocalTZA now < 0 \/ 100 <= getFullYear LocalTZA now ->
  JS.MakeDay
    (if (0 <=? getFullYear LocalTZA now) && (getFullYear LocalTZA now <=? 99)
     then 1900 + getFullYear LocalTZA now
     else getFullYear LocalTZA now)
    (getMonth LocalTZA now) 1
  = JS.days_from_civil (getFullYear LocalTZA now)
                       (getMonth LocalTZA now + 1) 1.
Proof.
  intros Hyear.
  replace ((0 <=? getFullYear LocalTZA now)
           && (getFullYear LocalTZA now <=? 99))%bool with false
    by (symmetry; apply andb_false_iff;
        destruct Hyear; [left; apply Z.leb_gt|right; apply Z.leb_gt]; lia).
  unfold JS.MakeDay, getMonth, JS.MonthFromTime.
  pose proof (civil_month_range (JS.Day (now + LocalTZA))) as Hm.
  set (m := snd (fst (JS.civil_from_days (JS.Day (now + LocalTZA))))) in *.
  replace ((m - 1) / 12) with 0 by (Z.div_mod_to_equations; lia).
  replace ((m - 1) mod 12) with (m - 1) by (Z.div_mod_to_equations; lia).
  cbv zeta. rewrite Z.add_0_r. lia.
Qed.

(** X21.  In a zone at UTC or west of it (by less than a day), [monthStart]
    is the first day of the current local month, for a year that is not
    in 0..99. *)
Theorem monthStart_at_or_west_of_utc (now : Z) (start : string) :
  - JS.msPerDay < LocalTZA <= 0 ->
  getFullYear LocalTZA now < 0 \/ 100 <= getFullYear LocalTZA now ->
  monthStart LocalTZA now = Some start ->
  start = (JS.iso_year (getFullYear LocalTZA now) ++ "-"
             ++ JS.pad 2 (getMonth LocalTZA now + 1) ++ "-01")%string.
Proof.
  intros Hzone Hyear Hstart.
  rewrite (monthStart_day now start Hstart).
  rewrite (first_of_local_month now Hyear).
  set (D := JS.days_from_civil _ _ 1).
  replace (JS.Day (D * JS.msPerDay - LocalTZA)) with D
    by (unfold JS.Day, JS.msPerDay in *; Z.div_mod_to_equations; lia).
  unfold date_text, D. rewrite civil_first_of_month.
  - reflexivity.
  - unfold getMonth, JS.MonthFromTime.
    pose proof (civil_month_range (JS.Day (now + LocalTZA))). lia.
Qed.

(** X22.  In a zone east of UTC (by at most a day), [monthStart] is the day
    before the first of the current local month. *)
Theorem monthStart_east_of_utc (now : Z) (start : string) :
  0 < LocalTZA <= JS.msPerDay ->
  getFullYear LocalTZA now < 0 \/ 100 <= getFullYear LocalTZA now ->
  monthStart LocalTZA now = Some start ->
  start = date_text
            (JS.days_from_civil (getFullYear LocalTZA now)
                                (getMonth LocalTZA now + 1) 1 - 1).
Proof.
  intros Hzone Hyear Hstart.
  rewrite (monthStart_day now start Hstart).
  rewrite (first_of_local_month now Hyear).
  set (D := JS.days_from_civil _ _ 1).
  f_equal. unfold JS.Day, JS.msPerDay in *. Z.div_mod_to_equations. lia.
Qed.

End CalendarProperties.

(* ================================================================== *)
(** * Further concrete runs                                            *)
(* ================================================================== *)

Module Runs.

(** A ledger of three sessions on two days of March 2025. *)
Definition march : SpendData :=
  mkSpendData [mkSpendSession "a" 1.5 "2025-03-10" 60000 "/x";
               mkSpendSession "b" 2 "2025-03-12" 120000 "/y";
               mkSpendSession "c" 0.25 "2025-03-10" 30000 "/x"].

(** The output of [git diff --numstat] for a text file, a binary file
    and a file whose name has a space. *)
Definition three_files : list NumstatRow :=
  [TextRow 12 3 "src/a.ts"; BinaryRow "img.png"; TextRow 0 7 "b c.txt"].

End Runs.

(** [saveSession] next to the session of another id. *)
Lemma saveSession_keeps_other_sessions_run :
  with_id "s0"
    (sessions (ledger (exec (saveSession 1742040000000 Sample.input_a)
                            Sample.disk_s0)))
  = [Sample.yesterday].
Proof.
  apply (proj1 (proj2 (saveSession_keeps_other_sessions
                         1742040000000 Sample.input_a Sample.disk_s0 "s0"
                         ltac:(discriminate)))).
  intros s [<-|[]]. vm_compute. reflexivity.
Defined.

(** Next to a session whose stored cost is not finite (a file that holds
    1e999): rewriting the ledger turns that cost into [null]. *)
Lemma saveSession_rewrites_infinite_cost :
  with_id "s0"
    (sessions
       (ledger
          (exec (saveSession 1742040000000 Sample.input_a)
                (mkDisk true
                        (Holds (mkSpendData
                                  [mkSpendSession "s0" PrimFloat.infinity
                                                  "2025-03-14" 1000 "/v"]))
                        Missing []))))
  = [mkSpendSession "s0" PrimFloat.nan "2025-03-14" 1000 "/v"].
Proof. vm_compute. reflexivity. Qed.

(** A session saved at noon with a cost of 0.5 and refreshed an hour
    later with a cost of 0.75: the daily total reads 1.25. *)
Lemma totalToday_after_saveSession_run :
  eval (totalToday 1742043600000 Sample.input_b)
       (exec (saveSession 1742040000000 Sample.input_a) Sample.disk_s0)
  = Some 1.25%float.
Proof.
  apply (totalToday_after_saveSession
           1742040000000 1742043600000 Sample.input_a Sample.input_b
           Sample.disk_s0).
  - discriminate.
  - vm_compute. reflexivity.
  - vm_compute. reflexivity.
  - vm_compute. reflexivity.
  - intros s today [<-|[]] Htoday. vm_compute in Htoday.
    injection Htoday as <-. discriminate.
Defined.

(** A session saved with a cost that is not finite (1e999 on standard
    input) is stored with the cost [null], which the daily total reads as
    0: the refresh shows the cost of the input alone. *)
Lemma totalToday_after_infinite_cost :
  sessions
    (ledger (exec (saveSession 1742040000000 Sample.input_endless)
                  Sample.fresh_disk))
  = [mkSpendSession "s1" PrimFloat.nan "2025-03-15" 60000 "/w"]
  /\ eval (getTodayCost 1742043600000)
          (exec (saveSession 1742040000000 Sample.input_endless)
                Sample.fresh_disk)
     = Some 0%float
  /\ eval (totalToday 1742043600000 Sample.input_b)
          (exec (saveSession 1742040000000 Sample.input_endless)
                Sample.fresh_disk)
     = Some 0.75%float
  /\ today_main 1742043600000
                (spend_file
                   (exec (saveSession 1742040000000 Sample.input_endless)
                         Sample.fresh_disk))
     = None.
Proof. repeat split; vm_compute; reflexivity. Qed.

(** A window opened at noon that resets at 15:00, read at 13:00. *)
Lemma getCurrentPeriodCost_after_new_window_run :
  eval (getCurrentPeriodCost Host.parse_iso 1742043600000)
       (exec (updatePeriodCost Host.parse_iso (Host.local_time 0) (Host.utc 0)
                               "s1" 1.5 (Some "2025-03-15T15:01:00.000Z"))
             Sample.fresh_disk)
  = Some 1.5%float.
Proof.
  apply (getCurrentPeriodCost_after_new_window
           Host.parse_iso (Host.local_time 0) (Host.utc 0)
           "s1" 1.5 (Some "2025-03-15T15:01:00.000Z")
           "2025-03-15T15:00:00.000Z" 1742050800000 1742043600000
           Sample.fresh_disk).
  - reflexivity.
  - vm_compute. reflexivity.
  - vm_compute. reflexivity.
  - vm_compute. reflexivity.
  - intros data Hrec. discriminate.
  - vm_compute. reflexivity.
Defined.

(** The same window opened with a cost that is not finite: the record
    holds the cost [null], and so does the value read back; a second
    session of the window then adds its cost to 0. *)
Lemma updatePeriodCost_infinite_cost_is_null :
  period_file
    (exec (updatePeriodCost Host.parse_iso (Host.local_time 0) (Host.utc 0)
                            "s1" PrimFloat.infinity
                            (Some "2025-03-15T15:01:00.000Z"))
          Sample.fresh_disk)
  = Holds (mkPeriodCostData "2025-03-15T15:00:00.000Z" PrimFloat.nan "s1")
  /\ eval (getCurrentPeriodCost Host.parse_iso 1742043600000)
          (exec (updatePeriodCost Host.parse_iso
                                  (Host.local_time 0) (Host.utc 0)
                                  "s1" PrimFloat.infinity
                                  (Some "2025-03-15T15:01:00.000Z"))
                Sample.fresh_disk)
     = Some PrimFloat.nan
  /\ period_file
       (exec (updatePeriodCost Host.parse_iso (Host.local_time 0) (Host.utc 0)
                               "s2" 0.25 (Some "2025-03-15T15:01:00.000Z"))
             (exec (updatePeriodCost Host.parse_iso
                                     (Host.local_time 0) (Host.utc 0)
                                     "s1" PrimFloat.infinity
                                     (Some "2025-03-15T15:01:00.000Z"))
                   Sample.fresh_disk))
     = Holds (mkPeriodCostData "2025-03-15T15:00:00.000Z" 0.25 "s2").
Proof. repeat split; vm_compute; reflexivity. Qed.

(** 1h02m05s and 1h02m59.999s read the same. *)
Lemma formatDuration_same_text_run :
  formatDuration 3725000 = formatDuration 3779999
  /\ formatDuration 3725000 = "1h2m".
Proof.
  split.
  - apply (proj2 (formatDuration_same_text 3725000 3779999
                    ltac:(split; [lia|reflexivity])
                    ltac:(split; [lia|reflexivity]))).
    reflexivity.
  - vm_compute. reflexivity.
Defined.

(** A reset two hours and a half ahead, one that has passed, and one
    that is no date. *)
Lemma formatResetTime_cases_run :
  formatResetTime Host.parse_iso 1742040000000 "2025-03-15T14:30:00.000Z"
  = formatDuration 9000000
  /\ formatResetTime Host.parse_iso 1742040000000 "2025-03-15T11:00:00.000Z"
     = "now"
  /\ formatResetTime Host.parse_iso 1742040000000 "soon" = "NaNm".
Proof.
  split; [|split].
  - apply (proj2 (proj2 (formatResetTime_cases
                           Host.parse_iso 1742040000000
                           "2025-03-15T14:30:00.000Z"))
             1742049000000).
    + vm_compute. reflexivity.
    + lia.
  - apply (proj1 (proj2 (formatResetTime_cases
                           Host.parse_iso 1742040000000
                           "2025-03-15T11:00:00.000Z"))
             1742036400000).
    + vm_compute. reflexivity.
    + lia.
  - apply (proj1 (formatResetTime_cases Host.parse_iso 1742040000000 "soon")).
    vm_compute. reflexivity.
Defined.

(** The ten-cell bar at 33 percent. *)
Lemma progressBar_fills_its_length_run :
  exists bar,
    progressBar (float_of_Z 33) 10 = Some bar
    /\ cells bar = 10
    /\ (forall g, In g (filled bar) -> 1 <= g <= 6)
    /\ (33 = 0 -> filled bar = [])
    /\ (33 = 100 -> emptyPart bar = O).
Proof.
  apply (progressBar_fills_its_length 33 10); lia.
Defined.

(** The five-cell bar at 105 percent. *)
Lemma progressBar_out_of_range_throws_run :
  progressBar (float_of_Z 105) 5 = None.
Proof.
  apply (progressBar_out_of_range_throws 105). left. lia.
Defined.

(** Three files: 12 lines added and 10 deleted. *)
Lemma parseStats_numstat_run :
  parseStats (numstat Runs.three_files) = (12, Some 10).
Proof.
  apply (parseStats_numstat Runs.three_files).
  - repeat constructor; simpl; lia.
  - vm_compute. reflexivity.
  - vm_compute. reflexivity.
Defined.

(** The same output followed by a line that is no statistic. *)
Lemma parseStats_line_without_tab_run :
  snd (parseStats (numstat Runs.three_files ++ "fatal: bad revision"))
  = None.
Proof.
  apply (parseStats_line_without_tab _ "fatal: bad revision").
  - vm_compute. right. right. right. left. reflexivity.
  - vm_compute. reflexivity.
  - vm_compute. reflexivity.
Defined.

(** The today command and the status line on the ledger the first save
    leaves. *)
Lemma today_main_total_is_getTodayCost_run :
  eval (getTodayCost 1742043600000)
       (exec (saveSession 1742040000000 Sample.input_a) Sample.disk_s0)
  = Some 0.5%float.
Proof.
  apply (today_main_total_is_getTodayCost
           1742043600000
           (exec (saveSession 1742040000000 Sample.input_a) Sample.disk_s0)
           (Today "2025-03-15" [mkTodayLine 0.5 60000 "/w"] 0.5 60000 1)).
  vm_compute. reflexivity.
Defined.

(** The month report of [Runs.march] on 2025-03-15, at UTC. *)
Lemma main_counts_every_kept_session_run :
  3%nat
  = List.length (filter (fun s => str_ge (s_date s) "2025-03-01")
                        (sessions Runs.march))
  /\ list_sum (map row_sessions
                   [mkDayRow "2025-03-12" 2 120000 1;
                    mkDayRow "2025-03-10" 1.75 90000 2])
     = 3%nat
  /\ NoDup (map row_date [mkDayRow "2025-03-12" 2 120000 1;
                          mkDayRow "2025-03-10" 1.75 90000 2]).
Proof.
  apply (main_counts_every_kept_session
           0 Host.compare_dates 1742040000000 Runs.march "2025-03-01"
           [mkDayRow "2025-03-12" 2 120000 1;
            mkDayRow "2025-03-10" 1.75 90000 2]
           3.75 210000 3).
  - vm_compute. reflexivity.
  - vm_compute. reflexivity.
Defined.

(** Code-unit comparison orders any two strings one way or the other. *)
Lemma compare_dates_total (a b : string) :
  Host.compare_dates a b <= 0 \/ Host.compare_dates b a <= 0.
Proof.
  unfold Host.compare_dates. rewrite (String.compare_antisym a b).
  destruct (String.compare b a); simpl; lia.
Defined.

Lemma main_rows_newest_first_run :
  Sorted (fun above below => Host.compare_dates below above <= 0)
         (map row_date [mkDayRow "2025-03-12" 2 120000 1;
                        mkDayRow "2025-03-10" 1.75 90000 2]).
Proof.
  apply (main_rows_newest_first
           0 Host.compare_dates 1742040000000 (Holds Runs.march)
           [mkDayRow "2025-03-12" 2 120000 1;
            mkDayRow "2025-03-10" 1.75 90000 2]
           3.75 210000 3).
  - exact compare_dates_total.
  - vm_compute. reflexivity.
Defined.

Lemma main_grand_total_run :
  3.75%float
  = fold_left PrimFloat.add
              (map dayCost [mkDayRow "2025-03-12" 2 120000 1;
                            mkDayRow "2025-03-10" 1.75 90000 2])
              PrimFloat.zero.
Proof.
  apply (main_grand_total
           0 Host.compare_dates 1742040000000 (Holds Runs.march)
           [mkDayRow "2025-03-12" 2 120000 1;
            mkDayRow "2025-03-10" 1.75 90000 2]
           3.75 210000 3).
  vm_compute. reflexivity.
Defined.

Lemma main_rows_dates_run :
  exists s, In s (sessions Runs.march)
            /\ s_date s = "2025-03-10"
            /\ str_ge (s_date s) "2025-03-01" = true.
Proof.
  apply (main_rows_dates
           0 Host.compare_dates 1742040000000 Runs.march
           [mkDayRow "2025-03-12" 2 120000 1;
            mkDayRow "2025-03-10" 1.75 90000 2]
           3.75 210000 3 "2025-03-01"
           ltac:(vm_compute; reflexivity) ltac:(vm_compute; reflexivity)
           (mkDayRow "2025-03-10" 1.75 90000 2)).
  right. left. reflexivity.
Defined.

(** Two transcripts around the same two usage records. *)
Lemma getContextTokens_only_usage_records_run :
  getContextTokens Host.parse_iso (Host.parse_lines Sample.lines)
    (fun p => if String.eqb p "/t/a.jsonl"
              then Holds (Sample.transcript ["early"; "not json"; "late"])
              else Holds (Sample.transcript ["early"; "late"; "{"]))
    "/t/a.jsonl"
  = getContextTokens Host.parse_iso (Host.parse_lines Sample.lines)
      (fun p => if String.eqb p "/t/a.jsonl"
                then Holds (Sample.transcript ["early"; "not json"; "late"])
                else Holds (Sample.transcript ["early"; "late"; "{"]))
      "/t/b.jsonl".
Proof.
  apply (getContextTokens_only_usage_records
           Host.parse_iso (Host.parse_lines Sample.lines) _
           "/t/a.jsonl" "/t/b.jsonl"
           (Sample.transcript ["early"; "not json"; "late"])
           (Sample.transcript ["early"; "late"; "{"])).
  - discriminate.
  - discriminate.
  - reflexivity.
  - reflexivity.
  - vm_compute. reflexivity.
Defined.

(** 2025-03-15T12:00:00Z at UTC and five hours west of it. *)
Lemma monthStart_at_or_west_of_utc_run :
  "2025-03-01" = (JS.iso_year (getFullYear 0 1742040000000) ++ "-"
                    ++ JS.pad 2 (getMonth 0 1742040000000 + 1) ++ "-01")%string
  /\ "2025-03-01"
     = (JS.iso_year (getFullYear (-18000000) 1742040000000) ++ "-"
          ++ JS.pad 2 (getMonth (-18000000) 1742040000000 + 1)
          ++ "-01")%string.
Proof.
  split.
  - apply (monthStart_at_or_west_of_utc 0 1742040000000 "2025-03-01").
    + unfold JS.msPerDay. lia.
    + right. vm_compute. discriminate.
    + vm_compute. reflexivity.
  - apply (monthStart_at_or_west_of_utc
             (-18000000) 1742040000000 "2025-03-01").
    + unfold JS.msPerDay. lia.
    + right. vm_compute. discriminate.
    + vm_compute. reflexivity.
Defined.

(** The same instant nine hours east of UTC. *)
Lemma monthStart_east_of_utc_run :
  "2025-02-28"
  = date_text (JS.days_from_civil (getFullYear 32400000 1742040000000)
                                  (getMonth 32400000 1742040000000 + 1) 1
               - 1).
Proof.
  apply (monthStart_east_of_utc 32400000 1742040000000 "2025-02-28").
  - unfold JS.msPerDay. lia.
  - right. vm_compute. discriminate.
  - vm_compute. reflexivity.
Defined.
